(** * Spaced-repetition scheduling: the SM-2 engine of [sr-algorithm.js]

    A shallow embedding of the [SRAlgorithm] module (interval engine, queue
    ordering, statistics), of the collections and cards of [storage.js] and
    of the study session of [app.js], followed by the properties the
    specification states about them and by further properties of the code.

    Conventions of the embedding.
    - A JavaScript number is an IEEE 754 binary64 value: Rocq's primitive
      [float].  Arithmetic, comparison and rounding are the hardware ones;
      [Math.round], [Math.max], [||] and [slice] are written out.
    - Counters that the code only ever tests with [===], increments or
      subtracts as whole numbers ([quality], [repetitions], [learningStep],
      array lengths, tallies) are kept in [Z]; such operations are exact on
      doubles below 2^53.
    - A calendar date (the [YYYY-MM-DD] prefix of [toISOString]) is its day
      number since the epoch, a timestamp its millisecond count.  The order
      of day numbers is the order [<], [<=] and [localeCompare] give on the
      date strings of years 0000 to 9999; a date outside these years is
      printed with a sign and six digits and compares differently as a
      string, so a property that compares a date the engine has computed
      states that range.
    - The time zone of the host is a parameter [tz] of everything that
      calls [addDays], which parses and prints in UTC and adds the days in
      local time; the examples are evaluated in UTC or in New York.
    - The clock is an argument [now]; the two readings one call of
      [calculateNextReview] makes are taken to be the same.
      [Math.random()] is an argument [rnd], read only where the code calls
      it.
    - Arrays are mutable objects: a [history] field holds a reference into a
      heap of arrays, so that sharing between a card and its updated copy is
      visible. *)

From Stdlib Require Import ZArith Floats Lia List Bool Sorted Permutation.
From stdpp Require Import gmap list strings.

#[local] Set Warnings "-inexact-float".
#[local] Open Scope Z_scope.

(** ** JavaScript numbers *)

Module JS.

Definition number := float.

(** The double nearest to an integer (exact below 2^53). *)
Definition of_Z (z : Z) : number :=
  SF2Prim (binary_normalize prec emax z 0 false).

(** [ToBoolean] of a number: [0], [-0] and [NaN] are falsy. *)
Definition truthy (x : number) : bool := negb (is_zero x || is_nan x).

(** [x || d] where [x] is a number or [undefined]. *)
Definition or_default (x : option number) (d : number) : number :=
  match x with
  | Some v => if truthy v then v else d
  | None => d
  end.

(** [Math.max(a, b)]: [NaN] if either is, and [+0] above [-0]. *)
Definition Math_max (a b : number) : number :=
  if is_nan a || is_nan b then nan
  else if (a <? b)%float then b
  else if (b <? a)%float then a
  else if get_sign a then b else a.

(** The integer part, towards zero, of the finite double [(-1)^s m 2^e]. *)
Definition trunc (s : bool) (m : positive) (e : Z) : Z :=
  cond_Zopp s (Z.shiftl (Zpos m) e).

(** [floor(x + 1/2)] for the finite double [x = (-1)^s m 2^e], [e < 0]. *)
Definition round_half_up (s : bool) (m : positive) (e : Z) : Z :=
  Z.shiftr (2 * cond_Zopp s (Zpos m) + 2 ^ (- e)) (1 - e).

(** [Math.round(x)]: the nearest integer, ties towards +infinity; a result
    of zero keeps the sign of [x]; [NaN], infinities and zeros unchanged. *)
Definition Math_round (x : number) : number :=
  match Prim2SF x with
  | S754_finite s m e =>
      if 0 <=? e then x
      else
        let z := round_half_up s m e in
        if z =? 0 then (if s then neg_zero else zero) else of_Z z
  | _ => x
  end.

(** [ToIntegerOrInfinity] on finite numbers; [None] for [NaN] and the
    infinities. *)
Definition to_integer (x : number) : option Z :=
  match Prim2SF x with
  | S754_zero _ => Some 0
  | S754_finite s m e => Some (trunc s m e)
  | _ => None
  end.

(** [arr.slice(0, limit)]: a negative limit counts from the end, [NaN]
    counts as 0. *)
Definition slice_to {A : Type} (arr : list A) (limit : number) : list A :=
  match Prim2SF limit with
  | S754_nan | S754_zero _ => []
  | S754_infinity s => if s then [] else arr
  | S754_finite s m e =>
      let k := trunc s m e in
      if k <? 0 then take (Z.to_nat (Z.of_nat (length arr) + k)) arr
      else take (Z.to_nat k) arr
  end.

(** [arr.sort(cmp)], a stable sort: [after x y] says that the comparator
    returns a positive number on [(x, y)], so that [x] has to come after
    [y].  Every other answer (negative, zero, [NaN]) leaves [x] in front. *)
Section Sort.
Context {A : Type} (after : A -> A -> bool).

Fixpoint sort_insert (x : A) (l : list A) : list A :=
  match l with
  | [] => [x]
  | y :: l' => if after x y then y :: sort_insert x l' else x :: l
  end.

Definition Array_sort (l : list A) : list A := foldr sort_insert [] l.
End Sort.

End JS.
Import JS.

(** ** Exceptions and results *)

(** The one exception the engine can raise: [toISOString] on an invalid
    [Date] throws a [RangeError]. *)
Inductive exception := RangeError.

Inductive result (A : Type) :=
| Ok (a : A)
| Throw (e : exception).
Arguments Ok {A} a.
Arguments Throw {A} e.

Definition bind {A B : Type} (r : result A) (k : A -> result B) : result B :=
  match r with
  | Ok a => k a
  | Throw e => Throw e
  end.

Notation "'let!' x ':=' r 'in' k" := (bind r (fun x => k))
  (at level 10, x name, r at level 100, k at level 200).

Definition fails {A : Type} (r : result A) : Prop := exists e, r = Throw e.

(** ** Clock, calendar and time zone *)

Definition MS_PER_DAY : Z := 86400000.
Definition MS_PER_HOUR : Z := 3600000.

(** The largest day number a [Date] can hold (8.64e15 ms). *)
Definition MAX_DAY : Z := 100000000.

(** The largest time value [TimeClip] lets through. *)
Definition MAX_TIME : Z := MAX_DAY * MS_PER_DAY.

(** [todayString()], for the clock reading [now]: the UTC date of
    [toISOString]. *)
Definition todayString (now : Z) : Z := now / MS_PER_DAY.

(** [Day(t)] and [TimeWithinDay(t)] of a time value. *)
Definition Day (t : Z) : Z := t / MS_PER_DAY.
Definition TimeWithinDay (t : Z) : Z := t mod MS_PER_DAY.

(** [DateFromTime(t)]: the day of the month, 1 to 31, of the day [Day(t)]
    in the proleptic Gregorian calendar.  The days are counted from
    0000-03-01 in eras of 400 years (146097 days) and years that begin on
    1 March, where the months have 31, 30, 31, 30, 31, 31, 30, 31, 30, 31,
    31 days and the rest. *)
Definition DateFromTime (t : Z) : Z :=
  let z := Day t + 719468 in
  let doe := z mod 146097 in
  let yoe := (doe - doe / 1460 + doe / 36524 - doe / 146096) / 365 in
  let doy := doe - (365 * yoe + yoe / 4 - yoe / 100) in
  let mp := (5 * doy + 2) / 153 in
  doy - (153 * mp + 2) / 5 + 1.

(** The time zone of the host, as [Date] uses it: [utc_offset t] is the
    offset of local time at the instant [t] ([LocalTime(t) = t + offset]),
    [local_offset t] the offset the engine takes for the local time [t]
    ([UTC(t) = t - offset]; where the clocks are set back or forward it
    chooses one).  Offsets are in milliseconds and shorter than a day. *)
Class TimeZone := {
  utc_offset : Z -> Z;
  local_offset : Z -> Z;
  utc_offset_range : forall t, Z.abs (utc_offset t) < MS_PER_DAY;
  local_offset_range : forall t, Z.abs (local_offset t) < MS_PER_DAY
}.

(** UTC. *)
Definition UTC : TimeZone.
Proof.
  refine {| utc_offset := fun _ => 0; local_offset := fun _ => 0 |};
    intros; reflexivity.
Defined.

(** The daylight time of America/New_York in 2023 and 2024, by instant
    (from 07:00 UTC on 12 March 2023 and 10 March 2024 to 06:00 UTC on
    5 November 2023 and 3 November 2024) and by local time (from 03:00; a
    local time before 02:00 on the day the clocks are set back is taken as
    daylight time). *)
Definition New_York_daylight (t : Z) : bool :=
  (19428 * MS_PER_DAY + 7 * MS_PER_HOUR <=? t)
    && (t <? 19666 * MS_PER_DAY + 6 * MS_PER_HOUR)
  || (19792 * MS_PER_DAY + 7 * MS_PER_HOUR <=? t)
    && (t <? 20030 * MS_PER_DAY + 6 * MS_PER_HOUR).

Definition New_York_local_daylight (t : Z) : bool :=
  (19428 * MS_PER_DAY + 3 * MS_PER_HOUR <=? t)
    && (t <? 19666 * MS_PER_DAY + 2 * MS_PER_HOUR)
  || (19792 * MS_PER_DAY + 3 * MS_PER_HOUR <=? t)
    && (t <? 20030 * MS_PER_DAY + 2 * MS_PER_HOUR).

(** America/New_York, for the instants from November 2022 to March 2025:
    UTC-4 in daylight time, UTC-5 otherwise. *)
Definition New_York : TimeZone.
Proof.
  refine {| utc_offset := fun t =>
              if New_York_daylight t then -4 * MS_PER_HOUR
              else -5 * MS_PER_HOUR;
            local_offset := fun t =>
              if New_York_local_daylight t then -4 * MS_PER_HOUR
              else -5 * MS_PER_HOUR |};
    intros t; [destruct (New_York_daylight t)
              |destruct (New_York_local_daylight t)]; reflexivity.
Defined.

(** [addDays(date, days)].  [new Date(date)] is midnight UTC of the date;
    [getDate()] reads the day of the month in local time; [setDate] takes
    the integer part of [getDate() + days], counts the days from the first
    of that local month, keeps the local time of day and converts back;
    [toISOString] prints the UTC date.  A count that is [NaN] or infinite,
    or a time out of range, makes the [Date] invalid, and [toISOString]
    throws. *)
Definition addDays {tz : TimeZone} (date : Z) (days : number) : result Z :=
  let t := date * MS_PER_DAY in
  if Z.abs t <=? MAX_TIME then
    let local := t + utc_offset t in
    match to_integer (of_Z (DateFromTime local) + days)%float with
    | Some dt =>
        let day := Day local - DateFromTime local + dt in
        let local' := day * MS_PER_DAY + TimeWithinDay local in
        let u := local' - local_offset local' in
        if Z.abs u <=? MAX_TIME then Ok (Day u) else Throw RangeError
    | None => Throw RangeError
    end
  else Throw RangeError.

(** ** Data model *)

(** [sr.state]: ['new'], ['learning'], and ['review'] (which the code takes
    for every other value). *)
Inductive State := New | Learning | Review.

#[global] Instance State_eq_dec : EqDecision State.
Proof. solve_decision. Defined.

Record ReviewRecord := {
  r_date : Z;
  r_quality : Z;
  r_interval : number;
  r_easeFactor : number
}.

(** References to history arrays, and the heap that holds the arrays. *)
Definition loc := positive.
Definition heap := gmap loc (list ReviewRecord).

Definition array_at (h : heap) (l : loc) : list ReviewRecord :=
  default [] (h !! l).

Record SR := {
  state : State;
  interval : number;
  easeFactor : number;
  repetitions : Z;
  learningStep : Z;
  dueDate : option Z;
  lastReview : option Z;
  history : option loc
}.

Record Card := {
  id : string;
  sr : SR
}.

Record Settings := {
  newCardsPerDay : option number;
  reviewsPerDay : option number;
  learningSteps : option (list number);
  graduatingInterval : option number;
  easyInterval : option number;
  startingEase : option number
}.

(** [{}], the default of the [settings] parameter. *)
Definition no_settings : Settings :=
  {| newCardsPerDay := None; reviewsPerDay := None; learningSteps := None;
     graduatingInterval := None; easyInterval := None;
     startingEase := None |}.

(** ** The algorithm module *)

Module SRAlgorithm.

Definition DEFAULT_LEARNING_STEPS : list number := [1%float; 10%float].
Definition DEFAULT_GRADUATING_INTERVAL : number := 1%float.
Definition DEFAULT_EASY_INTERVAL : number := 4%float.
Definition MIN_EASE_FACTOR : number := 1.3%float.
Definition DEFAULT_EASE_FACTOR : number := 2.5%float.

(** [applyFuzz(interval)], with [rnd] the value [Math.random()] returns
    when it is called. *)
Definition applyFuzz (interval rnd : number) : number :=
  if (interval <=? 7)%float then interval
  else
    let fuzz := (interval * 0.05)%float in
    Math_round (interval + (rnd * 2 - 1) * fuzz)%float.

(** [handleLearningCard]: new and learning cards. *)
Definition handleLearningCard {tz : TimeZone} (sr : SR) (quality : Z)
    (learningSteps : list number) (graduatingInterval easyInterval : number)
    (today : Z) : result SR :=
  if quality =? 0 then
    Ok {| state := Learning; interval := interval sr;
          easeFactor := easeFactor sr; repetitions := 0; learningStep := 0;
          dueDate := Some today; lastReview := lastReview sr;
          history := history sr |}
  else if quality =? 3 then
    let! due := addDays today easyInterval in
    Ok {| state := Review; interval := easyInterval;
          easeFactor := easeFactor sr; repetitions := 1; learningStep := 0;
          dueDate := Some due; lastReview := lastReview sr;
          history := history sr |}
  else
    let nextStep := learningStep sr + 1 in
    if nextStep >=? Z.of_nat (length learningSteps) then
      let! due := addDays today graduatingInterval in
      Ok {| state := Review; interval := graduatingInterval;
            easeFactor := easeFactor sr; repetitions := 1; learningStep := 0;
            dueDate := Some due; lastReview := lastReview sr;
            history := history sr |}
    else
      Ok {| state := Learning; interval := interval sr;
            easeFactor := easeFactor sr; repetitions := repetitions sr;
            learningStep := nextStep; dueDate := Some today;
            lastReview := lastReview sr; history := history sr |}.

(** [handleReviewCard]: review cards. *)
Definition handleReviewCard {tz : TimeZone} (sr : SR) (quality : Z)
    (today : Z) (rnd : number) : result SR :=
  if quality =? 0 then
    Ok {| state := Learning;
          interval := Math_max 1%float (Math_round (interval sr * 0.5)%float);
          easeFactor := Math_max MIN_EASE_FACTOR (easeFactor sr - 0.2)%float;
          repetitions := 0; learningStep := 0; dueDate := Some today;
          lastReview := lastReview sr; history := history sr |}
  else
    let q' := of_Z (3 - quality) in
    let efDelta := (0.1 - q' * (0.08 + q' * 0.02))%float in
    let ef := Math_max MIN_EASE_FACTOR (easeFactor sr + efDelta)%float in
    let newInterval :=
      if repetitions sr =? 0 then 1%float
      else if repetitions sr =? 1 then 6%float
      else Math_round (interval sr * ef)%float in
    let newInterval :=
      if quality =? 1 then Math_round (newInterval * 0.8)%float
      else if quality =? 3 then Math_round (newInterval * 1.3)%float
      else newInterval in
    let newInterval := applyFuzz newInterval rnd in
    let newInterval := Math_max 1%float newInterval in
    let! due := addDays today newInterval in
    Ok {| state := state sr; interval := newInterval; easeFactor := ef;
          repetitions := repetitions sr + 1; learningStep := learningStep sr;
          dueDate := Some due; lastReview := lastReview sr;
          history := history sr |}.

(** The array [sr.history || []] of the copied record: the card's own
    array when it has one, a new array otherwise. *)
Definition history_ref (h : heap) (sr : SR) : loc :=
  match history sr with
  | Some l => l
  | None => fresh (dom h)
  end.

(** [calculateNextReview(card, quality, settings)], run on the heap [h] at
    the clock reading [now].  The push on the history array happens before
    anything can throw, so the heap is returned in every case. *)
Definition calculateNextReview {tz : TimeZone} (h : heap) (card : Card)
    (quality : Z) (settings : Settings) (now : Z) (rnd : number)
    : heap * result SR :=
  let steps := default DEFAULT_LEARNING_STEPS (learningSteps settings) in
  let graduating :=
    or_default (graduatingInterval settings) DEFAULT_GRADUATING_INTERVAL in
  let easy := or_default (easyInterval settings) DEFAULT_EASY_INTERVAL in
  let sr0 := sr card in
  let today := todayString now in
  let l := history_ref h sr0 in
  let h' :=
    <[ l := array_at h l ++
            [ {| r_date := now; r_quality := quality;
                 r_interval := interval sr0;
                 r_easeFactor := easeFactor sr0 |} ] ]> h in
  let sr1 :=
    {| state := state sr0; interval := interval sr0;
       easeFactor := easeFactor sr0; repetitions := repetitions sr0;
       learningStep := learningStep sr0; dueDate := dueDate sr0;
       lastReview := Some now; history := Some l |} in
  (h',
   match state sr1 with
   | New | Learning =>
       handleLearningCard sr1 quality steps graduating easy today
   | Review => handleReviewCard sr1 quality today rnd
   end).

(** The filter of [getDueCards], for the date string [today]. *)
Definition is_due (today : Z) (card : Card) : bool :=
  match state (sr card) with
  | New => true
  | Learning => true
  | Review =>
      match dueDate (sr card) with
      | Some d => d <=? today
      | None => false
      end
  end.

(** [getDueCards(cards, date)], [date] a timestamp. *)
Definition getDueCards (cards : list Card) (date : Z) : list Card :=
  let dateString := todayString date in
  List.filter (is_due dateString) cards.

Definition is_new (card : Card) : bool :=
  match state (sr card) with New => true | _ => false end.

(** [getNewCards(cards, limit)]. *)
Definition getNewCards (cards : list Card) (limit : number) : list Card :=
  slice_to (List.filter is_new cards) limit.

(** The four arrays [sortStudyQueue] fills.  A review card that is not
    yet due, or has no due date, goes to none of them. *)
Inductive Category := Overdue | DueReview | InLearning | NewCard.

#[global] Instance Category_eq_dec : EqDecision Category.
Proof. solve_decision. Defined.

Definition category (today : Z) (card : Card) : option Category :=
  match state (sr card) with
  | New => Some NewCard
  | Learning => Some InLearning
  | Review =>
      match dueDate (sr card) with
      | Some d =>
          if d <? today then Some Overdue
          else if d =? today then Some DueReview
          else None
      | None => None
      end
  end.

Definition in_category (today : Z) (k : Category) (card : Card) : bool :=
  bool_decide (category today card = Some k).

(** [a.localeCompare(b)] on two date strings. *)
Definition localeCompare (a b : Z) : Z :=
  match a ?= b with
  | Lt => -1
  | Eq => 0
  | Gt => 1
  end.

(** The three comparators, each as "the result is positive". *)
Definition after_dueDate (a b : Card) : bool :=
  match dueDate (sr a), dueDate (sr b) with
  | Some x, Some y => 0 <? localeCompare x y
  | _, _ => false
  end.

Definition after_easeFactor (a b : Card) : bool :=
  (0 <? easeFactor (sr a) - easeFactor (sr b))%float.

Definition after_learningStep (a b : Card) : bool :=
  0 <? learningStep (sr a) - learningStep (sr b).

(** [sortStudyQueue(cards)], at the clock reading [now]. *)
Definition sortStudyQueue (cards : list Card) (now : Z) : list Card :=
  let today := todayString now in
  let overdue := List.filter (in_category today Overdue) cards in
  let dueReview := List.filter (in_category today DueReview) cards in
  let learning := List.filter (in_category today InLearning) cards in
  let newCards := List.filter (in_category today NewCard) cards in
  Array_sort after_dueDate overdue
  ++ Array_sort after_easeFactor dueReview
  ++ Array_sort after_learningStep learning
  ++ newCards.

Record Stats := {
  total : Z;
  newCount : Z;
  learningCount : Z;
  reviewCount : Z;
  dueToday : Z;
  averageEase : number
}.

(** The counters of [getStudyStats] and its loop body. *)
Record Tally := {
  t_new : Z;
  t_learning : Z;
  t_review : Z;
  t_due : Z;
  totalEase : number
}.

Definition tally_card (today : Z) (t : Tally) (card : Card) : Tally :=
  let ease := (totalEase t + easeFactor (sr card))%float in
  match state (sr card) with
  | New =>
      {| t_new := t_new t + 1; t_learning := t_learning t;
         t_review := t_review t; t_due := t_due t + 1; totalEase := ease |}
  | Learning =>
      {| t_new := t_new t; t_learning := t_learning t + 1;
         t_review := t_review t; t_due := t_due t + 1; totalEase := ease |}
  | Review =>
      {| t_new := t_new t; t_learning := t_learning t;
         t_review := t_review t + 1;
         t_due :=
           match dueDate (sr card) with
           | Some d => if d <=? today then t_due t + 1 else t_due t
           | None => t_due t
           end;
         totalEase := ease |}
  end.

(** [getStudyStats(cards)], at the clock reading [now]. *)
Definition getStudyStats (cards : list Card) (now : Z) : Stats :=
  let today := todayString now in
  let t :=
    fold_left (tally_card today) cards
      {| t_new := 0; t_learning := 0; t_review := 0; t_due := 0;
         totalEase := 0%float |} in
  let n := Z.of_nat (length cards) in
  {| total := n; newCount := t_new t; learningCount := t_learning t;
     reviewCount := t_review t; dueToday := t_due t;
     averageEase :=
       if 0 <? n then (totalEase t / of_Z n)%float
       else DEFAULT_EASE_FACTOR |}.

(** The calls of [getIntervalEstimates] for the given qualities: each is
    made on a shallow copy of the card, so it sees the card's own state and
    the card's own history array.  An exception ends the loop. *)
Fixpoint estimate_calls {tz : TimeZone} (h : heap) (card : Card)
    (settings : Settings) (now : Z) (rnd : Z -> number) (qualities : list Z)
    : heap * result (list (number * State)) :=
  match qualities with
  | [] => (h, Ok [])
  | quality :: rest =>
      let '(h', r) :=
        calculateNextReview h card quality settings now (rnd quality) in
      match r with
      | Ok s =>
          let '(h'', rs) := estimate_calls h' card settings now rnd rest in
          (h'', let! estimates := rs in Ok ((interval s, state s) :: estimates))
      | Throw e => (h', Throw e)
      end
  end.

(** [getIntervalEstimates(card, settings)], up to the formatting: the
    interval and state of each quality's result, which the code hands to
    [formatInterval] for display.  [rnd q] is the draw of the call for
    quality [q]. *)
Definition getIntervalEstimates {tz : TimeZone} (h : heap) (card : Card)
    (settings : Settings) (now : Z) (rnd : Z -> number)
    : heap * result (list (number * State)) :=
  estimate_calls h card settings now rnd [0; 1; 2; 3].

(** The two counters of [calculateRetention]: (totalReviews,
    correctReviews). *)
Definition count_review (acc : Z * Z) (review : ReviewRecord) : Z * Z :=
  let '(totalReviews, correctReviews) := acc in
  (totalReviews + 1,
   if r_quality review >=? 2 then correctReviews + 1 else correctReviews).

Definition count_card (h : heap) (acc : Z * Z) (card : Card) : Z * Z :=
  match history (sr card) with
  | Some l => fold_left count_review (array_at h l) acc
  | None => acc
  end.

(** [calculateRetention(cards)], reading the history arrays in [h]. *)
Definition calculateRetention (h : heap) (cards : list Card) : number :=
  let '(totalReviews, correctReviews) :=
    fold_left (count_card h) cards (0, 0) in
  if 0 <? totalReviews
  then (of_Z correctReviews / of_Z totalReviews * 100)%float
  else 0%float.

(** What [formatInterval] returns: the fixed texts, and for the three
    templates the number the template prints (['${interval}d'],
    ['${Math.round(interval / 30)}mo'], ['${(interval / 365).toFixed(1)}y']),
    left unprinted. *)
Inductive IntervalLabel :=
| LessThanDay
| OneDay
| DaysLabel (interval : number)
| MonthsLabel (months : number)
| YearsLabel (years : number).

(** [formatInterval(interval, state)]. *)
Definition formatInterval (interval : number) (state : State)
    : IntervalLabel :=
  match state with
  | Learning => LessThanDay
  | _ =>
      if (interval =? 0)%float then LessThanDay
      else if (interval =? 1)%float then OneDay
      else if (interval <? 30)%float then DaysLabel interval
      else if (interval <? 365)%float
      then MonthsLabel (Math_round (interval / 30)%float)
      else YearsLabel (interval / 365)%float
  end.

End SRAlgorithm.
Import SRAlgorithm.

(** ** The session queue of [app.js] *)

Module App.

(** The queue [startStudySession] builds for a collection: due cards,
    capped per kind, in study order.  [settings] is [collection.settings],
    which may be missing. *)
Definition startStudySession (settings : option Settings)
    (allCards : list Card) (now : Z) : list Card :=
  let dueCards := getDueCards allCards now in
  let newLimit := or_default (settings ≫= newCardsPerDay) 20%float in
  let reviewLimit := or_default (settings ≫= reviewsPerDay) 200%float in
  let newCards :=
    slice_to (List.filter is_new dueCards) newLimit in
  let reviewCards :=
    slice_to (List.filter (fun c => negb (is_new c)) dueCards) reviewLimit in
  sortStudyQueue (reviewCards ++ newCards) now.

End App.

(** ** The settings a new collection is stored with ([storage.js]) *)

Module Storage.

(** The [settings] object of [collections.create(data)], from
    [data.settings], which may be missing. *)
Definition create_settings (data : option Settings) : Settings :=
  {| newCardsPerDay :=
       Some (or_default (data ≫= newCardsPerDay) 20%float);
     reviewsPerDay :=
       Some (or_default (data ≫= reviewsPerDay) 200%float);
     learningSteps :=
       Some (default [1%float; 10%float] (data ≫= learningSteps));
     graduatingInterval :=
       Some (or_default (data ≫= graduatingInterval) 1%float);
     easyInterval := Some (or_default (data ≫= easyInterval) 4%float);
     startingEase := Some (or_default (data ≫= startingEase) 2.5%float) |}.


(** *** The database

    IndexedDB, as far as the module relies on it.  There are two object
    stores, whose key is the [id] of a record: a store is a finite map from
    ids to the other fields.  A read returns what the last [add] or [put]
    under the key stored, as a value: a record is cloned when it is stored
    and when it is read, so that nothing in the database is shared with the
    program.  [add] fails on a key that exists; [delete] of a key that does
    not exist succeeds; an index returns its records in the order of their
    keys (ids are ASCII strings); requests fail for no other reason.  Calls
    run one after the other.

    Of a card the collection, the dates and the scheduling state are kept
    (not the texts and the media); of a collection the name, the dates, the
    settings and the statistics. *)

Record StoredSR := {
  stored_state : State;
  stored_interval : number;
  stored_easeFactor : number;
  stored_repetitions : Z;
  stored_learningStep : Z;
  stored_dueDate : option Z;
  stored_lastReview : option Z;
  stored_history : option (list ReviewRecord)
}.

Record StoredCard := {
  collectionId : string;
  createdAt : Z;
  updatedAt : Z;
  card_sr : StoredSR
}.

Record CollectionStats := {
  totalCards : Z;
  newCards : Z;
  learningCards : Z;
  reviewCards : Z;
  stats_dueToday : Z;
  stats_averageEase : number
}.

Record Collection := {
  name : string;
  collection_createdAt : Z;
  collection_updatedAt : Z;
  settings : option Settings;
  stats : CollectionStats
}.

Record DB := {
  db_collections : gmap string Collection;
  db_cards : gmap string StoredCard
}.

(** What a rejected promise carries: the module's own error, or an exception
    thrown by the code that ran. *)
Inductive failure :=
| StorageError (message operation store : string)
| Thrown (e : exception)
| TypeError.

(** How a promise ends: resolved, rejected, or never settled. *)
Inductive outcome (A : Type) :=
| Resolved (a : A)
| Rejected (e : failure)
| Pending.
Arguments Resolved {A} a.
Arguments Rejected {A} e.
Arguments Pending {A}.

(** The clone of a scheduling state that is stored: its history array by
    value. *)
Definition clone (h : heap) (sr : SR) : StoredSR :=
  {| stored_state := state sr; stored_interval := interval sr;
     stored_easeFactor := easeFactor sr;
     stored_repetitions := repetitions sr;
     stored_learningStep := learningStep sr;
     stored_dueDate := dueDate sr; stored_lastReview := lastReview sr;
     stored_history := array_at h <$> history sr |}.

(** The object a read hands to the program: its history is a new array. *)
Definition revive (h : heap) (s : StoredSR) : heap * SR :=
  let fields l :=
    {| state := stored_state s; interval := stored_interval s;
       easeFactor := stored_easeFactor s;
       repetitions := stored_repetitions s;
       learningStep := stored_learningStep s;
       dueDate := stored_dueDate s; lastReview := stored_lastReview s;
       history := l |} in
  match stored_history s with
  | Some records =>
      let l := fresh (dom h) in (<[ l := records ]> h, fields (Some l))
  | None => (h, fields None)
  end.

(** A stored card, read into the program. *)
Definition read_card (h : heap) (c : string * StoredCard) : heap * Card :=
  let '(h', sr) := revive h (card_sr (snd c)) in
  (h', {| id := fst c; sr := sr |}).

(** Stored cards, read into the program one after the other. *)
Fixpoint read_cards (h : heap) (cs : list (string * StoredCard))
    : heap * list Card :=
  match cs with
  | [] => (h, [])
  | c :: rest =>
      let '(h1, card) := read_card h c in
      let '(h2, cards) := read_cards h1 rest in
      (h2, card :: cards)
  end.

(** [timestamp()], for the clock reading [now]. *)
Definition timestamp (now : Z) : Z := now.

(** The records of the cards store, in the order of their keys. *)
Definition all_cards (db : DB) : list (string * StoredCard) :=
  Array_sort (fun a b => String.ltb (fst b) (fst a))
    (map_to_list (db_cards db)).

(** [cards.getByCollection(collectionId)]: the index on [collectionId]. *)
Definition cards_getByCollection (db : DB) (collection : string)
    : list (string * StoredCard) :=
  List.filter (fun c => bool_decide (collectionId (snd c) = collection))
    (all_cards db).

(** The counters of [collections.updateStats] and its loop body. *)
Record StatsTally := {
  tally_new : Z;
  tally_learning : Z;
  tally_review : Z;
  tally_due : Z;
  tally_ease : number
}.

Definition stats_card (today : Z) (t : StatsTally)
    (card : string * StoredCard) : StatsTally :=
  let s := card_sr (snd card) in
  let t1 :=
    match stored_state s with
    | New =>
        {| tally_new := tally_new t + 1; tally_learning := tally_learning t;
           tally_review := tally_review t; tally_due := tally_due t;
           tally_ease := tally_ease t |}
    | Learning =>
        {| tally_new := tally_new t; tally_learning := tally_learning t + 1;
           tally_review := tally_review t; tally_due := tally_due t;
           tally_ease := tally_ease t |}
    | Review =>
        {| tally_new := tally_new t; tally_learning := tally_learning t;
           tally_review := tally_review t + 1; tally_due := tally_due t;
           tally_ease := tally_ease t |}
    end in
  {| tally_new := tally_new t1; tally_learning := tally_learning t1;
     tally_review := tally_review t1;
     tally_due :=
       match stored_dueDate s with
       | Some d => if d <=? today then tally_due t1 + 1 else tally_due t1
       | None => tally_due t1
       end;
     tally_ease := (tally_ease t1 + stored_easeFactor s)%float |}.

(** The [stats] object [collections.updateStats] computes from the cards of
    the collection. *)
Definition compute_stats (allCards : list (string * StoredCard)) (now : Z)
    : CollectionStats :=
  let today := todayString now in
  let t :=
    fold_left (stats_card today) allCards
      {| tally_new := 0; tally_learning := 0; tally_review := 0;
         tally_due := 0; tally_ease := 0%float |} in
  let n := Z.of_nat (length allCards) in
  {| totalCards := n; newCards := tally_new t;
     learningCards := tally_learning t; reviewCards := tally_review t;
     stats_dueToday := tally_due t + tally_new t;
     stats_averageEase :=
       if 0 <? n then (tally_ease t / of_Z n)%float else 2.5%float |}.

(** The [data] of [collections.update]: the keys it may carry, apart from
    [id], [createdAt] and [updatedAt], which the function overwrites. *)
Record CollectionPatch := {
  patch_name : option string;
  patch_settings : option Settings;
  patch_stats : option CollectionStats
}.

(** [{ stats }]. *)
Definition stats_patch (s : CollectionStats) : CollectionPatch :=
  {| patch_name := None; patch_settings := None; patch_stats := Some s |}.

Module collections.

(** [collections.get(id)]: the record, or [null]. *)
Definition get (db : DB) (id : string) : option Collection :=
  db_collections db !! id.

(** [collections.create(data)], [newId] being what [generateId()] returns;
    [data] carries a name and possibly settings. *)
Definition create (db : DB) (newId : string) (data_name : string)
    (data_settings : option Settings) (now : Z) : DB * outcome Collection :=
  let collection :=
    {| name := data_name;
       collection_createdAt := timestamp now;
       collection_updatedAt := timestamp now;
       settings := Some (create_settings data_settings);
       stats :=
         {| totalCards := 0; newCards := 0; learningCards := 0;
            reviewCards := 0; stats_dueToday := 0;
            stats_averageEase := 2.5%float |} |} in
  match db_collections db !! newId with
  | Some _ =>
      (db, Rejected
             (StorageError "Failed to create collection" "write"
                "collections"))
  | None =>
      ({| db_collections := <[ newId := collection ]> (db_collections db);
          db_cards := db_cards db |},
       Resolved collection)
  end.

(** [collections.update(id, data)]. *)
Definition update (db : DB) (id : string) (data : CollectionPatch) (now : Z)
    : DB * outcome Collection :=
  match get db id with
  | None =>
      (db, Rejected
             (StorageError "Collection not found" "update" "collections"))
  | Some existing =>
      let updated :=
        {| name := default (name existing) (patch_name data);
           collection_createdAt := collection_createdAt existing;
           collection_updatedAt := timestamp now;
           settings :=
             match patch_settings data with
             | Some s => Some s
             | None => settings existing
             end;
           stats := default (stats existing) (patch_stats data) |} in
      ({| db_collections := <[ id := updated ]> (db_collections db);
          db_cards := db_cards db |},
       Resolved updated)
  end.

(** [collections.delete(id)]: the cards of the collection, then the
    collection. *)
Definition delete (db : DB) (id : string) : DB * outcome unit :=
  let cardsToDelete := cards_getByCollection db id in
  ({| db_collections := base.delete id (db_collections db);
      db_cards :=
        foldr (fun card m => base.delete (fst card) m) (db_cards db)
          cardsToDelete |},
   Resolved tt).

(** [collections.updateStats(id)]. *)
Definition updateStats (db : DB) (id : string) (now : Z)
    : DB * outcome CollectionStats :=
  let allCards := cards_getByCollection db id in
  let stats := compute_stats allCards now in
  match update db id (stats_patch stats) now with
  | (db', Resolved _) => (db', Resolved stats)
  | (db', Rejected e) => (db', Rejected e)
  | (db', Pending) => (db', Pending)
  end.

End collections.

Module cards.

(** [cards.getByCollection(collectionId)]. *)
Definition getByCollection (db : DB) (collection : string)
    : list (string * StoredCard) :=
  cards_getByCollection db collection.

(** [cards.get(id)]: the record, or [null]. *)
Definition get (db : DB) (id : string) : option StoredCard :=
  db_cards db !! id.

(** The scheduling state of a card that [cards.create] makes. *)
Definition created_sr : StoredSR :=
  {| stored_state := New; stored_interval := 0%float;
     stored_easeFactor := 2.5%float; stored_repetitions := 0;
     stored_learningStep := 0; stored_dueDate := None;
     stored_lastReview := None; stored_history := Some [] |}.

(** [cards.create(data)], [newId] being what [generateId()] returns.  The
    statistics are updated in the success handler of the request: when that
    update fails, the handler stops before it resolves, and nothing rejects
    the promise either. *)
Definition create (db : DB) (newId : string) (data_collectionId : string)
    (now : Z) : DB * outcome (string * StoredCard) :=
  let card :=
    {| collectionId := data_collectionId;
       createdAt := timestamp now; updatedAt := timestamp now;
       card_sr := created_sr |} in
  match db_cards db !! newId with
  | Some _ =>
      (db, Rejected (StorageError "Failed to create card" "write" "cards"))
  | None =>
      let db1 :=
        {| db_collections := db_collections db;
           db_cards := <[ newId := card ]> (db_cards db) |} in
      match collections.updateStats db1 data_collectionId now with
      | (db2, Resolved _) => (db2, Resolved (newId, card))
      | (db2, _) => (db2, Pending)
      end
  end.

(** [cards.update(id, data)], the program's arrays being in [h].  Of the
    keys [data] may carry, [id], [collectionId], [createdAt] and [updatedAt]
    are overwritten; [data_sr] is [data.sr], a scheduling state with every
    field, as [calculateNextReview] returns it, so that the merge
    [{ ...existing.sr, ...data.sr }] is [data.sr]; it is cloned when the
    card is stored. *)
Definition update (db : DB) (h : heap) (id : string) (data_sr : option SR)
    (now : Z) : DB * outcome (string * StoredCard) :=
  match get db id with
  | None => (db, Rejected (StorageError "Card not found" "update" "cards"))
  | Some existing =>
      let updated :=
        {| collectionId := collectionId existing;
           createdAt := createdAt existing;
           updatedAt := timestamp now;
           card_sr :=
             match data_sr with
             | Some sr => clone h sr
             | None => card_sr existing
             end |} in
      let db1 :=
        {| db_collections := db_collections db;
           db_cards := <[ id := updated ]> (db_cards db) |} in
      match collections.updateStats db1 (collectionId existing) now with
      | (db2, Resolved _) => (db2, Resolved (id, updated))
      | (db2, _) => (db2, Pending)
      end
  end.

(** [cards.delete(id)]. *)
Definition delete (db : DB) (id : string) (now : Z) : DB * outcome unit :=
  match get db id with
  | None => (db, Rejected (StorageError "Card not found" "delete" "cards"))
  | Some card =>
      let db1 :=
        {| db_collections := db_collections db;
           db_cards := base.delete id (db_cards db) |} in
      match collections.updateStats db1 (collectionId card) now with
      | (db2, Resolved _) => (db2, Resolved tt)
      | (db2, _) => (db2, Pending)
      end
  end.

(** [cards.getDue(collectionId, date)], [date] a timestamp. *)
Definition getDue (db : DB) (collection : string) (date : Z)
    : list (string * StoredCard) :=
  let allCards := getByCollection db collection in
  let dateString := todayString date in
  List.filter
    (fun card =>
       match stored_state (card_sr (snd card)) with
       | New => true
       | Learning => true
       | Review =>
           match stored_dueDate (card_sr (snd card)) with
           | Some d => d <=? dateString
           | None => false
           end
       end)
    allCards.

End cards.

End Storage.

(** ** The study session of [app.js]

    The part of the application state a session uses, and the functions
    that run it, without what they write to the page.  A function that is
    not [async] returns [Rejected e] when it throws [e]. *)

Module StudySession.

Import Storage.

(** [state.studySession].  An element of the queue may be [null];
    [session_settings] is [None] for a collection stored without a
    [settings] field, for which the algorithm's default parameter [{}]
    applies. *)
Record Session := {
  session_collectionId : string;
  session_settings : option Settings;
  queue : list (option Card);
  currentIndex : Z;
  reviewed : Z;
  correct : Z
}.

(** [state], as far as a session goes. *)
Record AppState := {
  currentCard : option Card;
  studySession : Session
}.

(** [showStudyComplete()]: the statistics of the collection are updated,
    and the call is not awaited. *)
Definition showStudyComplete (db : DB) (session : Session) (now : Z) : DB :=
  fst (collections.updateStats db (session_collectionId session) now).

(** [showNextCard()]: the session is complete, or the card at the current
    index becomes the current card and its front text is read. *)
Definition showNextCard (db : DB) (st : AppState) (now : Z)
    : DB * AppState * outcome unit :=
  let session := studySession st in
  if currentIndex session >=? Z.of_nat (length (queue session)) then
    (showStudyComplete db session now, st, Resolved tt)
  else
    let card :=
      if currentIndex session <? 0 then None
      else mjoin (queue session !! Z.to_nat (currentIndex session)) in
    (db, {| currentCard := card; studySession := session |},
     match card with
     | Some _ => Resolved tt
     | None => Rejected TypeError
     end).

(** [startStudySession(collectionId)]: the queue is built from the cards
    of the collection, read into the program. *)
Definition startStudySession (h : heap) (db : DB) (st : AppState)
    (collection_id : string) (now : Z) : heap * DB * AppState * outcome unit :=
  let collection := collections.get db collection_id in
  let '(h1, allCards) :=
    read_cards h (cards.getByCollection db collection_id) in
  match collection with
  | None => (h1, db, st, Rejected TypeError)
  | Some collection =>
      let dueCards := App.startStudySession (settings collection) allCards now in
      let session :=
        {| session_collectionId := collection_id;
           session_settings := settings collection;
           queue := map Some dueCards; currentIndex := 0; reviewed := 0;
           correct := 0 |} in
      let '(db1, st1, o) :=
        showNextCard db
          {| currentCard := currentCard st; studySession := session |} now in
      (h1, db1, st1, o)
  end.

(** [showAnswer()]: the four estimates for the current card, as texts. *)
Definition showAnswer {tz : TimeZone} (h : heap) (st : AppState) (now : Z)
    (rnd : Z -> number) : heap * outcome (list IntervalLabel) :=
  match currentCard st with
  | None => (h, Rejected TypeError)
  | Some card =>
      let settings :=
        default no_settings (session_settings (studySession st)) in
      let '(h1, r) := getIntervalEstimates h card settings now rnd in
      (h1,
       match r with
       | Ok estimates =>
           Resolved
             (map (fun e => formatInterval (fst e) (snd e)) estimates)
       | Throw e => Rejected (Thrown e)
       end)
  end.

(** [rateCard(quality)]. *)
Definition rateCard {tz : TimeZone} (h : heap) (db : DB) (st : AppState)
    (quality : Z) (now : Z) (rnd : number)
    : heap * DB * AppState * outcome unit :=
  match currentCard st with
  | None => (h, db, st, Rejected TypeError)
  | Some card =>
      let session := studySession st in
      let settings := default no_settings (session_settings session) in
      let '(h1, r) := calculateNextReview h card quality settings now rnd in
      match r with
      | Throw e => (h1, db, st, Rejected (Thrown e))
      | Ok srUpdate =>
          let '(db1, saved) :=
            cards.update db h1 (id card) (Some srUpdate) now in
          match saved with
          | Rejected e => (h1, db1, st, Rejected e)
          | Pending => (h1, db1, st, Pending)
          | Resolved _ =>
              let '(h2, queue2) :=
                if quality =? 0 then
                  match cards.get db1 (id card) with
                  | Some c =>
                      let '(h2, updatedCard) := read_card h1 (id card, c) in
                      (h2, queue session ++ [Some updatedCard])
                  | None => (h1, queue session ++ [None])
                  end
                else (h1, queue session) in
              let session2 :=
                {| session_collectionId := session_collectionId session;
                   session_settings := session_settings session;
                   queue := queue2;
                   currentIndex := currentIndex session + 1;
                   reviewed := reviewed session + 1;
                   correct :=
                     if quality >=? 2 then correct session + 1
                     else correct session |} in
              let '(db2, st2, shown) :=
                showNextCard db1
                  {| currentCard := Some card; studySession := session2 |}
                  now in
              (h2, db2, st2, shown)
          end
      end
  end.

End StudySession.


(** ** Notions used to state the properties *)

Abbreviation emin := (SpecFloat.emin prec emax).

(** The sign of a double that is neither zero nor NaN. *)
Inductive signed (s : bool) : spec_float -> Prop :=
| signed_finite m e : signed s (S754_finite s m e)
| signed_infinity : signed s (S754_infinity s).

(** An integer that orders doubles as they compare: the value scaled by
    [2^-emin], the infinities beyond every finite value. *)
Definition SFkey (x : spec_float) : Z :=
  match x with
  | S754_zero _ | S754_nan => 0
  | S754_infinity s => cond_Zopp s (2 ^ (emax - emin))
  | S754_finite s m e => cond_Zopp s (Zpos m * 2 ^ (e - emin))
  end.

Definition fkey (x : number) : Z := SFkey (Prim2SF x).

(** A finite double: neither NaN nor infinite. *)
Definition finite (x : number) : Prop :=
  match Prim2SF x with
  | S754_zero _ | S754_finite _ _ _ => True
  | _ => False
  end.

(** *** Time zones and dates *)

(** A time zone whose clocks are never changed: one offset at every
    time. *)
Definition fixed_offset (tz : TimeZone) : Prop :=
  exists o, forall t, utc_offset t = o /\ local_offset t = o.

(** The dates that [toISOString] prints as [YYYY-MM-DD], from 0000-01-01 to
    9999-12-31: on these the order of the day numbers is the order of the
    strings. *)
Definition four_digit_year (d : Z) : Prop := -719528 <= d <= 2932896.

(** *** The Review-state update, as the specification words it *)

(** [0.1 - (3-q) x (0.08 + (3-q) x 0.02)]. *)
Definition ease_delta (q : Z) : number :=
  (0.1 - of_Z (3 - q) * (0.08 + of_Z (3 - q) * 0.02))%float.

(** [max(1.3, easeFactor + delta)]. *)
Definition review_ease (ef : number) (q : Z) : number :=
  Math_max 1.3%float (ef + ease_delta q)%float.

(** The base interval: 1, 6, or [round(interval x easeFactor')]. *)
Definition review_base (reps : Z) (interval ef' : number) : number :=
  if reps =? 0 then 1%float
  else if reps =? 1 then 6%float
  else Math_round (interval * ef')%float.

(** Hard: x0.8 and round; Easy: x1.3 and round; Good: unchanged. *)
Definition quality_modifier (q : Z) (i : number) : number :=
  if q =? 1 then Math_round (i * 0.8)%float
  else if q =? 3 then Math_round (i * 1.3)%float
  else i.

(** The fuzz: only an interval that exceeds 7 is perturbed, by the draw
    scaled to [-1, 1) times 5% of the interval, and rounded. *)
Definition fuzzed (interval rnd : number) : number :=
  if (7 <? interval)%float
  then Math_round (interval + (rnd * 2 - 1) * (interval * 0.05))%float
  else interval.

(** Base, quality modifier, fuzz, and the floor of 1. *)
Definition review_interval (s : SR) (q : Z) (rnd : number) : number :=
  Math_max 1%float
    (fuzzed
       (quality_modifier q
          (review_base (repetitions s) (interval s)
             (review_ease (easeFactor s) q)))
       rnd).

(** *** History and errors *)

(** The record of a rating [q] of [card] at [now]: the interval and ease
    factor are those the card has before the update. *)
Definition review_record (card : Card) (q now : Z) : ReviewRecord :=
  {| r_date := now; r_quality := q; r_interval := interval (sr card);
     r_easeFactor := easeFactor (sr card) |}.

(** "A quality outside 0-3 or an empty learning-step sequence makes the call
    fail, and nothing is mutated." *)
Definition rejects_invalid_input : Prop :=
  forall (tz : TimeZone) h card q settings now rnd,
    q < 0 \/ 3 < q \/ learningSteps settings = Some [] ->
    fails (snd (calculateNextReview h card q settings now rnd)) /\
    fst (calculateNextReview h card q settings now rnd) = h.

(** "A Review card that lacks its due date makes the call fail." *)
Definition rejects_malformed_state : Prop :=
  forall (tz : TimeZone) h card q settings now rnd,
    state (sr card) = Review -> dueDate (sr card) = None ->
    fails (snd (calculateNextReview h card q settings now rnd)).

(** [card] with its due date replaced ([None]: removed). *)
Definition with_dueDate (card : Card) (d : option Z) : Card :=
  {| id := id card;
     sr := {| state := state (sr card); interval := interval (sr card);
              easeFactor := easeFactor (sr card);
              repetitions := repetitions (sr card);
              learningStep := learningStep (sr card); dueDate := d;
              lastReview := lastReview (sr card);
              history := history (sr card) |} |}.

(** *** Consecutive ratings *)

(** Consecutive ratings (quality, clock reading, draw) of one card, each
    result stored back as the card's state, as [App.rateCard] does: the
    results of the invocations, in order. *)
Fixpoint rate_all {tz : TimeZone} (h : heap) (card : Card)
    (settings : Settings) (ratings : list (Z * Z * number))
    : list (result SR) :=
  match ratings with
  | [] => []
  | (q, now, rnd) :: rest =>
      let '(h', r) := calculateNextReview h card q settings now rnd in
      r :: match r with
           | Ok s => rate_all h' {| id := id card; sr := s |} settings rest
           | Throw _ => []
           end
  end.

Definition result_interval (r : result SR) : option number :=
  match r with Ok s => Some (interval s) | Throw _ => None end.

(** *** The queue *)

(** The categories of the queue, for the reference date [asOf]. *)
Definition is_overdue (asOf : Z) (c : Card) : bool :=
  match state (sr c), dueDate (sr c) with
  | Review, Some d => d <? asOf
  | _, _ => false
  end.

Definition is_due_on (asOf : Z) (c : Card) : bool :=
  match state (sr c), dueDate (sr c) with
  | Review, Some d => d =? asOf
  | _, _ => false
  end.

Definition is_learning (c : Card) : bool :=
  match state (sr c) with Learning => true | _ => false end.

(** The orders of the categories. *)
Definition dueDate_le (a b : Card) : Prop :=
  match dueDate (sr a), dueDate (sr b) with
  | Some x, Some y => x <= y
  | _, _ => False
  end.

Definition dueDate_lt (a b : Card) : Prop :=
  match dueDate (sr a), dueDate (sr b) with
  | Some x, Some y => x < y
  | _, _ => False
  end.

Definition easeFactor_le (a b : Card) : Prop :=
  (easeFactor (sr a) <=? easeFactor (sr b))%float = true.

Definition learningStep_le (a b : Card) : Prop :=
  learningStep (sr a) <= learningStep (sr b).

(** The ease factor of [c] is a number (not NaN). *)
Definition has_ease (c : Card) : Prop := is_nan (easeFactor (sr c)) = false.

(** *** Statistics, as the specification words them *)

Definition sum_ease (cards : list Card) : number :=
  fold_left (fun acc c => (acc + easeFactor (sr c))%float) cards 0%float.

(** The arithmetic mean of the ease factors. *)
Definition mean_ease (cards : list Card) : number :=
  (sum_ease cards / of_Z (Z.of_nat (length cards)))%float.

Definition reviews_of (h : heap) (card : Card) : list ReviewRecord :=
  match history (sr card) with
  | Some l => array_at h l
  | None => []
  end.

(** The history records of all the cards. *)
Definition all_reviews (h : heap) (cards : list Card) : list ReviewRecord :=
  flat_map (reviews_of h) cards.

Definition is_correct (review : ReviewRecord) : bool := 2 <=? r_quality review.

(** 100 x (records with quality >= 2) / (all records), or 0 without
    records. *)
Definition retention (h : heap) (cards : list Card) : number :=
  let reviews := all_reviews h cards in
  let n := Z.of_nat (length reviews) in
  let k := Z.of_nat (length (List.filter is_correct reviews)) in
  if n =? 0 then 0%float else (100 * (of_Z k / of_Z n))%float.

(** *** Settings *)

(** Settings with one numeric field set. *)
Definition set_graduatingInterval (s : Settings) (v : number) : Settings :=
  {| newCardsPerDay := newCardsPerDay s; reviewsPerDay := reviewsPerDay s;
     learningSteps := learningSteps s; graduatingInterval := Some v;
     easyInterval := easyInterval s; startingEase := startingEase s |}.

Definition set_easyInterval (s : Settings) (v : number) : Settings :=
  {| newCardsPerDay := newCardsPerDay s; reviewsPerDay := reviewsPerDay s;
     learningSteps := learningSteps s;
     graduatingInterval := graduatingInterval s; easyInterval := Some v;
     startingEase := startingEase s |}.

Definition set_newCardsPerDay (s : Settings) (v : number) : Settings :=
  {| newCardsPerDay := Some v; reviewsPerDay := reviewsPerDay s;
     learningSteps := learningSteps s;
     graduatingInterval := graduatingInterval s;
     easyInterval := easyInterval s; startingEase := startingEase s |}.

Definition set_reviewsPerDay (s : Settings) (v : number) : Settings :=
  {| newCardsPerDay := newCardsPerDay s; reviewsPerDay := Some v;
     learningSteps := learningSteps s;
     graduatingInterval := graduatingInterval s;
     easyInterval := easyInterval s; startingEase := startingEase s |}.

(** Settings whose numeric limits are all 0 and whose step sequence is
    empty. *)
Definition zero_settings : Settings :=
  {| newCardsPerDay := Some 0%float; reviewsPerDay := Some 0%float;
     learningSteps := Some []; graduatingInterval := Some 0%float;
     easyInterval := Some 0%float; startingEase := None |}.

(** Settings with an empty step sequence and nothing else. *)
Definition empty_steps : Settings :=
  {| newCardsPerDay := None; reviewsPerDay := None; learningSteps := Some [];
     graduatingInterval := None; easyInterval := None; startingEase := None |}.

(** *** Example cards *)

(** A clock reading on day 19675. *)
Definition example_now : Z := 1700000000000.

(** The scheduling state [Storage.cards.create] gives a card, its empty
    history array at [l]. *)
Definition new_sr (l : loc) : SR :=
  {| state := New; interval := 0%float; easeFactor := 2.5%float;
     repetitions := 0; learningStep := 0; dueDate := None; lastReview := None;
     history := Some l |}.

Definition example_new_card : Card :=
  {| id := "card-0"; sr := new_sr 1%positive |}.

(** The heap in which the array at 1 is empty. *)
Definition example_heap : heap := {[ 1%positive := [] ]}.

(** The review card of the lapse scenario: interval 30, ease factor 2.5,
    five repetitions. *)
Definition example_review_card : Card :=
  {| id := "card-1";
     sr := {| state := Review; interval := 30%float; easeFactor := 2.5%float;
              repetitions := 5; learningStep := 0; dueDate := Some 19670;
              lastReview := Some 1699000000000;
              history := Some 1%positive |} |}.

(** A review card with an interval of 60 days. *)
Definition example_mature_card : Card :=
  {| id := "card-6";
     sr := {| state := Review; interval := 60%float; easeFactor := 2.5%float;
              repetitions := 5; learningStep := 0; dueDate := Some 19675;
              lastReview := Some 1694800000000;
              history := Some 1%positive |} |}.

Definition example_record : ReviewRecord :=
  {| r_date := 1699000000000; r_quality := 2; r_interval := 12%float;
     r_easeFactor := 2.5%float |}.

(** The heap in which the array at 1 holds one record. *)
Definition stored_heap : heap := {[ 1%positive := [example_record] ]}.

(** The heap in which the array at 1 holds three records, rated 2, 0
    and 3. *)
Definition rated_heap : heap :=
  {[ 1%positive :=
       [ {| r_date := 1699000000000; r_quality := 2; r_interval := 0%float;
            r_easeFactor := 2.5%float |};
         {| r_date := 1699100000000; r_quality := 0; r_interval := 1%float;
            r_easeFactor := 2.5%float |};
         {| r_date := 1699200000000; r_quality := 3; r_interval := 1%float;
            r_easeFactor := 2.3%float |} ] ]}.

Definition example_overdue_card : Card :=
  {| id := "card-2";
     sr := {| state := Review; interval := 10%float; easeFactor := 2.7%float;
              repetitions := 3; learningStep := 0; dueDate := Some 19670;
              lastReview := Some 1699000000000; history := None |} |}.

Definition example_due_card : Card :=
  {| id := "card-3";
     sr := {| state := Review; interval := 4%float; easeFactor := 1.9%float;
              repetitions := 2; learningStep := 0; dueDate := Some 19675;
              lastReview := Some 1699000000000; history := None |} |}.

Definition example_low_ease_card : Card :=
  {| id := "card-4";
     sr := {| state := Review; interval := 10%float; easeFactor := 1.3%float;
              repetitions := 3; learningStep := 0; dueDate := Some 19675;
              lastReview := Some 1699000000000;
              history := Some 1%positive |} |}.

Definition example_cards : list Card :=
  [example_new_card; example_due_card; example_overdue_card].

(** The state of [example_new_card] once it has graduated, last rated at
    [now]. *)
Definition graduated (now reps : Z) (i : number) (due : Z) : SR :=
  {| state := Review; interval := i; easeFactor := 2.5%float;
     repetitions := reps; learningStep := 0; dueDate := Some due;
     lastReview := Some now; history := Some 1%positive |}.

(** "Three Good ratings of a new card give the intervals 1, 6, 15." *)
Definition three_goods_reach_15 : Prop :=
  forall (tz : TimeZone) now1 now2 now3 rnd1 rnd2 rnd3,
    map result_interval
      (rate_all example_heap example_new_card no_settings
         [(2, now1, rnd1); (2, now2, rnd2); (2, now3, rnd3)])
    = [Some 1%float; Some 6%float; Some 15%float].

(** *** Learning steps, estimates and further example cards *)

(** [settings.learningSteps || DEFAULT_LEARNING_STEPS]. *)
Definition learning_steps (settings : Settings) : list number :=
  default DEFAULT_LEARNING_STEPS (learningSteps settings).

(** The quality of a rating (quality, clock reading, draw). *)
Definition quality_of (rating : Z * Z * number) : Z := fst (fst rating).

(** The texts [getIntervalEstimates] stores in [estimates[0..3]]: each
    result's interval and state, formatted. *)
Definition estimate_labels (estimates : list (number * State))
    : list IntervalLabel :=
  map (fun e => formatInterval (fst e) (snd e)) estimates.

(** A review card whose ease factor is not a number. *)
Definition example_corrupt_card : Card :=
  {| id := "card-5";
     sr := {| state := Review; interval := 10%float; easeFactor := nan;
              repetitions := 3; learningStep := 0; dueDate := Some 19675;
              lastReview := Some 1699000000000;
              history := Some 1%positive |} |}.

(** *** The database, seen from the algorithm *)

(** A stored card as the algorithm sees it when it does not read the
    history: its id and its scheduling state. *)
Definition without_history (c : string * Storage.StoredCard) : Card :=
  let s := Storage.card_sr (snd c) in
  {| id := fst c;
     sr := {| state := Storage.stored_state s;
              interval := Storage.stored_interval s;
              easeFactor := Storage.stored_easeFactor s;
              repetitions := Storage.stored_repetitions s;
              learningStep := Storage.stored_learningStep s;
              dueDate := Storage.stored_dueDate s;
              lastReview := Storage.stored_lastReview s;
              history := None |} |}.

(** The card has a due date, not after [today]. *)
Definition dated_by (today : Z) (c : Card) : bool :=
  match dueDate (sr c) with
  | Some d => d <=? today
  | None => false
  end.

(** The history stored for the card [id], if the card is stored. *)
Definition stored_history_of (db : Storage.DB) (id : string)
    : option (option (list ReviewRecord)) :=
  (fun c => Storage.stored_history (Storage.card_sr c))
    <$> Storage.cards.get db id.

(** The qualities of the records stored for the card [id]. *)
Definition qualities_of (stored : option (option (list ReviewRecord)))
    : list Z :=
  match stored with
  | Some (Some records) => map r_quality records
  | _ => []
  end.

(** A database with one collection, which holds the new card and the
    review card of the examples, and a card of another collection. *)
Definition example_collection : Storage.Collection :=
  {| Storage.name := "Deck";
     Storage.collection_createdAt := 1698000000000;
     Storage.collection_updatedAt := 1698000000000;
     Storage.settings := Some (Storage.create_settings None);
     Storage.stats :=
       {| Storage.totalCards := 2; Storage.newCards := 1;
          Storage.learningCards := 0; Storage.reviewCards := 1;
          Storage.stats_dueToday := 1;
          Storage.stats_averageEase := 2.5%float |} |}.

Definition example_db : Storage.DB :=
  {| Storage.db_collections := {[ "deck-1" := example_collection ]};
     Storage.db_cards :=
       {[ "card-0" :=
            {| Storage.collectionId := "deck-1";
               Storage.createdAt := 1698000000000;
               Storage.updatedAt := 1698000000000;
               Storage.card_sr := Storage.cards.created_sr |};
          "card-1" :=
            {| Storage.collectionId := "deck-1";
               Storage.createdAt := 1698000000000;
               Storage.updatedAt := 1699000000000;
               Storage.card_sr :=
                 Storage.clone stored_heap (sr example_review_card) |};
          "card-9" :=
            {| Storage.collectionId := "deck-2";
               Storage.createdAt := 1698000000000;
               Storage.updatedAt := 1698000000000;
               Storage.card_sr := Storage.cards.created_sr |} ]} |}.

(** A session on that collection, the review card being shown. *)
Definition example_session : StudySession.AppState :=
  {| StudySession.currentCard := Some example_review_card;
     StudySession.studySession :=
       {| StudySession.session_collectionId := "deck-1";
          StudySession.session_settings := Some (Storage.create_settings None);
          StudySession.queue := [Some example_review_card; Some example_new_card];
          StudySession.currentIndex := 0;
          StudySession.reviewed := 0;
          StudySession.correct := 0 |} |}.

(** The statistics stored with a collection are those of its cards, as
    computed at [now]. *)
Definition stats_in_sync (db : Storage.DB) (collection : string) (now : Z)
    : Prop :=
  Storage.stats <$> Storage.collections.get db collection =
    Some (Storage.compute_stats
            (Storage.cards.getByCollection db collection) now).

(** The card [cards.create] stores for a collection at [now]. *)
Definition created_card (collection : string) (now : Z)
    : Storage.StoredCard :=
  {| Storage.collectionId := collection; Storage.createdAt := now;
     Storage.updatedAt := now; Storage.card_sr := Storage.cards.created_sr |}.

(** The database with the card [c] stored under [k], with the card under
    [k] removed, and with the statistics of a collection updated. *)
Definition put_card (db : Storage.DB) (k : string) (c : Storage.StoredCard)
    : Storage.DB :=
  {| Storage.db_collections := Storage.db_collections db;
     Storage.db_cards := <[ k := c ]> (Storage.db_cards db) |}.

Definition drop_card (db : Storage.DB) (k : string) : Storage.DB :=
  {| Storage.db_collections := Storage.db_collections db;
     Storage.db_cards := delete k (Storage.db_cards db) |}.

Definition refreshed (db : Storage.DB) (collection : string) (now : Z)
    : Storage.DB :=
  fst (Storage.collections.updateStats db collection now).

(** The card [cards.update] stores over [existing] at [now], [data_sr]
    being [data.sr] and the program's arrays being in [h]. *)
Definition updated_card (existing : Storage.StoredCard) (h : heap)
    (data_sr : option SR) (now : Z) : Storage.StoredCard :=
  {| Storage.collectionId := Storage.collectionId existing;
     Storage.createdAt := Storage.createdAt existing;
     Storage.updatedAt := now;
     Storage.card_sr :=
       match data_sr with
       | Some sr => Storage.clone h sr
       | None => Storage.card_sr existing
       end |}.

(** Two scheduling states that differ in their history reference at most. *)
Definition same_schedule (a b : SR) : Prop :=
  state a = state b /\ interval a = interval b /\
  easeFactor a = easeFactor b /\ repetitions a = repetitions b /\
  learningStep a = learningStep b /\ dueDate a = dueDate b /\
  lastReview a = lastReview b.

(** What a step of the session leaves: the program's arrays, the database,
    the application state, and how the call ended. *)
Definition run_heap {A} (r : heap * Storage.DB * StudySession.AppState * A)
    : heap := fst (fst (fst r)).

Definition run_db {A} (r : heap * Storage.DB * StudySession.AppState * A)
    : Storage.DB := snd (fst (fst r)).

Definition run_state {A} (r : heap * Storage.DB * StudySession.AppState * A)
    : StudySession.AppState := snd (fst r).

Definition run_outcome {A} (r : heap * Storage.DB * StudySession.AppState * A)
    : A := snd r.

(** The settings a session passes to the algorithm: [session.settings], or
    the default [{}] of the parameter when it is undefined. *)
Definition session_settings_of (st : StudySession.AppState) : Settings :=
  default no_settings
    (StudySession.session_settings (StudySession.studySession st)).

(** A session in which the card shown cannot be rated: its ease factor is
    not a number. *)
Definition corrupt_session : StudySession.AppState :=
  {| StudySession.currentCard := Some example_corrupt_card;
     StudySession.studySession :=
       StudySession.studySession example_session |}.

(** The history array of a card, if it has one. *)
Definition history_loc (card : Card) : option loc := history (sr card).

(** [card], whose arrays are in [h], is a copy of the stored card [c]: the
    same id, and the same scheduling state and history once cloned. *)
Definition copy_of (h : heap) (card : Card) (c : string * Storage.StoredCard)
    : Prop :=
  id card = fst c /\ Storage.clone h (sr card) = Storage.card_sr (snd c).

(** The collection [collections.create] stores at [now]. *)
Definition created_collection (data_name : string)
    (data_settings : option Settings) (now : Z) : Storage.Collection :=
  {| Storage.name := data_name; Storage.collection_createdAt := now;
     Storage.collection_updatedAt := now;
     Storage.settings := Some (Storage.create_settings data_settings);
     Storage.stats :=
       {| Storage.totalCards := 0; Storage.newCards := 0;
          Storage.learningCards := 0; Storage.reviewCards := 0;
          Storage.stats_dueToday := 0;
          Storage.stats_averageEase := 2.5%float |} |}.

(** Settings that have every field, the numbers all truthy (neither 0 nor
    NaN). *)
Definition all_truthy (s : Settings) : Prop :=
  (exists v, newCardsPerDay s = Some v /\ truthy v = true) /\
  (exists v, reviewsPerDay s = Some v /\ truthy v = true) /\
  (exists v, graduatingInterval s = Some v /\ truthy v = true) /\
  (exists v, easyInterval s = Some v /\ truthy v = true) /\
  (exists v, startingEase s = Some v /\ truthy v = true) /\
  (exists steps, learningSteps s = Some steps).

(** * Properties *)

(** ** The JavaScript operations on sample values *)

Example Math_round_samples :
  Math_round 2.5%float = 3%float /\ Math_round (-2.5)%float = (-2)%float /\
  Math_round 0.49999999999999994%float = 0%float /\
  Math_round (-0.2)%float = neg_zero /\ Math_round 56.8%float = 57%float /\
  Math_round 1e300%float = 1e300%float /\ Math_round infinity = infinity.
Proof. repeat split. Qed.

Example Math_max_samples :
  Math_max 1%float 0.5%float = 1%float /\ Math_max 1%float nan = nan /\
  Math_max neg_zero 0%float = 0%float /\
  Math_max 1.3%float 2.3%float = 2.3%float.
Proof. repeat split. Qed.

Example or_default_samples :
  or_default (Some 0%float) 20%float = 20%float /\
  or_default (Some neg_zero) 20%float = 20%float /\
  or_default (Some nan) 20%float = 20%float /\
  or_default None 20%float = 20%float /\
  or_default (Some 5%float) 20%float = 5%float.
Proof. repeat split. Qed.

Example slice_to_samples :
  slice_to [1; 2; 3; 4; 5] 2.7%float = [1; 2] /\
  slice_to [1; 2; 3; 4; 5] (-2)%float = [1; 2; 3] /\
  slice_to [1; 2; 3; 4; 5] 20%float = [1; 2; 3; 4; 5] /\
  slice_to [1; 2; 3; 4; 5] infinity = [1; 2; 3; 4; 5].
Proof. repeat split. Qed.

(** In UTC six days after 14 November 2023 (day 19675) is 20 November;
    the fraction is dropped from the day of the month plus the count, so
    that [-0.5] gives the day before; in New York one day after 10 March
    2024 (day 19792), the day the clocks are set forward, is the same day,
    and 150 days after 14 November 2023 is the 149th day, 11 April 2024. *)
Example addDays_samples :
  addDays (tz := UTC) 19675 6%float = Ok 19681 /\
  addDays (tz := UTC) 19675 (-0.5)%float = Ok 19674 /\
  addDays (tz := UTC) 19675 nan = Throw RangeError /\
  addDays (tz := UTC) 19675 1e300%float = Throw RangeError /\
  addDays (tz := New_York) 19792 1%float = Ok 19792 /\
  addDays (tz := New_York) 19675 150%float = Ok 19824.
Proof. repeat split; vm_compute; reflexivity. Qed.

Example DateFromTime_samples :
  DateFromTime 0 = 1 /\
  DateFromTime (19675 * MS_PER_DAY) = 14 /\
  DateFromTime (19782 * MS_PER_DAY) = 29 /\
  DateFromTime (-1) = 31 /\
  DateFromTime (-719528 * MS_PER_DAY) = 1.
Proof. repeat split. Qed.

Example Array_sort_stable :
  Array_sort (fun a b : Z * Z => 0 <? fst a - fst b)
    [(2, 0); (1, 1); (2, 2); (1, 3)] = [(1, 1); (1, 3); (2, 0); (2, 2)].
Proof. reflexivity. Qed.

(** ** Facts about doubles

    Rounding, comparison and subtraction of binary64 values, from their
    specification in [SpecFloat]. *)

Lemma digits2_pos_size p : digits2_pos p = Pos.size p.
Proof. induction p; simpl; congruence. Qed.

Lemma digits2_bounds p :
  2 ^ (Zpos (digits2_pos p) - 1) <= Zpos p < 2 ^ Zpos (digits2_pos p).
Proof.
  rewrite digits2_pos_size.
  pose proof (Pos.size_gt p) as Hgt. pose proof (Pos.size_le p) as Hle.
  split.
  - apply Pos2Z.pos_le_pos in Hle.
    rewrite Pos2Z.inj_pow, Pos2Z.inj_xO in Hle.
    assert (E : 2 ^ Zpos (Pos.size p) = 2 * 2 ^ (Zpos (Pos.size p) - 1)).
    { rewrite <- Z.pow_succ_r by lia. f_equal. lia. }
    change ((2 * 1) ^ Zpos (Pos.size p)) with (2 ^ Zpos (Pos.size p)) in Hle.
    rewrite E in Hle. lia.
  - apply Pos2Z.pos_lt_pos in Hgt. rewrite Pos2Z.inj_pow in Hgt. exact Hgt.
Qed.

Lemma iter_pos_iter {A} (f : A -> A) p x :
  SpecFloat.iter_pos f p x = Pos.iter f x p.
Proof.
  revert x. induction p as [p IH|p IH|]; intros x; simpl.
  - rewrite !IH. rewrite <- Pos.iter_swap. rewrite <- Pos.iter_swap.
    reflexivity.
  - rewrite !IH. reflexivity.
  - reflexivity.
Qed.

Lemma shr_1_m r : 0 <= shr_m r -> shr_m (shr_1 r) = Z.div2 (shr_m r).
Proof.
  destruct r as [m rb sb]. simpl. intros H.
  destruct m as [|[p|p|]|p]; simpl; try reflexivity; lia.
Qed.

Lemma shr_m_iter p r :
  0 <= shr_m r ->
  shr_m (SpecFloat.iter_pos shr_1 p r) = Z.shiftr (shr_m r) (Zpos p).
Proof.
  rewrite iter_pos_iter. intros H.
  change (Z.shiftr (shr_m r) (Zpos p)) with (Pos.iter Z.div2 (shr_m r) p).
  induction p as [|p IH] using Pos.peano_ind.
  - simpl. apply shr_1_m, H.
  - rewrite !Pos.iter_succ. rewrite <- IH. apply shr_1_m.
    rewrite IH.
    change (Pos.iter Z.div2 (shr_m r) p) with (Z.shiftr (shr_m r) (Zpos p)).
    apply Z.shiftr_nonneg, H.
Qed.

Lemma shr_record_of_loc_m m l : shr_m (shr_record_of_loc m l) = m.
Proof. destruct l as [|[]]; reflexivity. Qed.

Lemma shr_fexp_pos m e l :
  0 < m -> emin <= e ->
  0 < shr_m (fst (shr_fexp prec emax m e l)) /\
  emin <= snd (shr_fexp prec emax m e l).
Proof.
  intros Hm He. unfold shr_fexp, shr.
  destruct m as [|p|p]; try lia.
  pose proof (digits2_bounds p) as [Hlo Hhi].
  unfold Zdigits2, fexp, SpecFloat.emin, prec, emax in *.
  set (d := Zpos (digits2_pos p)) in *.
  destruct (Z.max (d + e - 53) (3 - 1024 - 53) - e) as [|n|n] eqn:En; simpl;
    rewrite ?shr_record_of_loc_m; try (split; lia).
  rewrite shr_m_iter by (rewrite shr_record_of_loc_m; lia).
  rewrite shr_record_of_loc_m. split; [|lia].
  rewrite Z.shiftr_div_pow2 by lia.
  apply Z.div_str_pos. split; [apply Z.pow_pos_nonneg; lia|].
  apply Z.le_trans with (2 ^ (d - 1)); [|exact Hlo].
  apply Z.pow_le_mono_r; lia.
Qed.

Lemma round_nearest_even_pos m l : 0 < m -> 0 < round_nearest_even m l.
Proof.
  intros H. destruct l as [|[]]; simpl; try lia.
  destruct (Z.even m); lia.
Qed.

Lemma binary_round_aux_signed s m e l :
  0 < m -> emin <= e -> signed s (binary_round_aux prec emax s m e l).
Proof.
  intros Hm He. unfold binary_round_aux.
  pose proof (shr_fexp_pos m e l Hm He) as [H1 H2].
  destruct (shr_fexp prec emax m e l) as [r1 e1]. simpl in H1, H2.
  pose proof (round_nearest_even_pos _ (loc_of_shr_record r1) H1) as H1'.
  pose proof (shr_fexp_pos _ e1 loc_Exact H1' H2) as [H3 H4].
  destruct (shr_fexp prec emax _ e1 loc_Exact) as [r2 e2]. simpl in H3, H4.
  destruct (shr_m r2) as [|q|q]; try lia.
  destruct (e2 <=? emax - prec); constructor.
Qed.

Lemma shl_align_fst m e e' :
  e' <= e -> Zpos (fst (shl_align m e e')) = Zpos m * 2 ^ (e - e').
Proof.
  intros H. unfold shl_align.
  destruct (e' - e) as [|d|d] eqn:E; try lia.
  - replace (e - e') with 0 by lia. simpl. lia.
  - replace (e - e') with (Zpos d) by lia.
    rewrite <- Z.shiftl_mul_pow2 by lia. cbn [fst].
    change (Z.shiftl (Zpos m) (Zpos d)) with (Pos.iter (Z.mul 2) (Zpos m) d).
    apply Pos.iter_swap_gen. reflexivity.
Qed.


Lemma binary_round_signed s m e :
  emin <= e -> signed s (binary_round prec emax s m e).
Proof.
  intros He. unfold binary_round.
  destruct (shl_align m e _) as [mz ez] eqn:E.
  apply binary_round_aux_signed; [lia|].
  unfold shl_align in E.
  destruct (fexp prec emax (Zpos (digits2_pos m) + e) - e) eqn:E';
    inversion E; subst; try lia.
  unfold fexp, SpecFloat.emin, prec, emax in *. lia.
Qed.

Lemma binary_normalize_sign d e :
  emin <= e ->
  match d with
  | 0 => binary_normalize prec emax d e false = S754_zero false
  | Zpos _ => signed false (binary_normalize prec emax d e false)
  | Zneg _ => signed true (binary_normalize prec emax d e false)
  end.
Proof.
  intros He. destruct d; simpl; auto using binary_round_signed.
Qed.

Lemma bounded_inv m e :
  bounded prec emax m e = true ->
  emin <= e <= emax - prec /\
  Zpos (digits2_pos m) <= prec /\
  (emin < e -> Zpos (digits2_pos m) = prec).
Proof.
  unfold bounded, canonical_mantissa, fexp, SpecFloat.emin, prec, emax.
  intros H. apply andb_prop in H as [H1 H2].
  apply Z.eqb_eq in H1. apply Z.leb_le in H2. lia.
Qed.

Lemma key_lt_of_exp_lt mx ex my ey :
  bounded prec emax mx ex = true -> bounded prec emax my ey = true ->
  ex < ey -> Zpos mx * 2 ^ (ex - emin) < Zpos my * 2 ^ (ey - emin).
Proof.
  intros Hx Hy Hlt.
  apply bounded_inv in Hx as (Hex & Hdx & _).
  apply bounded_inv in Hy as (Hey & _ & Hdy).
  specialize (Hdy ltac:(lia)).
  pose proof (digits2_bounds mx) as [_ Hmx].
  pose proof (digits2_bounds my) as [Hmy _].
  rewrite Hdy in Hmy.
  assert (Hmx' : Zpos mx < 2 ^ prec).
  { eapply Z.lt_le_trans; [exact Hmx|]. apply Z.pow_le_mono_r; lia. }
  replace (ey - emin) with ((ex - emin) + (ey - ex)) by lia.
  rewrite Z.pow_add_r by lia.
  assert (HP : 0 < 2 ^ (ex - emin)) by (apply Z.pow_pos_nonneg; lia).
  assert (HQ : 2 ^ 1 <= 2 ^ (ey - ex)) by (apply Z.pow_le_mono_r; lia).
  assert (HH : 2 ^ prec = 2 * 2 ^ (prec - 1)).
  { rewrite <- Z.pow_succ_r by (unfold prec; lia). reflexivity. }
  change (2 ^ 1) with 2 in HQ.
  set (P := 2 ^ (ex - emin)) in *. set (Q := 2 ^ (ey - ex)) in *.
  set (H := 2 ^ (prec - 1)) in *. clearbody P Q H.
  rewrite HH in Hmx'.
  assert (S1 : Zpos mx * P < 2 * H * P) by (apply Z.mul_lt_mono_pos_r; lia).
  assert (S2 : 2 * H * P <= 2 * Zpos my * P)
    by (apply Z.mul_le_mono_nonneg_r; lia).
  assert (S3 : Zpos my * P * 2 <= Zpos my * P * Q)
    by (apply Z.mul_le_mono_nonneg_l; lia).
  lia.
Qed.

Lemma cmp_pos_finite mx ex my ey :
  bounded prec emax mx ex = true -> bounded prec emax my ey = true ->
  match ex ?= ey with
  | Lt => Lt
  | Gt => Gt
  | Eq => Pos.compare_cont Eq mx my
  end = (Zpos mx * 2 ^ (ex - emin) ?= Zpos my * 2 ^ (ey - emin)).
Proof.
  intros Hx Hy. destruct (Z.compare_spec ex ey) as [E|E|E].
  - subst ey.
    assert (HP : 0 < 2 ^ (ex - emin)).
    { apply bounded_inv in Hx. apply Z.pow_pos_nonneg; lia. }
    change (Pos.compare_cont Eq mx my) with (Zpos mx ?= Zpos my).
    destruct (Z.compare_spec (Zpos mx) (Zpos my)) as [E|E|E]; symmetry.
    + apply Z.compare_eq_iff. congruence.
    + apply Z.compare_lt_iff. apply Z.mul_lt_mono_pos_r; assumption.
    + apply Z.compare_gt_iff. apply Z.mul_lt_mono_pos_r; assumption.
  - symmetry. apply Z.compare_lt_iff. now apply key_lt_of_exp_lt.
  - symmetry. apply Z.compare_gt_iff. now apply key_lt_of_exp_lt.
Qed.

Lemma finite_key_bounds m e :
  bounded prec emax m e = true ->
  0 < Zpos m * 2 ^ (e - emin) < 2 ^ (emax - emin).
Proof.
  intros Hb. apply bounded_inv in Hb as (He & Hd & _).
  pose proof (digits2_bounds m) as [_ Hm].
  assert (Hm' : Zpos m < 2 ^ prec).
  { eapply Z.lt_le_trans; [exact Hm|]. apply Z.pow_le_mono_r; lia. }
  assert (HP : 0 < 2 ^ (e - emin)) by (apply Z.pow_pos_nonneg; lia).
  split; [lia|].
  apply Z.lt_le_trans with (2 ^ prec * 2 ^ (e - emin)).
  - apply Z.mul_lt_mono_pos_r; assumption.
  - unfold SpecFloat.emin, prec, emax in *.
    rewrite <- Z.pow_add_r by lia.
    apply Z.pow_le_mono_r; lia.
Qed.

Lemma SFcompare_key x y :
  valid_binary x = true -> valid_binary y = true ->
  x <> S754_nan -> y <> S754_nan ->
  SFcompare x y = Some (SFkey x ?= SFkey y).
Proof.
  intros Vx Vy Nx Ny.
  assert (HI : 0 < 2 ^ (emax - emin)).
  { apply Z.pow_pos_nonneg; unfold emax, SpecFloat.emin, prec; lia. }
  destruct x as [sx|sx| |sx mx ex], y as [sy|sy| |sy my ey]; try congruence;
    unfold SFkey, SFcompare; clear Nx Ny;
    try (pose proof (finite_key_bounds mx ex Vx));
    try (pose proof (finite_key_bounds my ey Vy));
    try (rewrite (cmp_pos_finite mx ex my ey Vx Vy));
    try (destruct sx); try (destruct sy); unfold cond_Zopp; f_equal; symmetry;
    try (apply Z.compare_eq_iff; lia);
    try (apply Z.compare_lt_iff; lia);
    try (apply Z.compare_gt_iff; lia).
  rewrite Z.compare_opp, Z.compare_antisym.
  rewrite <- (cmp_pos_finite mx ex my ey Vx Vy).
  destruct (ex ?= ey); reflexivity.
Qed.

Lemma cond_Zopp_mul s a b : cond_Zopp s (a * b) = cond_Zopp s a * b.
Proof. destruct s; simpl; lia. Qed.

Lemma sub_sign_aligned a b ex ey :
  emin <= ex -> emin <= ey ->
  SFltb (S754_zero false)
    (binary_normalize prec emax
       (a * 2 ^ (ex - Z.min ex ey) - b * 2 ^ (ey - Z.min ex ey))
       (Z.min ex ey) false)
  = match b * 2 ^ (ey - emin) ?= a * 2 ^ (ex - emin) with
    | Lt => true
    | _ => false
    end.
Proof.
  intros Hex Hey. set (ez := Z.min ex ey).
  set (d := a * 2 ^ (ex - ez) - b * 2 ^ (ey - ez)).
  assert (HK : 0 < 2 ^ (ez - emin)) by (apply Z.pow_pos_nonneg; lia).
  assert (E : a * 2 ^ (ex - emin) - b * 2 ^ (ey - emin) = d * 2 ^ (ez - emin)).
  { unfold d.
    rewrite Z.mul_sub_distr_r, <- !Z.mul_assoc, <- !Z.pow_add_r by lia.
    f_equal; f_equal; f_equal; lia. }
  pose proof (binary_normalize_sign d ez ltac:(lia)) as Hs.
  destruct d as [|p|p] eqn:Ed.
  - rewrite Hs. replace (b * 2 ^ (ey - emin)) with (a * 2 ^ (ex - emin)) by lia.
    rewrite Z.compare_refl. reflexivity.
  - assert (L : b * 2 ^ (ey - emin) < a * 2 ^ (ex - emin)) by nia.
    apply Z.compare_lt_iff in L. rewrite L.
    destruct Hs; reflexivity.
  - assert (L : a * 2 ^ (ex - emin) < b * 2 ^ (ey - emin)) by nia.
    apply Z.compare_gt_iff in L. rewrite L.
    destruct Hs; reflexivity.
Qed.

(** The sign of a computed difference is the sign of the exact one: the
    comparator [a - b] orders doubles as [<] does. *)
Lemma sub_pos_iff_lt x y : (0 <? x - y)%float = (y <? x)%float.
Proof.
  rewrite !ltb_spec, sub_spec.
  pose proof (Prim2SF_valid x) as Vx. pose proof (Prim2SF_valid y) as Vy.
  change (Prim2SF 0) with (S754_zero false).
  destruct (Prim2SF x) as [sx|sx| |sx mx ex] eqn:Ex,
           (Prim2SF y) as [sy|sy| |sy my ey] eqn:Ey;
    try (destruct sx); try (destruct sy); try reflexivity.
  all: unfold SF64sub, SFsub.
  all: pose proof (bounded_inv _ _ Vx) as (Hex & _ & _);
       pose proof (bounded_inv _ _ Vy) as (Hey & _ & _).
  all: unfold SFltb at 2; rewrite (SFcompare_key _ _ Vy Vx) by discriminate.
  all: unfold SFkey.
  all: rewrite !shl_align_fst by lia.
  all: rewrite !cond_Zopp_mul.
  all: apply sub_sign_aligned; lia.
Qed.




Lemma is_nan_spec x : is_nan x = true <-> Prim2SF x = S754_nan.
Proof.
  unfold is_nan. rewrite FloatAxioms.eqb_spec. unfold SFeqb.
  destruct (Prim2SF x) as [s|s| |s m e] eqn:E; try (destruct s); simpl;
    try rewrite Z.compare_refl, Pos.compare_cont_refl; simpl;
    split; (discriminate || reflexivity).
Qed.

Lemma is_nan_false x : is_nan x = false <-> Prim2SF x <> S754_nan.
Proof.
  rewrite <- is_nan_spec. destruct (is_nan x); split; congruence.
Qed.

Lemma compare_key x y :
  is_nan x = false -> is_nan y = false ->
  SFcompare (Prim2SF x) (Prim2SF y) = Some (fkey x ?= fkey y).
Proof.
  intros Hx Hy. apply SFcompare_key; auto using Prim2SF_valid;
    now apply is_nan_false.
Qed.

Lemma ltb_key x y :
  is_nan x = false -> is_nan y = false ->
  (x <? y)%float = (fkey x <? fkey y).
Proof.
  intros Hx Hy. rewrite ltb_spec. unfold SFltb, Z.ltb.
  rewrite compare_key by assumption. reflexivity.
Qed.

Lemma leb_key x y :
  is_nan x = false -> is_nan y = false ->
  (x <=? y)%float = (fkey x <=? fkey y).
Proof.
  intros Hx Hy. rewrite leb_spec. unfold SFleb, Z.leb.
  rewrite compare_key by assumption. destruct (fkey x ?= fkey y); reflexivity.
Qed.

Lemma leb_true_not_nan x y :
  (x <=? y)%float = true -> is_nan x = false /\ is_nan y = false.
Proof.
  rewrite leb_spec. unfold SFleb. intros H.
  split; apply is_nan_false; intros E; rewrite E in H;
    destruct (Prim2SF x), (Prim2SF y); simpl in H; discriminate.
Qed.

Lemma ltb_true_not_nan x y :
  (x <? y)%float = true -> is_nan x = false /\ is_nan y = false.
Proof.
  rewrite ltb_spec. unfold SFltb. intros H.
  split; apply is_nan_false; intros E; rewrite E in H;
    destruct (Prim2SF x), (Prim2SF y); simpl in H; discriminate.
Qed.

Lemma is_nan_nan x : is_nan x = true -> x = nan.
Proof.
  intros H. apply is_nan_spec in H. apply Prim2SF_inj. rewrite H. reflexivity.
Qed.

Lemma SFadd_finite_not_nan X Y :
  valid_binary X = true -> valid_binary Y = true ->
  X <> S754_nan ->
  match Y with S754_zero _ | S754_finite _ _ _ => True | _ => False end ->
  SF64add X Y <> S754_nan.
Proof.
  intros VX VY NX FY.
  destruct X as [sx|sx| |sx mx ex], Y as [sy|sy| |sy my ey]; try tauto;
    try congruence; try (destruct sx, sy; discriminate); try discriminate.
  unfold SF64add, SFadd.
  pose proof (bounded_inv _ _ VX) as (Hex & _ & _);
  pose proof (bounded_inv _ _ VY) as (Hey & _ & _).
  match goal with |- binary_normalize _ _ ?d ?e _ <> _ =>
    pose proof (binary_normalize_sign d e ltac:(lia)) as Hs; destruct d end.
  - rewrite Hs. discriminate.
  - destruct Hs; discriminate.
  - destruct Hs; discriminate.
Qed.

Lemma SFsub_finite_not_nan X Y :
  valid_binary X = true -> valid_binary Y = true ->
  X <> S754_nan ->
  match Y with S754_zero _ | S754_finite _ _ _ => True | _ => False end ->
  SF64sub X Y <> S754_nan.
Proof.
  intros VX VY NX FY.
  destruct X as [sx|sx| |sx mx ex], Y as [sy|sy| |sy my ey]; try tauto;
    try congruence; try (destruct sx, sy; discriminate); try discriminate.
  unfold SF64sub, SFsub.
  pose proof (bounded_inv _ _ VX) as (Hex & _ & _);
  pose proof (bounded_inv _ _ VY) as (Hey & _ & _).
  match goal with |- binary_normalize _ _ ?d ?e _ <> _ =>
    pose proof (binary_normalize_sign d e ltac:(lia)) as Hs; destruct d end.
  - rewrite Hs. discriminate.
  - destruct Hs; discriminate.
  - destruct Hs; discriminate.
Qed.

Lemma add_not_nan x c :
  is_nan x = false -> finite c -> is_nan (x + c) = false.
Proof.
  intros Hx Hc. apply is_nan_false. rewrite add_spec.
  apply SFadd_finite_not_nan; auto using Prim2SF_valid. now apply is_nan_false.
Qed.

Lemma sub_not_nan x c :
  is_nan x = false -> finite c -> is_nan (x - c) = false.
Proof.
  intros Hx Hc. apply is_nan_false. rewrite sub_spec.
  apply SFsub_finite_not_nan; auto using Prim2SF_valid. now apply is_nan_false.
Qed.

Lemma mul_comm x y : (x * y = y * x)%float.
Proof.
  apply Prim2SF_inj. rewrite !mul_spec. unfold SF64mul, SFmul.
  destruct (Prim2SF x) as [sx|sx| |sx mx ex], (Prim2SF y) as [sy|sy| |sy my ey];
    try reflexivity; try (destruct sx, sy; reflexivity).
  rewrite Pos.mul_comm, Z.add_comm, xorb_comm. reflexivity.
Qed.

Lemma leb_refl x : is_nan x = false -> (x <=? x)%float = true.
Proof. intros H. rewrite leb_key by assumption. lia. Qed.

Lemma Math_max_ge a x :
  is_nan a = false -> is_nan x = false -> (a <=? Math_max a x)%float = true.
Proof.
  intros Ha Hx. unfold Math_max. rewrite Ha, Hx. simpl.
  destruct (a <? x)%float eqn:E1.
  { rewrite ltb_key in E1 by assumption. rewrite leb_key by assumption. lia. }
  destruct (x <? a)%float eqn:E2.
  { now apply leb_refl. }
  destruct (get_sign a).
  - rewrite ltb_key in E1, E2 by assumption. rewrite leb_key by assumption. lia.
  - now apply leb_refl.
Qed.

Lemma Math_round_nan : Math_round nan = nan.
Proof. reflexivity. Qed.

Lemma add_nan_l x y : is_nan x = true -> (x + y)%float = nan.
Proof.
  intros H. apply is_nan_nan, is_nan_spec. rewrite add_spec.
  apply is_nan_spec in H. rewrite H. reflexivity.
Qed.

(** *** Whole numbers

    Doubles of integers below [2^53] and their sums are exact. *)

Lemma digits2_unique p d :
  2 ^ (d - 1) <= Zpos p < 2 ^ d -> Zpos (digits2_pos p) = d.
Proof.
  intros [Hlo Hhi]. pose proof (digits2_bounds p) as [Hlo' Hhi'].
  set (d' := Zpos (digits2_pos p)) in *.
  assert (Hd : 0 < d).
  { destruct (Z_lt_dec 0 d) as [Hp|Hn]; [exact Hp|].
    assert (2 ^ d <= 1); [|lia].
    destruct (Z.eq_dec d 0) as [E|E]; [rewrite E; simpl; lia|].
    rewrite Z.pow_neg_r by lia. lia. }
  destruct (Z.lt_trichotomy d d') as [H|[H|H]]; [|now symmetry|].
  - assert (2 ^ d <= 2 ^ (d' - 1)) by (apply Z.pow_le_mono_r; lia). lia.
  - assert (2 ^ d' <= 2 ^ (d - 1)) by (apply Z.pow_le_mono_r; lia). lia.
Qed.

Lemma iter_xO_Z q n : Zpos (Pos.iter xO q n) = Zpos q * 2 ^ Zpos n.
Proof.
  rewrite <- Z.shiftl_mul_pow2 by lia.
  change (Z.shiftl (Zpos q) (Zpos n)) with (Pos.iter (Z.mul 2) (Zpos q) n).
  apply Pos.iter_swap_gen. reflexivity.
Qed.

Lemma iter_shr_1_exact n q :
  SpecFloat.iter_pos shr_1 n
    {| shr_m := Zpos (Pos.iter xO q n); shr_r := false; shr_s := false |}
  = {| shr_m := Zpos q; shr_r := false; shr_s := false |}.
Proof.
  rewrite iter_pos_iter. revert q.
  induction n as [|n IH] using Pos.peano_ind; intros q.
  - reflexivity.
  - rewrite (Pos.iter_succ n _ xO), (Pos.iter_succ_r n _ shr_1). apply IH.
Qed.

(** Rounding a mantissa of 53 digits, or one that is such a mantissa
    followed by zeros, is exact. *)
Lemma binary_round_aux_exact s q k n :
  Zpos (digits2_pos q) = prec -> emin <= k -> k + n <= emax - prec ->
  0 <= n ->
  binary_round_aux prec emax s (Zpos q * 2 ^ n) k loc_Exact
  = S754_finite s q (k + n).
Proof.
  intros Hd Hk Hkn Hn.
  assert (Hq : fexp prec emax (prec + (k + n)) - (k + n) = 0)
    by (unfold fexp, SpecFloat.emin, prec, emax in *; lia).
  assert (E2 : forall e, e = k + n ->
            shr_fexp prec emax (Zpos q) e loc_Exact
            = ({| shr_m := Zpos q; shr_r := false; shr_s := false |}, e)).
  { intros e ->. unfold shr_fexp, Zdigits2. rewrite Hd, Hq. reflexivity. }
  unfold binary_round_aux.
  destruct n as [|n|n]; [| |lia].
  - rewrite Z.add_0_r in *. change (2 ^ 0) with 1.
    rewrite Z.mul_1_r, E2 by lia.
    cbn [shr_m loc_of_shr_record round_nearest_even].
    rewrite E2 by lia. cbn [shr_m].
    replace (k <=? emax - prec) with true by (symmetry; apply Z.leb_le; lia).
    reflexivity.
  - rewrite <- iter_xO_Z.
    assert (E1 : shr_fexp prec emax (Zpos (Pos.iter xO q n)) k loc_Exact
              = ({| shr_m := Zpos q; shr_r := false; shr_s := false |},
                 k + Zpos n)).
    { unfold shr_fexp, Zdigits2.
      assert (Hdn : Zpos (digits2_pos (Pos.iter xO q n)) = prec + Zpos n).
      { apply digits2_unique. rewrite iter_xO_Z.
        pose proof (digits2_bounds q) as [Hlo Hhi]. rewrite Hd in Hlo, Hhi.
        replace (prec + Zpos n - 1) with ((prec - 1) + Zpos n) by lia.
        rewrite !Z.pow_add_r by (unfold prec; lia).
        assert (0 < 2 ^ Zpos n) by (apply Z.pow_pos_nonneg; lia).
        split; [apply Z.mul_le_mono_nonneg_r; lia
               |apply Z.mul_lt_mono_pos_r; lia]. }
      rewrite Hdn.
      replace (fexp prec emax (prec + Zpos n + k) - k) with (Zpos n)
        by (unfold fexp, SpecFloat.emin, prec, emax in *; lia).
      cbn [shr_record_of_loc shr]. rewrite iter_shr_1_exact. reflexivity. }
    rewrite E1. cbn [shr_m loc_of_shr_record round_nearest_even].
    rewrite E2 by lia. cbn [shr_m].
    replace (k + Zpos n <=? emax - prec) with true
      by (symmetry; apply Z.leb_le; lia).
    reflexivity.
Qed.

Lemma digits2_shift v q n :
  Zpos v = Zpos q * 2 ^ n -> 0 <= n ->
  Zpos (digits2_pos v) = Zpos (digits2_pos q) + n.
Proof.
  intros E Hn. apply digits2_unique. rewrite E.
  pose proof (digits2_bounds q) as [Hlo Hhi].
  replace (Zpos (digits2_pos q) + n - 1)
    with ((Zpos (digits2_pos q) - 1) + n) by lia.
  rewrite !Z.pow_add_r by lia.
  assert (0 < 2 ^ n) by (apply Z.pow_pos_nonneg; lia).
  split; [apply Z.mul_le_mono_nonneg_r; lia|apply Z.mul_lt_mono_pos_r; lia].
Qed.

Lemma digits2_mono a b :
  Zpos a <= Zpos b -> Zpos (digits2_pos a) <= Zpos (digits2_pos b).
Proof.
  intros H. pose proof (digits2_bounds a) as [Ha _].
  pose proof (digits2_bounds b) as [_ Hb].
  destruct (Z_le_dec (Zpos (digits2_pos a)) (Zpos (digits2_pos b)))
    as [|Hn]; [assumption|].
  assert (2 ^ Zpos (digits2_pos b) <= 2 ^ (Zpos (digits2_pos a) - 1))
    by (apply Z.pow_le_mono_r; lia).
  lia.
Qed.

(** A mantissa of 53 digits followed by [n] zeros rounds to itself. *)
Lemma binary_round_zeros s v e q n :
  Zpos v = Zpos q * 2 ^ n -> 0 <= n -> Zpos (digits2_pos q) = prec ->
  emin <= e -> e + n <= emax - prec ->
  binary_round prec emax s v e = S754_finite s q (e + n).
Proof.
  intros E Hn Hd He Hen. unfold binary_round.
  rewrite (digits2_shift v q n E Hn), Hd.
  replace (fexp prec emax (prec + n + e)) with (e + n)
    by (unfold fexp, SpecFloat.emin, prec, emax in *; lia).
  unfold shl_align.
  destruct (e + n - e) as [|d|d] eqn:Ed; try lia;
    rewrite E; now apply binary_round_aux_exact.
Qed.

(** The normal form of a positive integer below [2^53]. *)
Lemma binary_round_int s p :
  Zpos p < 2 ^ prec ->
  exists q,
    Zpos q = Zpos p * 2 ^ (prec - Zpos (digits2_pos p)) /\
    Zpos (digits2_pos q) = prec /\
    binary_round prec emax s p 0 =
      S754_finite s q (Zpos (digits2_pos p) - prec).
Proof.
  intros Hp. set (d := Zpos (digits2_pos p)).
  assert (Hd : 1 <= d <= prec).
  { pose proof (digits2_bounds p) as [Hlo _]. fold d in Hlo. split; [lia|].
    destruct (Z_le_dec d prec) as [|Hn]; [assumption|].
    assert (2 ^ prec <= 2 ^ (d - 1)) by (apply Z.pow_le_mono_r; lia). lia. }
  unfold binary_round. fold d.
  replace (fexp prec emax (d + 0)) with (d - prec)
    by (unfold fexp, SpecFloat.emin, prec, emax in *; lia).
  unfold shl_align.
  destruct (d - prec - 0) as [|n|n] eqn:En; try lia.
  - exists p. replace (prec - d) with 0 by lia.
    split; [lia|]. split; [fold d; lia|].
    replace (d - prec) with (0 + 0) by lia.
    rewrite <- (Z.mul_1_r (Zpos p)) at 1. change 1 with (2 ^ 0) at 1.
    apply binary_round_aux_exact; unfold SpecFloat.emin, prec, emax in *;
      fold d; lia.
  - exists (Pos.iter xO p n).
    assert (Hq : Zpos (Pos.iter xO p n) = Zpos p * 2 ^ (prec - d)).
    { rewrite iter_xO_Z. f_equal. f_equal. lia. }
    assert (Hdq : Zpos (digits2_pos (Pos.iter xO p n)) = prec).
    { rewrite (digits2_shift _ p (prec - d) Hq) by lia. fold d. lia. }
    split; [exact Hq|]. split; [exact Hdq|].
    replace (d - prec) with ((d - prec) + 0) at 2 by lia.
    rewrite <- (Z.mul_1_r (Zpos (Pos.iter xO p n))). change 1 with (2 ^ 0).
    apply binary_round_aux_exact; unfold SpecFloat.emin, prec, emax in *;
      lia.
Qed.

Lemma valid_normal s q k :
  Zpos (digits2_pos q) = prec -> emin <= k <= emax - prec ->
  valid_binary (S754_finite s q k) = true.
Proof.
  intros Hd Hk. unfold valid_binary, bounded, canonical_mantissa.
  rewrite Hd. apply andb_true_intro. split.
  - apply Z.eqb_eq. unfold fexp, SpecFloat.emin, prec, emax in *. lia.
  - apply Z.leb_le. lia.
Qed.

Lemma digits2_le_prec p :
  Zpos p < 2 ^ prec -> 1 <= Zpos (digits2_pos p) <= prec.
Proof.
  intros Hp. pose proof (digits2_bounds p) as [Hlo _]. split; [lia|].
  destruct (Z_le_dec (Zpos (digits2_pos p)) prec) as [|Hn]; [assumption|].
  assert (2 ^ prec <= 2 ^ (Zpos (digits2_pos p) - 1))
    by (apply Z.pow_le_mono_r; lia).
  lia.
Qed.

(** The double of a positive integer below [2^53], bit by bit. *)
Lemma of_Z_pos_SF p :
  Zpos p < 2 ^ prec ->
  exists q,
    Zpos q = Zpos p * 2 ^ (prec - Zpos (digits2_pos p)) /\
    Zpos (digits2_pos q) = prec /\
    Prim2SF (of_Z (Zpos p)) =
      S754_finite false q (Zpos (digits2_pos p) - prec).
Proof.
  intros Hp. destruct (binary_round_int false p Hp) as (q & Hq & Hd & E).
  exists q. split; [exact Hq|]. split; [exact Hd|].
  unfold of_Z. cbn [binary_normalize]. rewrite E.
  apply Prim2SF_SF2Prim, valid_normal; [exact Hd|].
  pose proof (digits2_le_prec p Hp).
  unfold SpecFloat.emin, prec, emax in *. lia.
Qed.

(** [ToIntegerOrInfinity] gives back a positive integer below [2^53]. *)
Lemma to_integer_of_Z_pos p :
  Zpos p < 2 ^ prec -> to_integer (of_Z (Zpos p)) = Some (Zpos p).
Proof.
  intros Hp. destruct (of_Z_pos_SF p Hp) as (q & Hq & _ & E).
  pose proof (digits2_le_prec p Hp) as Hd.
  unfold to_integer. rewrite E. f_equal. unfold trunc, cond_Zopp.
  rewrite Z.shiftl_div_pow2 by lia. rewrite Hq.
  replace (- (Zpos (digits2_pos p) - prec))
    with (prec - Zpos (digits2_pos p)) by lia.
  apply Z.div_mul. apply Z.pow_nonzero; lia.
Qed.

(** The sum of two positive integers is exact as long as it stays below
    [2^53]. *)
Lemma of_Z_add a b :
  0 < a -> 0 < b -> a + b < 2 ^ prec ->
  (of_Z a + of_Z b)%float = of_Z (a + b).
Proof.
  intros Ha Hb Hab.
  destruct a as [|a|a]; try lia. destruct b as [|b|b]; try lia.
  assert (Pa : Zpos a < 2 ^ prec) by lia.
  assert (Pb : Zpos b < 2 ^ prec) by lia.
  change (Zpos a + Zpos b) with (Zpos (a + b)) in *.
  destruct (of_Z_pos_SF a Pa) as (qa & Hqa & Hda & Ea).
  destruct (of_Z_pos_SF b Pb) as (qb & Hqb & Hdb & Eb).
  destruct (of_Z_pos_SF (a + b) Hab) as (qc & Hqc & Hdc & Ec).
  pose proof (digits2_le_prec a Pa) as Da.
  pose proof (digits2_le_prec b Pb) as Db.
  pose proof (digits2_le_prec (a + b) Hab) as Dc.
  pose proof (digits2_mono a (a + b) ltac:(lia)) as Mac.
  pose proof (digits2_mono b (a + b) ltac:(lia)) as Mbc.
  set (da := Zpos (digits2_pos a)) in *. set (db := Zpos (digits2_pos b)) in *.
  set (dc := Zpos (digits2_pos (a + b))) in *.
  apply Prim2SF_inj. rewrite add_spec, Ea, Eb, Ec.
  unfold SF64add, SFadd. set (ez := Z.min (da - prec) (db - prec)).
  rewrite !shl_align_fst by lia. cbn [cond_Zopp].
  assert (Es : Zpos qa * 2 ^ (da - prec - ez) + Zpos qb * 2 ^ (db - prec - ez)
               = Zpos qc * 2 ^ (dc - prec - ez)).
  { rewrite Hqa, Hqb, Hqc. rewrite <- !Z.mul_assoc, <- !Z.pow_add_r by lia.
    replace (prec - da + (da - prec - ez)) with (- ez) by lia.
    replace (prec - db + (db - prec - ez)) with (- ez) by lia.
    replace (prec - dc + (dc - prec - ez)) with (- ez) by lia.
    rewrite Pos2Z.inj_add. lia. }
  rewrite Es.
  assert (Hpos : 0 < Zpos qc * 2 ^ (dc - prec - ez)).
  { apply Z.mul_pos_pos; [lia|apply Z.pow_pos_nonneg; lia]. }
  destruct (Zpos qc * 2 ^ (dc - prec - ez)) as [|v|v] eqn:Ev; try lia.
  cbn [binary_normalize].
  rewrite (binary_round_zeros false v ez qc (dc - prec - ez));
    [f_equal; lia|symmetry; exact Ev|lia|exact Hdc| |];
    unfold SpecFloat.emin, prec, emax in *; lia.
Qed.

Lemma of_Z_neg_SF p :
  Zpos p < 2 ^ prec ->
  exists q,
    Zpos q = Zpos p * 2 ^ (prec - Zpos (digits2_pos p)) /\
    Zpos (digits2_pos q) = prec /\
    Prim2SF (of_Z (Zneg p)) =
      S754_finite true q (Zpos (digits2_pos p) - prec).
Proof.
  intros Hp. destruct (binary_round_int true p Hp) as (q & Hq & Hd & E).
  exists q. split; [exact Hq|]. split; [exact Hd|].
  unfold of_Z. cbn [binary_normalize]. rewrite E.
  apply Prim2SF_SF2Prim, valid_normal; [exact Hd|].
  pose proof (digits2_le_prec p Hp).
  unfold SpecFloat.emin, prec, emax in *. lia.
Qed.

(** [ToIntegerOrInfinity] gives back an integer below [2^53]. *)
Lemma to_integer_of_Z n :
  Z.abs n < 2 ^ prec -> to_integer (of_Z n) = Some n.
Proof.
  intros Hn. destruct n as [|p|p].
  - reflexivity.
  - apply to_integer_of_Z_pos. lia.
  - assert (Hp : Zpos p < 2 ^ prec) by lia.
    destruct (of_Z_neg_SF p Hp) as (q & Hq & _ & E).
    pose proof (digits2_le_prec p Hp) as Hd.
    unfold to_integer. rewrite E. f_equal. unfold trunc, cond_Zopp.
    rewrite Z.shiftl_div_pow2 by lia. rewrite Hq.
    replace (- (Zpos (digits2_pos p) - prec))
      with (prec - Zpos (digits2_pos p)) by lia.
    rewrite Z.div_mul by (apply Z.pow_nonzero; lia). reflexivity.
Qed.

Lemma round_half_up_bound s m e :
  Zpos m < 2 ^ prec -> e < 0 -> Z.abs (round_half_up s m e) < 2 ^ prec.
Proof.
  intros Hm He. unfold round_half_up.
  rewrite Z.shiftr_div_pow2 by lia.
  replace (1 - e) with (1 + - e) by lia.
  rewrite Z.pow_add_r by lia. change (2 ^ 1) with 2.
  assert (HP : 2 <= 2 ^ (- e)).
  { change 2 with (2 ^ 1) at 1. apply Z.pow_le_mono_r; lia. }
  set (P := 2 ^ (- e)) in *. clearbody P.
  assert (H53 : 2 ^ prec = 9007199254740992) by reflexivity.
  rewrite H53 in *.
  assert (Hlo : - 9007199254740992 < (2 * cond_Zopp s (Zpos m) + P) / (2 * P)).
  { apply Z.lt_le_trans with (- 4503599627370496); [lia|].
    apply Z.div_le_lower_bound; [lia|]. destruct s; cbn [cond_Zopp]; nia. }
  assert (Hhi : (2 * cond_Zopp s (Zpos m) + P) / (2 * P) < 9007199254740992).
  { apply Z.div_lt_upper_bound; [lia|]. destruct s; cbn [cond_Zopp]; nia. }
  lia.
Qed.

(** A rounded number that is positive and below [2^52] is the double of
    its integer part. *)
Lemma Math_round_of_Z y n :
  to_integer (Math_round y) = Some n -> 0 < n < 2 ^ 52 ->
  Math_round y = of_Z n.
Proof.
  unfold Math_round at 1 2. unfold to_integer at 1.
  pose proof (Prim2SF_valid y) as V.
  destruct (Prim2SF y) as [s|s| |s m e] eqn:E.
  - rewrite E. intros [= <-]. lia.
  - rewrite E. discriminate.
  - rewrite E. discriminate.
  - apply bounded_inv in V as (He & Hd & Hn).
    destruct (Z.leb_spec 0 e) as [H0|H0].
    + rewrite E. intros [= <-] Hr. exfalso.
      specialize (Hn ltac:(unfold SpecFloat.emin, prec, emax; lia)).
      pose proof (digits2_bounds m) as [Hlo _]. rewrite Hn in Hlo.
      unfold trunc in Hr. rewrite Z.shiftl_mul_pow2 in Hr by lia.
      assert (0 < 2 ^ e) by (apply Z.pow_pos_nonneg; lia).
      change (2 ^ (prec - 1)) with (2 ^ 52) in Hlo.
      destruct s; cbn [cond_Zopp] in Hr; nia.
    + assert (Hm : Zpos m < 2 ^ prec).
      { pose proof (digits2_bounds m) as [_ Hhi].
        eapply Z.lt_le_trans; [exact Hhi|]. apply Z.pow_le_mono_r; lia. }
      pose proof (round_half_up_bound s m e Hm H0) as Hz.
      destruct (Z.eqb_spec (round_half_up s m e) 0) as [Ez|Ez].
      * destruct s; cbn; intros [= <-]; lia.
      * fold (to_integer (of_Z (round_half_up s m e))).
        rewrite to_integer_of_Z by exact Hz. intros [= <-] _. reflexivity.
Qed.

Lemma to_integer_not_nan y n : to_integer y = Some n -> is_nan y = false.
Proof.
  unfold to_integer. intros H. apply is_nan_false. intros E.
  rewrite E in H. discriminate.
Qed.

Lemma Math_max_not_nan a x :
  is_nan (Math_max a x) = false -> is_nan a = false /\ is_nan x = false.
Proof.
  unfold Math_max. destruct (is_nan a), (is_nan x); cbn [orb];
    try (intros H; vm_compute in H; discriminate). auto.
Qed.

(** A double that is at least 1 has an integer part that is at least 1. *)
Lemma to_integer_ge_1 y n :
  (1 <=? y)%float = true -> to_integer y = Some n -> 1 <= n.
Proof.
  intros Hle Hn.
  destruct (leb_true_not_nan _ _ Hle) as [N1 Ny].
  rewrite leb_key in Hle by assumption. apply Z.leb_le in Hle.
  unfold fkey in Hle. pose proof (Prim2SF_valid y) as V.
  unfold to_integer in Hn.
  replace (SFkey (Prim2SF 1)) with (2 ^ (- emin)) in Hle
    by (vm_compute; reflexivity).
  assert (HP : 0 < 2 ^ (- emin)) by (vm_compute; reflexivity).
  destruct (Prim2SF y) as [s|s| |s m e]; try discriminate.
  - cbn [SFkey] in Hle. lia.
  - injection Hn as <-. cbn [SFkey] in Hle. cbn [valid_binary] in V.
    apply bounded_inv in V as (He & _).
    assert (HQ : 0 < 2 ^ (e - emin)) by (apply Z.pow_pos_nonneg; lia).
    destruct s; unfold cond_Zopp in Hle; [lia|].
    unfold trunc, cond_Zopp.
    destruct (Z_le_gt_dec 0 e) as [H0|H0].
    + rewrite Z.shiftl_mul_pow2 by assumption.
      assert (0 < 2 ^ e) by (apply Z.pow_pos_nonneg; lia). nia.
    + rewrite Z.shiftl_div_pow2 by lia.
      apply Z.div_le_lower_bound; [apply Z.pow_pos_nonneg; lia|].
      rewrite Z.mul_1_r.
      replace (2 ^ (- emin)) with (2 ^ (- e) * 2 ^ (e - emin)) in Hle.
      2:{ rewrite <- Z.pow_add_r by lia. f_equal. lia. }
      apply Z.mul_le_mono_pos_r in Hle; assumption.
Qed.

(** The test [interval <= 7] of the code and the test "exceeds 7" agree,
    also on NaN. *)
Lemma applyFuzz_fuzzed interval rnd :
  applyFuzz interval rnd = fuzzed interval rnd.
Proof.
  unfold applyFuzz, fuzzed.
  destruct (is_nan interval) eqn:N.
  - assert (E1 : (interval <=? 7)%float = false).
    { destruct (interval <=? 7)%float eqn:E; [|reflexivity].
      apply leb_true_not_nan in E as [E _]. congruence. }
    assert (E2 : (7 <? interval)%float = false).
    { destruct (7 <? interval)%float eqn:E; [|reflexivity].
      apply ltb_true_not_nan in E as [_ E]. congruence. }
    rewrite E1, E2, add_nan_l by assumption.
    rewrite Math_round_nan. symmetry. now apply is_nan_nan.
  - rewrite leb_key, ltb_key by (assumption || reflexivity).
    destruct (Z.leb_spec (fkey interval) (fkey 7%float)),
             (Z.ltb_spec (fkey 7%float) (fkey interval));
      try reflexivity; lia.
Qed.

(** ** Facts about [Array_sort] *)

Section SortFacts.
Context {A : Type} (after : A -> A -> bool).
Context (P : A -> Prop) (R : A -> A -> Prop).
Hypothesis R_trans : forall x y z, R x y -> R y z -> R x z.
Hypothesis keep_R : forall x y, P x -> P y -> after x y = false -> R x y.
Hypothesis swap_R : forall x y, P x -> P y -> after x y = true -> R y x.

Lemma sort_insert_perm x l : Permutation (sort_insert after x l) (x :: l).
Proof.
  induction l as [|y l IH]; simpl.
  - reflexivity.
  - destruct (after x y).
    + rewrite IH. apply perm_swap.
    + reflexivity.
Qed.

Lemma Array_sort_perm l : Permutation (Array_sort after l) l.
Proof.
  induction l as [|x l IH]; simpl.
  - reflexivity.
  - rewrite sort_insert_perm. now constructor.
Qed.

Lemma sort_insert_sorted x l :
  P x -> Forall P l -> StronglySorted R l ->
  StronglySorted R (sort_insert after x l).
Proof.
  intros Px HP HS. induction HS as [|y l HS IH Hy]; simpl.
  - repeat constructor.
  - apply Forall_cons_iff in HP as [Py HP].
    destruct (after x y) eqn:E.
    + constructor; [apply IH, HP|].
      rewrite sort_insert_perm. constructor; [now apply swap_R | exact Hy].
    + constructor; [now constructor|].
      constructor; [now apply keep_R|].
      eapply Forall_impl; [exact Hy|]. intros z Hz. simpl.
      apply R_trans with y; [apply keep_R; assumption | exact Hz].
Qed.

Lemma Array_sort_sorted l :
  Forall P l -> StronglySorted R (Array_sort after l).
Proof.
  induction l as [|x l IH]; simpl; intros HP.
  - constructor.
  - apply Forall_cons_iff in HP as [Px HP].
    apply sort_insert_sorted; auto.
    rewrite Array_sort_perm. exact HP.
Qed.

Lemma Array_sort_Forall (Q : A -> Prop) l :
  Forall Q l -> Forall Q (Array_sort after l).
Proof. now rewrite Array_sort_perm. Qed.
End SortFacts.

Lemma StronglySorted_lookup {A} (R : A -> A -> Prop) l i j a b :
  StronglySorted R l -> (i < j)%nat ->
  l !! i = Some a -> l !! j = Some b -> R a b.
Proof.
  intros HS. revert i j. induction HS as [|x l HS IH Hx]; intros i j Hij Hi Hj.
  - discriminate.
  - destruct j as [|j]; [lia|]. destruct i as [|i]; simpl in *.
    + injection Hi as ->. rewrite Forall_forall in Hx. apply Hx.
      eapply list_elem_of_lookup_2. exact Hj.
    + eapply IH; [|exact Hi|exact Hj]. lia.
Qed.

(** ** The interval engine *)

Lemma DateFromTime_range t : 1 <= DateFromTime t <= 31.
Proof.
  unfold DateFromTime. cbv zeta.
  pose proof (Z.mod_pos_bound (Day t + 719468) 146097 ltac:(lia)) as Hdoe.
  set (doe := (Day t + 719468) mod 146097) in *. clearbody doe.
  assert (Hdoy : 0 <= doe - (365 * ((doe - doe / 1460 + doe / 36524
                                      - doe / 146096) / 365)
                             + (doe - doe / 1460 + doe / 36524
                                - doe / 146096) / 365 / 4
                             - (doe - doe / 1460 + doe / 36524
                                - doe / 146096) / 365 / 100) <= 365)
    by (Z.to_euclidean_division_equations; lia).
  set (doy := doe - _) in *. clearbody doy.
  Z.to_euclidean_division_equations; lia.
Qed.

Lemma Day_TimeWithinDay t : Day t * MS_PER_DAY + TimeWithinDay t = t.
Proof.
  unfold Day, TimeWithinDay. rewrite Z.mul_comm. symmetry.
  apply Z.div_mod. discriminate.
Qed.

Lemma Day_shift t n : Day (t + n * MS_PER_DAY) = Day t + n.
Proof. unfold Day. apply Z.div_add. discriminate. Qed.

(** What [addDays] computes, step by step. *)
Lemma addDays_steps {tz : TimeZone} date days dt :
  Z.abs date <= MAX_DAY ->
  to_integer
    (of_Z (DateFromTime (date * MS_PER_DAY + utc_offset (date * MS_PER_DAY)))
     + days)%float = Some dt ->
  let local := date * MS_PER_DAY + utc_offset (date * MS_PER_DAY) in
  let local' := local + (dt - DateFromTime local) * MS_PER_DAY in
  let u := local' - local_offset local' in
  addDays date days =
    if Z.abs u <=? MAX_TIME then Ok (Day u) else Throw RangeError.
Proof.
  intros Hd E. cbv zeta. unfold addDays.
  replace (Z.abs (date * MS_PER_DAY) <=? MAX_TIME) with true
    by (symmetry; apply Z.leb_le; unfold MAX_TIME, MAX_DAY, MS_PER_DAY in *;
        lia).
  cbv zeta. rewrite E.
  set (local := date * MS_PER_DAY + utc_offset (date * MS_PER_DAY)).
  replace ((Day local - DateFromTime local + dt) * MS_PER_DAY
           + TimeWithinDay local)
    with (local + (dt - DateFromTime local) * MS_PER_DAY)
    by (pose proof (Day_TimeWithinDay local); lia).
  reflexivity.
Qed.

(** The day of the month plus a whole number of days is exact. *)
Lemma date_plus_days t n :
  0 < n < 2 ^ 52 ->
  to_integer (of_Z (DateFromTime t) + of_Z n)%float
  = Some (DateFromTime t + n).
Proof.
  intros Hn. pose proof (DateFromTime_range t) as HD.
  change (2 ^ 52) with 4503599627370496 in Hn.
  rewrite of_Z_add by (change (2 ^ prec) with 9007199254740992; lia).
  apply to_integer_of_Z. change (2 ^ prec) with 9007199254740992. lia.
Qed.

(** In a time zone without clock changes, a whole number of days is added
    as such. *)
Lemma addDays_whole {tz : TimeZone} date n :
  fixed_offset tz -> 0 < n ->
  Z.abs date <= MAX_DAY -> Z.abs (date + n) <= MAX_DAY ->
  addDays date (of_Z n) = Ok (date + n).
Proof.
  intros [o Ho] Hn Hd Hdn.
  assert (Hn' : 0 < n < 2 ^ 52).
  { change (2 ^ 52) with 4503599627370496. unfold MAX_DAY in *. lia. }
  rewrite (addDays_steps date (of_Z n) _ Hd (date_plus_days _ n Hn')).
  cbv zeta. destruct (Ho (date * MS_PER_DAY)) as [-> _].
  match goal with |- context [local_offset ?t] =>
    destruct (Ho t) as [_ ->] end.
  replace (date * MS_PER_DAY + o
           + (DateFromTime (date * MS_PER_DAY + o) + n
              - DateFromTime (date * MS_PER_DAY + o)) * MS_PER_DAY - o)
    with ((date + n) * MS_PER_DAY) by lia.
  replace (Z.abs ((date + n) * MS_PER_DAY) <=? MAX_TIME) with true
    by (symmetry; apply Z.leb_le; unfold MAX_TIME, MAX_DAY, MS_PER_DAY in *;
        lia).
  f_equal. unfold Day. apply Z.div_mul. discriminate.
Qed.

(** In every time zone a whole number of days gives a date, at most two
    days before and one day after the date that many days later. *)
Lemma addDays_returns {tz : TimeZone} date n :
  0 < n -> Z.abs date + n + 2 <= MAX_DAY ->
  exists d, addDays date (of_Z n) = Ok d /\ date + n - 2 <= d <= date + n + 1.
Proof.
  intros Hn Hd.
  assert (Hn' : 0 < n < 2 ^ 52).
  { change (2 ^ 52) with 4503599627370496. unfold MAX_DAY in *. lia. }
  rewrite (addDays_steps date (of_Z n) _ ltac:(lia) (date_plus_days _ n Hn')).
  cbv zeta.
  set (local := date * MS_PER_DAY + utc_offset (date * MS_PER_DAY)).
  replace (local + (DateFromTime local + n - DateFromTime local) * MS_PER_DAY)
    with (local + n * MS_PER_DAY) by lia.
  pose proof (utc_offset_range (date * MS_PER_DAY)) as H1.
  pose proof (local_offset_range (local + n * MS_PER_DAY)) as H2.
  set (u := local + n * MS_PER_DAY - local_offset (local + n * MS_PER_DAY)).
  assert (Hu : (date + n - 2) * MS_PER_DAY <= u < (date + n + 2) * MS_PER_DAY).
  { unfold u, local, MS_PER_DAY in *. lia. }
  replace (Z.abs u <=? MAX_TIME) with true
    by (symmetry; apply Z.leb_le; unfold MAX_TIME, MAX_DAY, MS_PER_DAY in *;
        lia).
  eexists. split; [reflexivity|]. unfold Day. split.
  - apply Z.div_le_lower_bound; [reflexivity|]. lia.
  - assert (u / MS_PER_DAY < date + n + 2); [|lia].
    apply Z.div_lt_upper_bound; [reflexivity|]. lia.
Qed.

(** X30.  [addDays] with a whole number of days.  For [n >= 1] and a date
    at least [n + 2] days from the ends of the range of [Date], the call
    returns a date.  In a time zone without clock changes it is the date [n]
    days later.  In every time zone it is at most two days before and one
    day after that date: the days are added in local time to midnight UTC,
    and the result is printed in UTC. *)
Theorem addDays_whole_days {tz : TimeZone} date n :
  0 < n -> Z.abs date + n + 2 <= MAX_DAY ->
  exists d,
    addDays date (of_Z n) = Ok d /\
    date + n - 2 <= d <= date + n + 1 /\
    (fixed_offset tz -> d = date + n).
Proof.
  intros Hn Hd.
  destruct (addDays_returns date n Hn Hd) as (d & E & Hb).
  exists d. split; [exact E|]. split; [exact Hb|].
  intros Hz. rewrite addDays_whole in E by (assumption || lia).
  now injection E as <-.
Qed.

(** 150 days from 14 November 2023, in New York: the 149th day. *)
Lemma addDays_whole_days_witness :
  0 < 150 /\ Z.abs 19675 + 150 + 2 <= MAX_DAY /\
  of_Z 150 = 150%float /\
  addDays (tz := New_York) 19675 150%float = Ok (19675 + 149) /\
  exists d,
    addDays (tz := New_York) 19675 (of_Z 150) = Ok d /\
    19675 + 150 - 2 <= d <= 19675 + 150 + 1 /\
    (fixed_offset New_York -> d = 19675 + 150).
Proof.
  assert (H1 : 0 < 150) by lia.
  assert (H2 : Z.abs 19675 + 150 + 2 <= MAX_DAY) by (vm_compute; discriminate).
  assert (H3 : of_Z 150 = 150%float) by (vm_compute; reflexivity).
  assert (H4 : addDays (tz := New_York) 19675 150%float = Ok (19675 + 149))
    by (vm_compute; reflexivity).
  exact (conj H1 (conj H2 (conj H3 (conj H4
           (addDays_whole_days (tz := New_York) 19675 150 H1 H2))))).
Defined.

(** The interval of a review is a whole number of days, at least 1. *)
Lemma review_interval_whole s q rnd n :
  to_integer (review_interval s q rnd) = Some n -> n < 2 ^ 52 ->
  1 <= n /\ review_interval s q rnd = of_Z n.
Proof.
  intros Hn Hlt.
  pose proof (to_integer_not_nan _ _ Hn) as Nx.
  unfold review_interval in *.
  set (y := fuzzed _ rnd) in *.
  destruct (Math_max_not_nan _ _ Nx) as [N1 Ny].
  assert (H1 : 1 <= n).
  { exact (to_integer_ge_1 _ _ (Math_max_ge 1 y N1 Ny) Hn). }
  split; [exact H1|].
  assert (Hy : to_integer y = Some n -> y = of_Z n).
  { unfold y, fuzzed, quality_modifier, review_base.
    repeat match goal with
           | |- context [if ?b then _ else _] => destruct b
           end;
      intros Hy;
      try (apply Math_round_of_Z; [exact Hy|split; [lia|exact Hlt]]);
      vm_compute in Hy; injection Hy as <-; reflexivity. }
  revert Hn. unfold Math_max. rewrite N1, Ny. cbn [orb].
  destruct (1 <? y)%float; [exact Hy|].
  destruct (y <? 1)%float; [|change (get_sign 1) with false; cbv iota];
    intros Hn; vm_compute in Hn; injection Hn as <-; reflexivity.
Qed.

Lemma handleReviewCard_rated {tz : TimeZone} s q today rnd :
  q <> 0 ->
  handleReviewCard s q today rnd =
    let! due := addDays today (review_interval s q rnd) in
    Ok {| state := state s; interval := review_interval s q rnd;
          easeFactor := review_ease (easeFactor s) q;
          repetitions := repetitions s + 1; learningStep := learningStep s;
          dueDate := Some due; lastReview := lastReview s;
          history := history s |}.
Proof.
  intros Hq. unfold handleReviewCard.
  apply Z.eqb_neq in Hq. rewrite Hq.
  cbv zeta. rewrite applyFuzz_fuzzed. reflexivity.
Qed.

(** C1.  Where the clocks of the host change between the rating and the
    due date, the due date is not today plus the interval.  In New York a
    review card with an interval of 60 days and the ease factor 2.5 is rated
    Good on 14 November 2023 (day 19675) with the draw 0.5: the new interval
    is 150 days, and the due date is 11 April 2024, the 149th day after the
    rating.  In UTC the same call gives 12 April, the 150th. *)
Theorem due_date_a_day_short :
  todayString example_now = 19675 /\
  snd (calculateNextReview (tz := New_York) example_heap example_mature_card
         2 no_settings example_now 0.5%float) =
    Ok {| state := Review; interval := 150%float; easeFactor := 2.5%float;
          repetitions := 6; learningStep := 0; dueDate := Some (19675 + 149);
          lastReview := Some example_now; history := Some 1%positive |} /\
  snd (calculateNextReview (tz := UTC) example_heap example_mature_card
         2 no_settings example_now 0.5%float) =
    Ok {| state := Review; interval := 150%float; easeFactor := 2.5%float;
          repetitions := 6; learningStep := 0; dueDate := Some (19675 + 150);
          lastReview := Some example_now; history := Some 1%positive |}.
Proof.
  split; [reflexivity|]. split; vm_compute; reflexivity.
Qed.

(** X29.  A Review card rated [q] in 1..3, in a time zone without clock
    changes.  The new ease factor is [max(1.3, easeFactor + delta q)]; the
    new interval starts from 1, 6 or [round(interval x easeFactor')]
    according to the repetitions, is multiplied by 0.8 or 1.3 and rounded
    for Hard and Easy, is perturbed by the fuzz only when it exceeds 7, and
    is at least 1; it is a whole number [n] of days, the due date is today
    plus [n], and the repetitions grow by one.  The call returns whenever
    today and that date are dates a [Date] can hold. *)
Theorem review_update {tz : TimeZone} h card q settings now rnd n :
  state (sr card) = Review ->
  1 <= q <= 3 ->
  fixed_offset tz ->
  to_integer (review_interval (sr card) q rnd) = Some n ->
  Z.abs (todayString now) <= MAX_DAY ->
  Z.abs (todayString now + n) <= MAX_DAY ->
  1 <= n /\
  review_interval (sr card) q rnd = of_Z n /\
  snd (calculateNextReview h card q settings now rnd) =
    Ok {| state := Review;
          interval := review_interval (sr card) q rnd;
          easeFactor := review_ease (easeFactor (sr card)) q;
          repetitions := repetitions (sr card) + 1;
          learningStep := learningStep (sr card);
          dueDate := Some (todayString now + n);
          lastReview := Some now;
          history := Some (history_ref h (sr card)) |}.
Proof.
  intros Hs Hq Hz Hn Ht Hr.
  assert (Hlt : n < 2 ^ 52).
  { change (2 ^ 52) with 4503599627370496. unfold MAX_DAY in *. lia. }
  destruct (review_interval_whole _ _ _ _ Hn Hlt) as [H1 Hw].
  split; [exact H1|]. split; [exact Hw|].
  unfold calculateNextReview. cbn [snd state].
  rewrite Hs, handleReviewCard_rated by lia.
  unfold review_interval at 1. cbn [repetitions interval easeFactor].
  fold (review_interval (sr card) q rnd).
  rewrite Hw at 1. rewrite (addDays_whole _ n Hz) by (assumption || lia).
  reflexivity.
Qed.

(** The review card of the examples rated Easy in UTC with the draw 0.5:
    [round(round(30 x 2.6) x 1.3) = 101] days. *)
Lemma review_update_witness :
  state (sr example_review_card) = Review /\
  1 <= 3 <= 3 /\
  fixed_offset UTC /\
  to_integer (review_interval (sr example_review_card) 3 0.5%float)
    = Some 101 /\
  Z.abs (todayString example_now) <= MAX_DAY /\
  Z.abs (todayString example_now + 101) <= MAX_DAY /\
  1 <= 101 /\
  review_interval (sr example_review_card) 3 0.5%float = of_Z 101 /\
  snd (calculateNextReview (tz := UTC) example_heap example_review_card 3
         no_settings example_now 0.5%float) =
    Ok {| state := Review;
          interval := review_interval (sr example_review_card) 3 0.5%float;
          easeFactor := review_ease (easeFactor (sr example_review_card)) 3;
          repetitions := repetitions (sr example_review_card) + 1;
          learningStep := learningStep (sr example_review_card);
          dueDate := Some (todayString example_now + 101);
          lastReview := Some example_now;
          history := Some (history_ref example_heap (sr example_review_card)) |}.
Proof.
  assert (H1 : state (sr example_review_card) = Review) by reflexivity.
  assert (H2 : 1 <= 3 <= 3) by lia.
  assert (Hz : fixed_offset UTC) by (exists 0; intros t; split; reflexivity).
  assert (H3 : to_integer
                 (review_interval (sr example_review_card) 3 0.5%float)
               = Some 101)
    by (vm_compute; reflexivity).
  assert (H4 : Z.abs (todayString example_now) <= MAX_DAY)
    by (vm_compute; discriminate).
  assert (H5 : Z.abs (todayString example_now + 101) <= MAX_DAY)
    by (vm_compute; discriminate).
  exact (conj H1 (conj H2 (conj Hz (conj H3 (conj H4 (conj H5
           (review_update example_heap example_review_card 3 no_settings
              example_now 0.5%float 101 H1 H2 Hz H3 H4 H5))))))).
Defined.

(** C3.  A Review card rated 0 goes back to Learning at step 0 with no
    repetitions, [max(1.3, easeFactor - 0.2)], [max(1, round(interval x 0.5))]
    and due today; the draw [rnd] does not occur in the result, and nothing
    can throw.  With interval 30, ease factor 2.5 and five repetitions the
    result has ease factor 2.3 and interval 15. *)
Theorem lapse_update {tz : TimeZone} h card settings now rnd :
  state (sr card) = Review ->
  snd (calculateNextReview h card 0 settings now rnd) =
    Ok {| state := Learning;
          interval :=
            Math_max 1%float (Math_round (interval (sr card) * 0.5)%float);
          easeFactor := Math_max 1.3%float (easeFactor (sr card) - 0.2)%float;
          repetitions := 0;
          learningStep := 0;
          dueDate := Some (todayString now);
          lastReview := Some now;
          history := Some (history_ref h (sr card)) |}
  /\ (interval (sr card) = 30%float -> easeFactor (sr card) = 2.5%float ->
      repetitions (sr card) = 5 ->
      snd (calculateNextReview h card 0 settings now rnd) =
        Ok {| state := Learning; interval := 15%float; easeFactor := 2.3%float;
              repetitions := 0; learningStep := 0;
              dueDate := Some (todayString now); lastReview := Some now;
              history := Some (history_ref h (sr card)) |}).
Proof.
  intros Hs.
  assert (E : snd (calculateNextReview h card 0 settings now rnd) =
    Ok {| state := Learning;
          interval :=
            Math_max 1%float (Math_round (interval (sr card) * 0.5)%float);
          easeFactor := Math_max 1.3%float (easeFactor (sr card) - 0.2)%float;
          repetitions := 0;
          learningStep := 0;
          dueDate := Some (todayString now);
          lastReview := Some now;
          history := Some (history_ref h (sr card)) |}).
  { unfold calculateNextReview. cbn [snd state]. rewrite Hs. reflexivity. }
  split; [exact E|].
  intros Hi He _. rewrite E, Hi, He.
  do 2 f_equal.
Qed.

(** The lapse scenario. *)
Lemma lapse_update_witness :
  state (sr example_review_card) = Review /\
  snd (calculateNextReview (tz := UTC) example_heap example_review_card 0
    no_settings
         example_now 0.5%float) =
    Ok {| state := Learning; interval := 15%float; easeFactor := 2.3%float;
          repetitions := 0; learningStep := 0;
          dueDate := Some (todayString example_now);
          lastReview := Some example_now;
          history := Some (history_ref example_heap (sr example_review_card)) |}.
Proof.
  split; [reflexivity|].
  exact (proj2 (lapse_update example_heap example_review_card no_settings
                  example_now 0.5%float eq_refl) eq_refl eq_refl eq_refl).
Defined.

(** For the four ratings the ease delta is a finite number. *)
Lemma ease_delta_finite q : 0 <= q <= 3 -> finite (ease_delta q).
Proof.
  intros H. assert (C : q = 0 \/ q = 1 \/ q = 2 \/ q = 3) by lia.
  destruct C as [->|[->|[->| ->]]]; vm_compute; exact I.
Qed.

(** C7.  If the ease factor is at least 1.3 on entry and the quality is in
    0..3, the ease factor of the returned state is at least 1.3. *)
Theorem easeFactor_floor {tz : TimeZone} h card q settings now rnd sr' :
  (1.3 <=? easeFactor (sr card))%float = true ->
  0 <= q <= 3 ->
  snd (calculateNextReview h card q settings now rnd) = Ok sr' ->
  (1.3 <=? easeFactor sr')%float = true.
Proof.
  intros Hef Hq. destruct (leb_true_not_nan _ _ Hef) as [N13 Nef].
  unfold calculateNextReview. cbn [snd state].
  destruct (state (sr card)).
  1,2: unfold handleLearningCard; cbn [easeFactor learningStep];
    destruct (q =? 0); [intros [= <-]; exact Hef|];
    destruct (q =? 3);
    [destruct (addDays _ _); simpl; [intros [= <-]; exact Hef | discriminate]|];
    destruct (_ >=? _);
    [destruct (addDays _ _); simpl; [intros [= <-]; exact Hef | discriminate]
    |intros [= <-]; exact Hef].
  destruct (Z.eq_dec q 0) as [->|Hq0].
  - unfold handleReviewCard. cbn [Z.eqb easeFactor]. intros [= <-].
    cbn [easeFactor].
    apply Math_max_ge; [assumption|].
    apply sub_not_nan; [assumption|]. vm_compute. exact I.
  - rewrite handleReviewCard_rated by assumption. cbn [easeFactor].
    destruct (addDays _ _); simpl; [|discriminate]. intros [= <-].
    cbn [easeFactor].
    apply Math_max_ge; [assumption|].
    apply add_not_nan; [assumption|]. now apply ease_delta_finite.
Qed.

(** A card at the floor rated Hard: [1.3 - 0.14] is raised back to 1.3. *)
Lemma easeFactor_floor_witness :
  (1.3 <=? easeFactor (sr example_low_ease_card))%float = true /\
  0 <= 1 <= 3 /\
  snd (calculateNextReview (tz := UTC) example_heap example_low_ease_card 1
    no_settings
         example_now 0.5%float) =
    Ok {| state := Review; interval := 10%float; easeFactor := 1.3%float;
          repetitions := 4; learningStep := 0; dueDate := Some 19685;
          lastReview := Some example_now; history := Some 1%positive |} /\
  (1.3 <=? 1.3)%float = true.
Proof.
  assert (H1 : (1.3 <=? easeFactor (sr example_low_ease_card))%float = true)
    by reflexivity.
  assert (H2 : 0 <= 1 <= 3) by lia.
  assert (H3 : snd (calculateNextReview (tz := UTC) example_heap
    example_low_ease_card 1
                      no_settings example_now 0.5%float) =
    Ok {| state := Review; interval := 10%float; easeFactor := 1.3%float;
          repetitions := 4; learningStep := 0; dueDate := Some 19685;
          lastReview := Some example_now; history := Some 1%positive |})
    by (vm_compute; reflexivity).
  exact (conj H1 (conj H2 (conj H3
           (easeFactor_floor example_heap example_low_ease_card 1 no_settings
              example_now 0.5%float _ H1 H2 H3)))).
Defined.

(** Every call pushes one record, whose quality is the rating and whose
    interval and ease factor are those of the card before the update, onto
    the array [sr.history || []]. *)
Lemma calculateNextReview_heap {tz : TimeZone} h card q settings now rnd :
  fst (calculateNextReview h card q settings now rnd) =
    <[ history_ref h (sr card) :=
         array_at h (history_ref h (sr card)) ++ [review_record card q now] ]> h.
Proof. reflexivity. Qed.

(** The state a call returns refers to the array the record was pushed on,
    the card's own array when it has one, and carries the clock reading as
    its last review. *)
Lemma calculateNextReview_shares {tz : TimeZone} h card q settings now rnd s :
  snd (calculateNextReview h card q settings now rnd) = Ok s ->
  history s = Some (history_ref h (sr card)) /\ lastReview s = Some now /\
  (forall l, history (sr card) = Some l -> history s = history (sr card)).
Proof.
  intros E.
  assert (H : history s = Some (history_ref h (sr card)) /\
              lastReview s = Some now).
  { revert E. unfold calculateNextReview. cbn [snd state].
    destruct (state (sr card));
      unfold handleLearningCard, handleReviewCard;
      repeat match goal with
             | |- context [if ?b then _ else _] => destruct b
             | |- context [addDays ?d ?i] => destruct (addDays d i)
             end;
      cbn [bind]; (intros [= <-] || discriminate); split; reflexivity. }
  destruct H as [H1 H2]. repeat split; try assumption.
  intros l Hl. rewrite H1. unfold history_ref. now rewrite Hl.
Qed.

(** C2 does not hold as stated: a new card rated 5 is processed, and its
    history grows. *)
Lemma not_rejects_invalid_input : ~ rejects_invalid_input.
Proof.
  intros H.
  destruct (H UTC example_heap example_new_card 5 no_settings example_now
              0.5%float ltac:(lia)) as [[e He] _].
  vm_compute in He. discriminate He.
Qed.

(** C8 does not hold as stated: a Review card without due date is
    processed. *)
Lemma not_rejects_malformed_state : ~ rejects_malformed_state.
Proof.
  intros H.
  destruct (H UTC example_heap (with_dueDate example_review_card None) 2
              no_settings example_now 0.5%float eq_refl eq_refl) as [e He].
  vm_compute in He. discriminate He.
Qed.

(** C8, as amended.  The due date of the card is never read: removing or
    replacing it changes nothing in the heap or the result.  A missing
    history is replaced by a new array, which then holds the one record. *)
Theorem dueDate_not_read {tz : TimeZone} h card q settings now rnd d :
  calculateNextReview h (with_dueDate card d) q settings now rnd =
    calculateNextReview h card q settings now rnd
  /\ (history (sr card) = None ->
      history_ref h (sr card) = fresh (dom h) /\
      h !! fresh (dom h) = None /\
      fst (calculateNextReview h card q settings now rnd) !! fresh (dom h) =
        Some [review_record card q now]).
Proof.
  split.
  - reflexivity.
  - intros Hh. unfold history_ref. rewrite Hh.
    assert (Hf : h !! fresh (dom h) = None).
    { apply not_elem_of_dom. apply is_fresh. }
    repeat split; [exact Hf|].
    rewrite calculateNextReview_heap. unfold history_ref, array_at.
    rewrite Hh, Hf. apply (lookup_insert_eq h).
Qed.

(** A review card without history. *)
Lemma dueDate_not_read_witness :
  history (sr example_overdue_card) = None /\
  fst (calculateNextReview (tz := UTC) example_heap example_overdue_card 2
    no_settings
         example_now 0.5%float) !! fresh (dom example_heap) =
    Some [review_record example_overdue_card 2 example_now].
Proof.
  split; [reflexivity|].
  exact (proj2 (proj2 (proj2 (dueDate_not_read example_heap example_overdue_card 2
                         no_settings example_now 0.5%float None) eq_refl))).
Defined.

(** New and learning cards: every rating other than 0 and 3 takes the
    Hard/Good branch. *)
Lemma handleLearningCard_other {tz : TimeZone} s q steps graduating easy today :
  q <> 0 -> q <> 3 ->
  handleLearningCard s q steps graduating easy today =
    if learningStep s + 1 >=? Z.of_nat (length steps) then
      let! due := addDays today graduating in
      Ok {| state := Review; interval := graduating;
            easeFactor := easeFactor s; repetitions := 1; learningStep := 0;
            dueDate := Some due; lastReview := lastReview s;
            history := history s |}
    else
      Ok {| state := Learning; interval := interval s;
            easeFactor := easeFactor s; repetitions := repetitions s;
            learningStep := learningStep s + 1; dueDate := Some today;
            lastReview := lastReview s; history := history s |}.
Proof.
  intros H0 H3. unfold handleLearningCard.
  apply Z.eqb_neq in H0, H3. rewrite H0, H3. reflexivity.
Qed.

(** C2, as amended.  Nothing is validated.  Whatever the quality and the
    settings, the history record is pushed; on a New or Learning card a
    quality other than 0 and 3, in range or not, gives the result of Good;
    with an empty step sequence such a rating graduates the card at once,
    with the graduating interval. *)
Theorem no_input_validation {tz : TimeZone} h card q settings now rnd :
  fst (calculateNextReview h card q settings now rnd) =
    <[ history_ref h (sr card) :=
         array_at h (history_ref h (sr card)) ++ [review_record card q now] ]> h
  /\ (state (sr card) <> Review -> q <> 0 -> q <> 3 ->
      snd (calculateNextReview h card q settings now rnd) =
        snd (calculateNextReview h card 2 settings now rnd))
  /\ (state (sr card) <> Review -> q <> 0 -> q <> 3 ->
      learningSteps settings = Some [] -> 0 <= learningStep (sr card) ->
      snd (calculateNextReview h card q settings now rnd) =
        let graduating :=
          or_default (graduatingInterval settings) DEFAULT_GRADUATING_INTERVAL in
        let! due := addDays (todayString now) graduating in
        Ok {| state := Review; interval := graduating;
              easeFactor := easeFactor (sr card); repetitions := 1;
              learningStep := 0; dueDate := Some due; lastReview := Some now;
              history := Some (history_ref h (sr card)) |}).
Proof.
  split; [apply calculateNextReview_heap|].
  split.
  - intros Hs H0 H3. unfold calculateNextReview. cbn [snd state].
    destruct (state (sr card)); try congruence;
      rewrite !handleLearningCard_other by (assumption || discriminate);
      reflexivity.
  - intros Hs H0 H3 Hl Hstep. unfold calculateNextReview. cbn [snd state].
    rewrite Hl.
    destruct (state (sr card)); try congruence;
      rewrite handleLearningCard_other by assumption;
      cbn [learningStep length default Datatypes.id Z.of_nat];
      (replace (learningStep (sr card) + 1 >=? Z.of_nat 0) with true
         by (symmetry; apply Z.geb_le; simpl; lia));
      reflexivity.
Qed.

(** A new card rated 5 under an empty step sequence. *)
Lemma no_input_validation_witness :
  snd (calculateNextReview (tz := UTC) example_heap example_new_card 5
    empty_steps
         example_now 0.5%float) =
    snd (calculateNextReview (tz := UTC) example_heap example_new_card 2
      empty_steps
           example_now 0.5%float)
  /\ snd (calculateNextReview (tz := UTC) example_heap example_new_card 5
    empty_steps
            example_now 0.5%float) =
       Ok {| state := Review; interval := 1%float; easeFactor := 2.5%float;
             repetitions := 1; learningStep := 0;
             dueDate := Some (todayString example_now + 1);
             lastReview := Some example_now; history := Some 1%positive |}.
Proof.
  pose proof (no_input_validation (tz := UTC) example_heap example_new_card 5
    empty_steps
                example_now 0.5%float) as (_ & H2 & H3).
  split.
  - apply H2; discriminate.
  - etransitivity;
      [apply H3; [discriminate|lia|lia|reflexivity|simpl; lia]|].
    vm_compute. reflexivity.
Defined.

(** C4 fails on the code.  The card's history array, at reference 1, holds
    one record before the call and two after it: the push goes to the array
    the input card still refers to, and the returned state shares it. *)
Theorem history_mutated_in_place {tz : TimeZone} :
  let r := calculateNextReview stored_heap example_review_card 2 no_settings
             example_now 0.5%float in
  history (sr example_review_card) = Some 1%positive /\
  array_at stored_heap 1%positive = [example_record] /\
  array_at (fst r) 1%positive =
    [example_record; review_record example_review_card 2 example_now] /\
  exists s, snd r = Ok s /\ history s = history (sr example_review_card).
Proof.
  repeat split.
  destruct (addDays_returns (todayString example_now) 75) as (d & Hd & _);
    [lia|vm_compute; discriminate|].
  assert (E : of_Z 75 = 75%float) by (vm_compute; reflexivity).
  rewrite E in Hd.
  exists {| state := Review; interval := 75%float; easeFactor := 2.5%float;
            repetitions := 6; learningStep := 0; dueDate := Some d;
            lastReview := Some example_now; history := Some 1%positive |}.
  split; [|reflexivity].
  transitivity
    (let! due := addDays (todayString example_now) 75%float in
     Ok {| state := Review; interval := 75%float; easeFactor := 2.5%float;
           repetitions := 6; learningStep := 0; dueDate := Some due;
           lastReview := Some example_now; history := Some 1%positive |}).
  - cbn [snd]. unfold calculateNextReview. cbn [snd].
    change (state (sr example_review_card)) with Review. cbv iota.
    rewrite handleReviewCard_rated by discriminate.
    match goal with |- context [review_interval ?s 2 ?r] =>
      replace (review_interval s 2 r) with 75%float
        by (vm_compute; reflexivity)
    end.
    match goal with |- context [review_ease ?e 2] =>
      replace (review_ease e 2) with 2.5%float by (vm_compute; reflexivity)
    end.
    reflexivity.
  - rewrite Hd. reflexivity.
Qed.

(** Displaying the estimates of a card whose history holds one record
    leaves five records in it. *)
Example getIntervalEstimates_example :
  let r := getIntervalEstimates (tz := UTC) stored_heap example_review_card
    no_settings
             example_now (fun _ => 0.5%float) in
  snd r = Ok [(15%float, Learning); (57%float, Review); (75%float, Review);
              (101%float, Review)] /\
  length (array_at stored_heap 1%positive) = 1%nat /\
  map r_quality (array_at (fst r) 1%positive) = [2; 0; 1; 2; 3].
Proof. repeat split. Qed.

(** C6 does not hold as stated: the third Good rating yields interval 6. *)
Lemma not_three_goods_reach_15 : ~ three_goods_reach_15.
Proof.
  intros H.
  specialize (H UTC example_now (example_now + MS_PER_DAY)
                (example_now + 2 * MS_PER_DAY) 0.5%float 0.5%float 0.5%float).
  vm_compute in H. discriminate H.
Qed.

Lemma rate_all_step {tz : TimeZone} h card settings q now rnd rest s :
  snd (calculateNextReview h card q settings now rnd) = Ok s ->
  rate_all h card settings ((q, now, rnd) :: rest) =
    Ok s :: rate_all (fst (calculateNextReview h card q settings now rnd))
              {| id := id card; sr := s |} settings rest.
Proof.
  intros E. cbn [rate_all].
  destruct (calculateNextReview h card q settings now rnd) as [h' r].
  simpl in E. rewrite E. reflexivity.
Qed.

Lemma rate_all_last {tz : TimeZone} h card settings q now rnd :
  rate_all h card settings [(q, now, rnd)] =
    [snd (calculateNextReview h card q settings now rnd)].
Proof.
  cbn [rate_all].
  destruct (calculateNextReview h card q settings now rnd) as [h' [s|e]];
    reflexivity.
Qed.

Lemma graduation_step {tz : TimeZone} h s now rnd days due r k :
  addDays (todayString now) days = Ok due ->
  snd (calculateNextReview h s 2 no_settings now rnd) =
    (let! due := addDays (todayString now) days in k due) ->
  k due = r ->
  snd (calculateNextReview h s 2 no_settings now rnd) = r.
Proof.
  intros Hd E <-. rewrite E, Hd. reflexivity.
Qed.

(** C6, as amended.  A new card under the default settings, rated Good at
    four clock readings, in any time zone; the second and the third reading
    are at least eight days from the ends of the range of [Date].  The
    results are: Learning at step 1 with interval 0; Review with interval 1;
    then interval 6; then [round(6 x 2.5) = 15] put through the fuzz, which
    gives 15 for the draw 0.5, 14 for the draw 0 and 16 for the draw 0.9999.
    The ease factor is 2.5 throughout.  The due dates are those [addDays]
    returns: one day and six days after the rating where the clocks of the
    zone do not change. *)
Theorem four_goods_progression {tz : TimeZone}
    now1 now2 now3 now4 rnd1 rnd2 rnd3 rnd4 :
  Z.abs (todayString now2) <= MAX_DAY - 8 ->
  Z.abs (todayString now3) <= MAX_DAY - 8 ->
  let fourth := Math_max 1%float (fuzzed 15%float rnd4) in
  (exists due2 due3,
     addDays (todayString now2) 1%float = Ok due2 /\
     addDays (todayString now3) 6%float = Ok due3 /\
     (fixed_offset tz ->
      due2 = todayString now2 + 1 /\ due3 = todayString now3 + 6) /\
     rate_all example_heap example_new_card no_settings
       [(2, now1, rnd1); (2, now2, rnd2); (2, now3, rnd3); (2, now4, rnd4)]
     = [ Ok {| state := Learning; interval := 0%float;
               easeFactor := 2.5%float; repetitions := 0; learningStep := 1;
               dueDate := Some (todayString now1); lastReview := Some now1;
               history := Some 1%positive |};
         Ok (graduated now2 1 1%float due2);
         Ok (graduated now3 2 6%float due3);
         let! due := addDays (todayString now4) fourth in
         Ok (graduated now4 3 fourth due) ])
  /\ fuzzed 15%float 0.5%float = 15%float
  /\ fuzzed 15%float 0%float = 14%float
  /\ fuzzed 15%float 0.9999%float = 16%float.
Proof.
  intros H2 H3 fourth.
  split; [|repeat split; vm_compute; reflexivity].
  assert (E1 : 1%float = of_Z 1) by (vm_compute; reflexivity).
  assert (E6 : 6%float = of_Z 6) by (vm_compute; reflexivity).
  destruct (addDays_returns (todayString now2) 1) as (due2 & Hd2 & _);
    [lia|unfold MAX_DAY in *; lia|].
  destruct (addDays_returns (todayString now3) 6) as (due3 & Hd3 & _);
    [lia|unfold MAX_DAY in *; lia|].
  rewrite <- E1 in Hd2. rewrite <- E6 in Hd3.
  exists due2, due3. split; [exact Hd2|]. split; [exact Hd3|]. split.
  { intros Hz.
    rewrite E1, addDays_whole in Hd2
      by (assumption || unfold MAX_DAY in *; lia).
    rewrite E6, addDays_whole in Hd3
      by (assumption || unfold MAX_DAY in *; lia).
    injection Hd2 as <-. injection Hd3 as <-. split; reflexivity. }
  rewrite (rate_all_step _ _ _ _ _ _ _
             {| state := Learning; interval := 0%float; easeFactor := 2.5%float;
                repetitions := 0; learningStep := 1;
                dueDate := Some (todayString now1); lastReview := Some now1;
                history := Some 1%positive |})
    by reflexivity.
  rewrite (rate_all_step _ _ _ _ _ _ _ (graduated now2 1 1%float due2)).
  2:{ apply (graduation_step _ _ _ _ 1%float due2)
        with (k := fun due => Ok (graduated now2 1 1%float due));
        [exact Hd2| |]; reflexivity. }
  rewrite (rate_all_step _ _ _ _ _ _ _ (graduated now3 2 6%float due3)).
  2:{ apply (graduation_step _ _ _ _ 6%float due3)
        with (k := fun due => Ok (graduated now3 2 6%float due));
        [exact Hd3| |]; reflexivity. }
  rewrite rate_all_last. reflexivity.
Qed.

(** Four Good ratings in UTC, on 14, 15, 16 and 22 November 2023, with the
    draw 0.5. *)
Lemma four_goods_progression_witness :
  Z.abs (todayString (example_now + MS_PER_DAY)) <= MAX_DAY - 8 /\
  Z.abs (todayString (example_now + 2 * MS_PER_DAY)) <= MAX_DAY - 8 /\
  nth_error
    (rate_all (tz := UTC) example_heap example_new_card no_settings
       [(2, example_now, 0.5%float);
        (2, example_now + MS_PER_DAY, 0.5%float);
        (2, example_now + 2 * MS_PER_DAY, 0.5%float);
        (2, example_now + 8 * MS_PER_DAY, 0.5%float)]) 3
  = Some (Ok (graduated (example_now + 8 * MS_PER_DAY) 3 15%float 19698)).
Proof.
  assert (H2 : Z.abs (todayString (example_now + MS_PER_DAY)) <= MAX_DAY - 8)
    by (vm_compute; discriminate).
  assert (H3 : Z.abs (todayString (example_now + 2 * MS_PER_DAY))
               <= MAX_DAY - 8)
    by (vm_compute; discriminate).
  split; [exact H2|]. split; [exact H3|].
  destruct (four_goods_progression (tz := UTC) example_now
              (example_now + MS_PER_DAY) (example_now + 2 * MS_PER_DAY)
              (example_now + 8 * MS_PER_DAY) 0.5%float 0.5%float 0.5%float
              0.5%float H2 H3) as [(due2 & due3 & _ & _ & _ & E) _].
  etransitivity; [exact (f_equal (fun l => nth_error l 3) E)|].
  vm_compute. reflexivity.
Defined.

(** ** The study queue *)

Lemma in_category_Overdue today c :
  in_category today Overdue c = is_overdue today c.
Proof.
  unfold in_category, category, is_overdue.
  destruct (state (sr c)), (dueDate (sr c)) as [d|]; try reflexivity.
  destruct (d <? today); [reflexivity|]. destruct (d =? today); reflexivity.
Qed.

Lemma in_category_DueReview today c :
  in_category today DueReview c = is_due_on today c.
Proof.
  unfold in_category, category, is_due_on.
  destruct (state (sr c)), (dueDate (sr c)) as [d|]; try reflexivity.
  destruct (Z.ltb_spec d today), (Z.eqb_spec d today); try reflexivity; lia.
Qed.

Lemma in_category_InLearning today c :
  in_category today InLearning c = is_learning c.
Proof.
  unfold in_category, category, is_learning.
  destruct (state (sr c)), (dueDate (sr c)) as [d|]; try reflexivity.
  destruct (d <? today); [reflexivity|]. destruct (d =? today); reflexivity.
Qed.

Lemma in_category_NewCard today c :
  in_category today NewCard c = is_new c.
Proof.
  unfold in_category, category, is_new.
  destruct (state (sr c)), (dueDate (sr c)) as [d|]; try reflexivity.
  destruct (d <? today); [reflexivity|]. destruct (d =? today); reflexivity.
Qed.

(** The queue by categories. *)
Lemma sortStudyQueue_eq cards now :
  sortStudyQueue cards now =
    Array_sort after_dueDate (List.filter (is_overdue (todayString now)) cards)
    ++ Array_sort after_easeFactor (List.filter (is_due_on (todayString now)) cards)
    ++ Array_sort after_learningStep (List.filter is_learning cards)
    ++ List.filter is_new cards.
Proof.
  unfold sortStudyQueue.
  rewrite (List.filter_ext _ _ (in_category_Overdue _)),
          (List.filter_ext _ _ (in_category_DueReview _)),
          (List.filter_ext _ _ (in_category_InLearning _)),
          (List.filter_ext _ _ (in_category_NewCard _)).
  reflexivity.
Qed.

Lemma Forall_filter_true {A} (f : A -> bool) l :
  Forall (fun x => f x = true) (List.filter f l).
Proof.
  apply Forall_forall. intros x Hx.
  apply list_elem_of_In, filter_In in Hx. tauto.
Qed.

Lemma overdue_sorted today l :
  Forall (fun c => is_overdue today c = true) l ->
  StronglySorted dueDate_le (Array_sort after_dueDate l).
Proof.
  apply Array_sort_sorted;
    unfold is_overdue, dueDate_le, after_dueDate, localeCompare.
  - intros x y z.
    destruct (dueDate (sr x)), (dueDate (sr y)), (dueDate (sr z));
      try tauto; lia.
  - intros x y.
    destruct (state (sr x)), (state (sr y)),
             (dueDate (sr x)) as [a|], (dueDate (sr y)) as [b|];
      try discriminate.
    intros _ _.
    destruct (Z.compare_spec a b); simpl; intros; try discriminate; lia.
  - intros x y.
    destruct (state (sr x)), (state (sr y)),
             (dueDate (sr x)) as [a|], (dueDate (sr y)) as [b|];
      try discriminate.
    intros _ _.
    destruct (Z.compare_spec a b); simpl; intros; try discriminate; lia.
Qed.

Lemma ease_sorted l :
  Forall has_ease l ->
  StronglySorted easeFactor_le (Array_sort after_easeFactor l).
Proof.
  apply Array_sort_sorted; unfold has_ease, easeFactor_le, after_easeFactor.
  - intros x y z Hxy Hyz.
    destruct (leb_true_not_nan _ _ Hxy) as [Nx Ny],
             (leb_true_not_nan _ _ Hyz) as [_ Nz].
    rewrite leb_key in * by assumption. lia.
  - intros x y Nx Ny.
    rewrite sub_pos_iff_lt, ltb_key, leb_key by assumption. lia.
  - intros x y Nx Ny.
    rewrite sub_pos_iff_lt, ltb_key, leb_key by assumption. lia.
Qed.

Lemma learning_sorted l :
  StronglySorted learningStep_le (Array_sort after_learningStep l).
Proof.
  apply (Array_sort_sorted after_learningStep (fun _ => True));
    unfold learningStep_le, after_learningStep.
  - intros; lia.
  - intros; lia.
  - intros; lia.
  - apply Forall_forall. trivial.
Qed.

Lemma filter_Permutation {A} (f : A -> bool) l l' :
  Permutation l l' -> Permutation (List.filter f l) (List.filter f l').
Proof.
  induction 1 as [|x l l' _ IH|x y l|l l' l'' _ IH1 _ IH2]; simpl.
  - reflexivity.
  - destruct (f x); [now constructor | exact IH].
  - destruct (f x), (f y); try reflexivity. apply perm_swap.
  - now rewrite IH1.
Qed.

Lemma queue_tail_not_overdue today cards :
  Forall (fun c => is_overdue today c = false)
    (Array_sort after_easeFactor (List.filter (is_due_on today) cards)
     ++ Array_sort after_learningStep (List.filter is_learning cards)
     ++ List.filter is_new cards).
Proof.
  rewrite !Forall_app. repeat split.
  - apply Array_sort_Forall. eapply Forall_impl; [apply Forall_filter_true|].
    intros c. unfold is_due_on, is_overdue. simpl.
    destruct (state (sr c)), (dueDate (sr c)); try discriminate. lia.
  - apply Array_sort_Forall. eapply Forall_impl; [apply Forall_filter_true|].
    intros c. unfold is_learning, is_overdue. simpl.
    destruct (state (sr c)); try discriminate. reflexivity.
  - eapply Forall_impl; [apply Forall_filter_true|].
    intros c. unfold is_new, is_overdue. simpl.
    destruct (state (sr c)); try discriminate. reflexivity.
Qed.

Lemma overdue_precede today cards now i j a b :
  today = todayString now ->
  sortStudyQueue cards now !! i = Some a ->
  sortStudyQueue cards now !! j = Some b ->
  is_overdue today a = true -> is_overdue today b = true ->
  dueDate_lt a b -> (i < j)%nat.
Proof.
  intros -> Hi Hj Ha Hb Hlt. rewrite sortStudyQueue_eq in Hi, Hj.
  pose proof (queue_tail_not_overdue (todayString now) cards) as Htail.
  rewrite Forall_forall in Htail.
  apply lookup_app_Some in Hi as [Hi|[_ Hi]];
    [|apply list_elem_of_lookup_2, Htail in Hi; congruence].
  apply lookup_app_Some in Hj as [Hj|[_ Hj]];
    [|apply list_elem_of_lookup_2, Htail in Hj; congruence].
  pose proof (overdue_sorted (todayString now) _
                (Forall_filter_true (is_overdue (todayString now)) cards)) as HS.
  destruct (Nat.lt_trichotomy i j) as [L|[E|L]]; [exact L| |].
  - subst j. rewrite Hi in Hj. injection Hj as ->.
    unfold dueDate_lt in Hlt. destruct (dueDate (sr b)); [lia|tauto].
  - pose proof (StronglySorted_lookup _ _ _ _ _ _ HS L Hj Hi) as Hle.
    unfold dueDate_lt in Hlt. unfold dueDate_le in Hle.
    destruct (dueDate (sr a)), (dueDate (sr b)); try tauto. lia.
Qed.

Lemma three_cards today now a b c l :
  today = todayString now ->
  is_overdue today a = true -> is_due_on today b = true -> is_new c = true ->
  Permutation l [a; b; c] ->
  sortStudyQueue l now = [a; b; c].
Proof.
  intros -> Ha Hb Hc HP. rewrite sortStudyQueue_eq.
  assert (Hab : is_due_on (todayString now) a = false).
  { revert Ha. unfold is_overdue, is_due_on.
    destruct (state (sr a)), (dueDate (sr a)); try discriminate. lia. }
  assert (Hba : is_overdue (todayString now) b = false).
  { revert Hb. unfold is_overdue, is_due_on.
    destruct (state (sr b)), (dueDate (sr b)); try discriminate. lia. }
  assert (Hrev : forall x,
             is_overdue (todayString now) x = true \/
             is_due_on (todayString now) x = true ->
             is_learning x = false /\ is_new x = false).
  { intros x. unfold is_overdue, is_due_on, is_learning, is_new.
    destruct (state (sr x)); auto; intros [?|?]; discriminate. }
  destruct (Hrev a (or_introl Ha)) as [Hal Han].
  destruct (Hrev b (or_intror Hb)) as [Hbl Hbn].
  assert (Hco : is_overdue (todayString now) c = false /\
                is_due_on (todayString now) c = false /\
                is_learning c = false).
  { revert Hc. unfold is_overdue, is_due_on, is_learning, is_new.
    destruct (state (sr c)); auto; discriminate. }
  destruct Hco as (Hco & Hcd & Hcl).
  pose proof (filter_Permutation (is_overdue (todayString now)) _ _ HP) as P1.
  pose proof (filter_Permutation (is_due_on (todayString now)) _ _ HP) as P2.
  pose proof (filter_Permutation is_learning _ _ HP) as P3.
  pose proof (filter_Permutation is_new _ _ HP) as P4.
  simpl in P1, P2, P3, P4.
  rewrite Ha, Hba, Hco in P1. rewrite Hab, Hb, Hcd in P2.
  rewrite Hal, Hbl, Hcl in P3. rewrite Han, Hbn, Hc in P4.
  apply Permutation_singleton_r in P1, P2, P4. apply Permutation_nil_r in P3.
  rewrite P1, P2, P3, P4. reflexivity.
Qed.

Lemma slice_to_all {A} (l : list A) limit m e :
  Prim2SF limit = S754_finite false m e ->
  Z.of_nat (length l) <= trunc false m e ->
  slice_to l limit = l.
Proof.
  intros E H. unfold slice_to. rewrite E.
  assert (0 <= trunc false m e)
    by (unfold trunc; simpl; now apply Z.shiftl_nonneg).
  destruct (Z.ltb_spec (trunc false m e) 0); [lia|].
  apply take_ge. lia.
Qed.

Lemma three_cards_session today now a b c l :
  today = todayString now ->
  is_overdue today a = true -> is_due_on today b = true -> is_new c = true ->
  Permutation l [a; b; c] ->
  App.startStudySession None l now = [a; b; c].
Proof.
  intros -> Ha Hb Hc HP. unfold App.startStudySession.
  cbn [mbind option_bind or_default].
  set (due := getDueCards l now).
  assert (Da : is_due (todayString now) a = true /\ is_new a = false).
  { revert Ha. unfold is_overdue, is_due, is_new.
    destruct (state (sr a)), (dueDate (sr a)); try discriminate.
    intros; split; [lia|reflexivity]. }
  assert (Db : is_due (todayString now) b = true /\ is_new b = false).
  { revert Hb. unfold is_due_on, is_due, is_new.
    destruct (state (sr b)), (dueDate (sr b)); try discriminate.
    intros; split; [lia|reflexivity]. }
  assert (Dc : is_due (todayString now) c = true).
  { revert Hc. unfold is_due, is_new.
    destruct (state (sr c)); try discriminate; reflexivity. }
  destruct Da as [Da Na], Db as [Db Nb].
  assert (Pd : Permutation due [a; b; c]).
  { unfold due, getDueCards. rewrite (filter_Permutation _ _ _ HP).
    simpl. rewrite Da, Db, Dc. reflexivity. }
  assert (Pn : List.filter is_new due = [c]).
  { apply Permutation_singleton_r. rewrite (filter_Permutation _ _ _ Pd).
    simpl. rewrite Na, Nb, Hc. reflexivity. }
  assert (Pr : Permutation (List.filter (fun x => negb (is_new x)) due) [a; b]).
  { rewrite (filter_Permutation _ _ _ Pd). simpl. rewrite Na, Nb, Hc.
    reflexivity. }
  rewrite Pn.
  rewrite (slice_to_all [c] 20%float 5629499534213120 (-48))
    by (vm_compute; (reflexivity || discriminate)).
  rewrite (slice_to_all _ 200%float 7036874417766400 (-45)).
  - apply (three_cards (todayString now)); auto.
    rewrite Pr. reflexivity.
  - reflexivity.
  - rewrite (Permutation_length Pr). vm_compute. discriminate.
Qed.

(** C5.  The queue is the concatenation of four lists: the overdue review
    cards by ascending due date, the review cards due today by ascending
    ease factor (for ease factors that are numbers), the learning cards by
    ascending learning step, the new cards in input order.  Hence an overdue
    card with an earlier due date precedes one with a later due date,
    whatever their ease factors; and one overdue, one due-today and one new
    card, given in any order, come out in that order, from [sortStudyQueue]
    and from the session queue built without settings. *)
Theorem sortStudyQueue_order cards now :
  let today := todayString now in
  let queue := sortStudyQueue cards now in
  exists overdue dueReview learning newCards,
    queue = overdue ++ dueReview ++ learning ++ newCards /\
    Permutation overdue (List.filter (is_overdue today) cards) /\
    StronglySorted dueDate_le overdue /\
    Permutation dueReview (List.filter (is_due_on today) cards) /\
    (Forall has_ease dueReview -> StronglySorted easeFactor_le dueReview) /\
    Permutation learning (List.filter is_learning cards) /\
    StronglySorted learningStep_le learning /\
    newCards = List.filter is_new cards /\
    (forall i j a b,
        queue !! i = Some a -> queue !! j = Some b ->
        is_overdue today a = true -> is_overdue today b = true ->
        dueDate_lt a b -> (i < j)%nat) /\
    (forall a b c l,
        is_overdue today a = true -> is_due_on today b = true ->
        is_new c = true -> Permutation l [a; b; c] ->
        sortStudyQueue l now = [a; b; c] /\
        App.startStudySession None l now = [a; b; c]).
Proof.
  intros today queue. subst queue.
  eexists _, _, _, _. split; [apply sortStudyQueue_eq|]. fold today.
  repeat split.
  - apply Array_sort_perm.
  - apply (overdue_sorted today), Forall_filter_true.
  - apply Array_sort_perm.
  - intros H. rewrite Array_sort_perm in H. now apply ease_sorted.
  - apply Array_sort_perm.
  - apply learning_sorted.
  - intros i j a b. now apply overdue_precede.
  - now apply (three_cards today).
  - now apply (three_cards_session today).
Qed.

(** The three example cards, given as new, due today, overdue. *)
Lemma sortStudyQueue_order_witness :
  is_overdue (todayString example_now) example_overdue_card = true /\
  is_due_on (todayString example_now) example_due_card = true /\
  is_new example_new_card = true /\
  sortStudyQueue example_cards example_now =
    [example_overdue_card; example_due_card; example_new_card] /\
  App.startStudySession None example_cards example_now =
    [example_overdue_card; example_due_card; example_new_card].
Proof.
  assert (HP : Permutation example_cards
                 [example_overdue_card; example_due_card; example_new_card]).
  { unfold example_cards.
    eapply perm_trans; [apply perm_swap|].
    eapply perm_trans; [apply perm_skip, perm_swap|].
    apply perm_swap. }
  destruct (sortStudyQueue_order example_cards example_now)
    as (o & d & l & n & _ & _ & _ & _ & _ & _ & _ & _ & _ & H).
  exact (conj eq_refl (conj eq_refl (conj eq_refl
           (H example_overdue_card example_due_card example_new_card
              example_cards eq_refl eq_refl eq_refl HP)))).
Defined.

(** ** Statistics *)

Lemma tally_totalEase today cards t :
  totalEase (fold_left (tally_card today) cards t) =
    fold_left (fun acc c => (acc + easeFactor (sr c))%float) cards (totalEase t).
Proof.
  revert t. induction cards as [|c cards IH]; intros t; simpl.
  - reflexivity.
  - rewrite IH. f_equal. unfold tally_card.
    destruct (state (sr c)); reflexivity.
Qed.

Lemma count_review_fold reviews t k :
  fold_left count_review reviews (t, k) =
    (t + Z.of_nat (length reviews),
     k + Z.of_nat (length (List.filter is_correct reviews))).
Proof.
  revert t k. induction reviews as [|r reviews IH]; intros t k.
  - simpl. f_equal; lia.
  - cbn [fold_left count_review List.filter]. rewrite IH. unfold is_correct.
    rewrite Z.geb_leb. destruct (2 <=? r_quality r); cbn [length]; f_equal; lia.
Qed.

Lemma count_card_reviews h t k c :
  count_card h (t, k) c = fold_left count_review (reviews_of h c) (t, k).
Proof.
  unfold count_card, reviews_of. destruct (history (sr c)); reflexivity.
Qed.

Lemma count_card_fold h cards t k :
  fold_left (count_card h) cards (t, k) =
    (t + Z.of_nat (length (all_reviews h cards)),
     k + Z.of_nat (length (List.filter is_correct (all_reviews h cards)))).
Proof.
  revert t k. induction cards as [|c cards IH]; intros t k.
  - simpl. f_equal; lia.
  - cbn [fold_left all_reviews flat_map].
    rewrite count_card_reviews, count_review_fold, IH.
    rewrite List.filter_app, !length_app. unfold all_reviews. f_equal; lia.
Qed.

(** C9.  [averageEase] is the arithmetic mean of the ease factors, 2.5 for
    no cards, in which case [total] and [dueToday] are 0; the retention is
    100 times the share of history records with quality at least 2, and 0
    when there is no record. *)
Theorem stats_average_and_retention h cards now :
  averageEase (getStudyStats cards now) =
    match cards with
    | [] => 2.5%float
    | _ :: _ => mean_ease cards
    end
  /\ total (getStudyStats [] now) = 0
  /\ dueToday (getStudyStats [] now) = 0
  /\ averageEase (getStudyStats [] now) = 2.5%float
  /\ calculateRetention h cards = retention h cards.
Proof.
  repeat split.
  - unfold getStudyStats. cbn [averageEase]. destruct cards as [|c cards].
    + reflexivity.
    + replace (0 <? Z.of_nat (length (c :: cards))) with true
        by (symmetry; apply Z.ltb_lt; simpl; lia).
      rewrite tally_totalEase. reflexivity.
  - unfold calculateRetention, retention. rewrite count_card_fold.
    rewrite !Z.add_0_l.
    set (n := Z.of_nat (length (all_reviews h cards))).
    destruct (Z.ltb_spec 0 n), (Z.eqb_spec n 0); try lia.
    + apply mul_comm.
    + reflexivity.
Qed.

(** The statistics of the three example cards. *)
Example getStudyStats_example :
  getStudyStats example_cards example_now =
    {| total := 3; newCount := 1; learningCount := 0; reviewCount := 2;
       dueToday := 3; averageEase := 2.3666666666666667%float |}.
Proof. reflexivity. Qed.

(** Two correct reviews of three: the ratio is taken first and then
    multiplied by 100, which in doubles is not [200 / 3]. *)
Example calculateRetention_example :
  calculateRetention rated_heap [example_new_card] = (2 / 3 * 100)%float /\
  (2 / 3 * 100)%float = 66.666666666666657%float /\
  (100 * 2 / 3)%float = 66.666666666666671%float.
Proof. repeat split. Qed.

(** ** Defaults of the settings *)

Lemma slice_to_nil {A} (limit : number) : slice_to (@nil A) limit = [].
Proof.
  unfold slice_to. destruct (Prim2SF limit) as [?|[]| |? ? ?]; try reflexivity.
  destruct (_ <? 0); apply take_nil.
Qed.

Lemma new_cards_admitted s now :
  App.startStudySession (Some (set_newCardsPerDay s 0%float))
    (replicate 25 example_new_card) now = replicate 20 example_new_card.
Proof.
  unfold App.startStudySession.
  replace (List.filter (fun c => negb (is_new c))
             (getDueCards (replicate 25 example_new_card) now))
    with (@nil Card) by reflexivity.
  rewrite slice_to_nil. reflexivity.
Qed.

(** C10.  A numeric setting of 0 counts as absent: the engine, the session
    queue and [collections.create] behave with graduatingInterval,
    easyInterval, newCardsPerDay or reviewsPerDay 0 as with 1, 4, 20 and
    200; with newCardsPerDay 0, twenty of 25 new cards enter the queue.  An
    empty step sequence is kept as it is: a new card rated Good graduates at
    once, where the default steps keep it in Learning. *)
Theorem zero_settings_are_defaults {tz : TimeZone} h card q s now rnd cards :
  calculateNextReview h card q (set_graduatingInterval s 0%float) now rnd =
    calculateNextReview h card q (set_graduatingInterval s 1%float) now rnd
  /\ calculateNextReview h card q (set_easyInterval s 0%float) now rnd =
       calculateNextReview h card q (set_easyInterval s 4%float) now rnd
  /\ App.startStudySession (Some (set_newCardsPerDay s 0%float)) cards now =
       App.startStudySession (Some (set_newCardsPerDay s 20%float)) cards now
  /\ App.startStudySession (Some (set_reviewsPerDay s 0%float)) cards now =
       App.startStudySession (Some (set_reviewsPerDay s 200%float)) cards now
  /\ Storage.create_settings (Some zero_settings) =
       {| newCardsPerDay := Some 20%float; reviewsPerDay := Some 200%float;
          learningSteps := Some []; graduatingInterval := Some 1%float;
          easyInterval := Some 4%float; startingEase := Some 2.5%float |}
  /\ length (App.startStudySession (Some (set_newCardsPerDay s 0%float))
               (replicate 25 example_new_card) now) = 20%nat
  /\ (exists s1,
        snd (calculateNextReview example_heap example_new_card 2 empty_steps
               example_now rnd) = Ok s1 /\ state s1 = Review)
  /\ (exists s2,
        snd (calculateNextReview example_heap example_new_card 2 no_settings
               example_now rnd) = Ok s2 /\ state s2 = Learning).
Proof.
  repeat split; try reflexivity.
  - now rewrite new_cards_admitted.
  - destruct (addDays_returns (todayString example_now) 1) as (d & Hd & _);
      [lia|vm_compute; discriminate|].
    assert (E1 : of_Z 1 = 1%float) by (vm_compute; reflexivity).
    rewrite E1 in Hd.
    exists {| state := Review; interval := 1%float; easeFactor := 2.5%float;
              repetitions := 1; learningStep := 0; dueDate := Some d;
              lastReview := Some example_now; history := Some 1%positive |}.
    split; [|reflexivity].
    transitivity
      (let! due := addDays (todayString example_now) 1%float in
       Ok {| state := Review; interval := 1%float; easeFactor := 2.5%float;
             repetitions := 1; learningStep := 0; dueDate := Some due;
             lastReview := Some example_now; history := Some 1%positive |});
      [reflexivity|].
    rewrite Hd. reflexivity.
  - eexists. split; reflexivity.
Qed.

(** * Further properties of the code *)

(** ** Ratings of new and learning cards *)

Lemma calculateNextReview_learning {tz : TimeZone} h card q settings now rnd :
  state (sr card) <> Review ->
  snd (calculateNextReview h card q settings now rnd) =
    handleLearningCard
      {| state := state (sr card); interval := interval (sr card);
         easeFactor := easeFactor (sr card);
         repetitions := repetitions (sr card);
         learningStep := learningStep (sr card); dueDate := dueDate (sr card);
         lastReview := Some now; history := Some (history_ref h (sr card)) |}
      q (learning_steps settings)
      (or_default (graduatingInterval settings) DEFAULT_GRADUATING_INTERVAL)
      (or_default (easyInterval settings) DEFAULT_EASY_INTERVAL)
      (todayString now).
Proof.
  intros Hs. unfold calculateNextReview. cbn [snd state].
  destruct (state (sr card)); (reflexivity || congruence).
Qed.

Lemma calculateNextReview_review {tz : TimeZone} h card q settings now rnd :
  state (sr card) = Review ->
  snd (calculateNextReview h card q settings now rnd) =
    handleReviewCard
      {| state := Review; interval := interval (sr card);
         easeFactor := easeFactor (sr card);
         repetitions := repetitions (sr card);
         learningStep := learningStep (sr card); dueDate := dueDate (sr card);
         lastReview := Some now; history := Some (history_ref h (sr card)) |}
      q (todayString now) rnd.
Proof.
  intros Hs. unfold calculateNextReview. cbn [snd state]. rewrite Hs.
  reflexivity.
Qed.

(** Again leaves every card in Learning, and cannot fail. *)
Lemma again_learning {tz : TimeZone} h card settings now rnd :
  exists s,
    snd (calculateNextReview h card 0 settings now rnd) = Ok s /\
    state s = Learning.
Proof.
  destruct (decide (state (sr card) = Review)) as [Hs|Hs].
  - rewrite calculateNextReview_review by assumption.
    unfold handleReviewCard. cbn [Z.eqb]. eexists. split; reflexivity.
  - rewrite calculateNextReview_learning by assumption.
    unfold handleLearningCard. cbn [Z.eqb]. eexists. split; reflexivity.
Qed.

(** X1.  Again never fails.  Whatever the card's state, the settings and the
    draw, a rating of 0 returns a card in Learning at step 0 with no
    repetitions, due on the day of the rating; a new or learning card keeps
    its interval and its ease factor. *)
Theorem again_always_relearns {tz : TimeZone} h card settings now rnd :
  exists sr',
    snd (calculateNextReview h card 0 settings now rnd) = Ok sr' /\
    state sr' = Learning /\ learningStep sr' = 0 /\ repetitions sr' = 0 /\
    dueDate sr' = Some (todayString now) /\
    (state (sr card) <> Review ->
     interval sr' = interval (sr card) /\
     easeFactor sr' = easeFactor (sr card)).
Proof.
  destruct (decide (state (sr card) = Review)) as [Hs|Hs].
  - rewrite calculateNextReview_review by assumption.
    unfold handleReviewCard. cbn [Z.eqb].
    eexists. split; [reflexivity|]. cbn. repeat split; congruence.
  - rewrite calculateNextReview_learning by assumption.
    unfold handleLearningCard. cbn [Z.eqb].
    eexists. split; [reflexivity|]. cbn. repeat split; congruence.
Qed.

(** X2.  A card that has been rated is never New again and always carries a
    due date; when the rating leaves it in Learning, it is due on the day of
    the rating. *)
Theorem rated_card_is_dated {tz : TimeZone} h card q settings now rnd sr' :
  snd (calculateNextReview h card q settings now rnd) = Ok sr' ->
  state sr' <> New /\
  (exists d, dueDate sr' = Some d) /\
  (state sr' = Learning -> dueDate sr' = Some (todayString now)).
Proof.
  destruct (decide (state (sr card) = Review)) as [Hs|Hs].
  - rewrite calculateNextReview_review by assumption.
    unfold handleReviewCard.
    destruct (q =? 0).
    + intros [= <-]. cbn. repeat split; [discriminate|eauto].
    + cbv zeta. destruct (addDays _ _); cbn [bind]; [|discriminate].
      intros [= <-]. cbn. repeat split; [discriminate|eauto|discriminate].
  - rewrite calculateNextReview_learning by assumption.
    unfold handleLearningCard.
    repeat match goal with
           | |- context [if ?b then _ else _] => destruct b
           | |- context [addDays ?d ?i] => destruct (addDays d i)
           end;
      cbn [bind]; (intros [= <-] || discriminate); cbn;
      repeat split; (discriminate || eauto).
Qed.

(** The new card, rated Good: it has no due date before, and one after. *)
Lemma rated_card_is_dated_witness :
  dueDate (sr example_new_card) = None /\
  snd (calculateNextReview (tz := UTC) example_heap example_new_card 2
    no_settings
         example_now 0.5%float) =
    Ok {| state := Learning; interval := 0%float; easeFactor := 2.5%float;
          repetitions := 0; learningStep := 1; dueDate := Some 19675;
          lastReview := Some example_now; history := Some 1%positive |} /\
  (Learning <> New /\ (exists d, Some 19675 = Some d) /\
   (Learning = Learning -> Some 19675 = Some (todayString example_now))).
Proof.
  assert (H : snd (calculateNextReview (tz := UTC) example_heap
    example_new_card 2
                     no_settings example_now 0.5%float) =
    Ok {| state := Learning; interval := 0%float; easeFactor := 2.5%float;
          repetitions := 0; learningStep := 1; dueDate := Some 19675;
          lastReview := Some example_now; history := Some 1%positive |})
    by (vm_compute; reflexivity).
  exact (conj eq_refl (conj H
           (rated_card_is_dated example_heap example_new_card 2 no_settings
              example_now 0.5%float _ H))).
Defined.

Lemma learning_step_advances {tz : TimeZone} h card q settings now rnd :
  state (sr card) <> Review -> q <> 0 -> q <> 3 ->
  learningStep (sr card) + 1 < Z.of_nat (length (learning_steps settings)) ->
  snd (calculateNextReview h card q settings now rnd) =
    Ok {| state := Learning; interval := interval (sr card);
          easeFactor := easeFactor (sr card);
          repetitions := repetitions (sr card);
          learningStep := learningStep (sr card) + 1;
          dueDate := Some (todayString now); lastReview := Some now;
          history := Some (history_ref h (sr card)) |}.
Proof.
  intros Hs H0 H3 Hn.
  rewrite calculateNextReview_learning by assumption.
  rewrite handleLearningCard_other by assumption. cbn [learningStep].
  replace (_ >=? _) with false
    by (symmetry; rewrite Z.geb_leb; apply Z.leb_gt; lia).
  reflexivity.
Qed.

(** X3.  The learning ladder.  A new or learning card is rated Hard or Good
    several times in a row, and the step sequence is long enough for all of
    them: the rating at position [i] leaves the card in Learning at step
    [learningStep + i + 1], due the day of that rating, with the interval,
    the ease factor and the repetitions it started with. *)
Theorem learning_steps_advance {tz : TimeZone} h card settings ratings i q now
    rnd :
  state (sr card) <> Review ->
  Forall (fun r => quality_of r <> 0 /\ quality_of r <> 3) ratings ->
  learningStep (sr card) + Z.of_nat (length ratings)
    < Z.of_nat (length (learning_steps settings)) ->
  ratings !! i = Some (q, now, rnd) ->
  rate_all h card settings ratings !! i =
    Some (Ok {| state := Learning; interval := interval (sr card);
                easeFactor := easeFactor (sr card);
                repetitions := repetitions (sr card);
                learningStep := learningStep (sr card) + Z.of_nat i + 1;
                dueDate := Some (todayString now); lastReview := Some now;
                history := Some (history_ref h (sr card)) |}).
Proof.
  intros Hs Hq Hn. revert h card i Hs Hn.
  induction Hq as [|[[q1 now1] rnd1] rest [H0 H3] Hrest IH];
    intros h card i Hs Hn Hi; [discriminate|].
  cbn [length] in Hn. cbn [quality_of fst] in H0, H3.
  rewrite (rate_all_step _ _ _ _ _ _ _ _
             (learning_step_advances h card q1 settings now1 rnd1 Hs H0 H3
                ltac:(lia))).
  destruct i as [|i]; cbn [lookup list_lookup] in *.
  - injection Hi as -> -> ->. do 3 f_equal. lia.
  - rewrite (IH _ _ i); cbn [sr state learningStep]; try assumption;
      [|discriminate|lia].
    cbn [sr interval easeFactor repetitions learningStep history history_ref].
    do 3 f_equal. lia.
Qed.

(** Settings with four learning steps, used below. *)
Lemma learning_steps_advance_witness :
  let settings :=
    {| newCardsPerDay := None; reviewsPerDay := None;
       learningSteps := Some [1%float; 5%float; 10%float; 60%float];
       graduatingInterval := None; easyInterval := None;
       startingEase := None |} in
  let ratings :=
    [(2, example_now, 0.5%float); (1, example_now + 60000, 0.5%float);
     (2, example_now + 360000, 0.5%float)] in
  rate_all (tz := UTC) example_heap example_new_card settings ratings !! 2%nat =
    Some (Ok {| state := Learning; interval := 0%float;
                easeFactor := 2.5%float; repetitions := 0; learningStep := 3;
                dueDate := Some 19675; lastReview := Some (example_now + 360000);
                history := Some 1%positive |}).
Proof.
  exact (learning_steps_advance (tz := UTC) example_heap example_new_card
           {| newCardsPerDay := None; reviewsPerDay := None;
              learningSteps := Some [1%float; 5%float; 10%float; 60%float];
              graduatingInterval := None; easyInterval := None;
              startingEase := None |}
           [(2, example_now, 0.5%float); (1, example_now + 60000, 0.5%float);
            (2, example_now + 360000, 0.5%float)]
           2%nat 2 (example_now + 360000) 0.5%float
           ltac:(discriminate)
           ltac:(repeat constructor; discriminate)
           ltac:(vm_compute; reflexivity)
           eq_refl).
Defined.

Lemma review_interval_second s rnd :
  repetitions s = 1 -> review_interval s 2 rnd = 6%float.
Proof.
  intros E. unfold review_interval, review_base. rewrite E. reflexivity.
Qed.

(** X4.  Graduation, and the review after it.  A new or learning card
    graduates on Easy, with the easy interval, or on another rating than
    Again at the last learning step, with the graduating interval; it then
    has one repetition and is due on the date [addDays] returns for that
    interval.  Rated Good at its first review, it gets the interval 6
    whatever interval it graduated with, and two repetitions; its due date
    is the one [addDays] returns for 6 days, six days after the rating where
    the clocks of the zone do not change. *)
Theorem first_review_after_graduation {tz : TimeZone}
    h card settings q now1 rnd1 now2 rnd2 due1 :
  let g :=
    if q =? 3
    then or_default (easyInterval settings) DEFAULT_EASY_INTERVAL
    else or_default (graduatingInterval settings)
           DEFAULT_GRADUATING_INTERVAL in
  state (sr card) <> Review ->
  q <> 0 ->
  (q <> 3 ->
   Z.of_nat (length (learning_steps settings)) <= learningStep (sr card) + 1) ->
  addDays (todayString now1) g = Ok due1 ->
  Z.abs (todayString now2) <= MAX_DAY - 8 ->
  exists due2,
    addDays (todayString now2) 6%float = Ok due2 /\
    (fixed_offset tz -> due2 = todayString now2 + 6) /\
    rate_all h card settings [(q, now1, rnd1); (2, now2, rnd2)] =
      [ Ok {| state := Review; interval := g;
              easeFactor := easeFactor (sr card); repetitions := 1;
              learningStep := 0; dueDate := Some due1;
              lastReview := Some now1;
              history := Some (history_ref h (sr card)) |};
        Ok {| state := Review; interval := 6%float;
              easeFactor := review_ease (easeFactor (sr card)) 2;
              repetitions := 2; learningStep := 0;
              dueDate := Some due2; lastReview := Some now2;
              history := Some (history_ref h (sr card)) |} ].
Proof.
  intros g Hs H0 Hlast Hd1 Hn2.
  assert (E6 : 6%float = of_Z 6) by (vm_compute; reflexivity).
  destruct (addDays_returns (todayString now2) 6) as (due2 & Hd2 & _);
    [lia|unfold MAX_DAY in *; lia|].
  rewrite <- E6 in Hd2.
  exists due2. split; [exact Hd2|]. split.
  { intros Hz.
    rewrite E6, addDays_whole in Hd2
      by (assumption || unfold MAX_DAY in *; lia).
    now injection Hd2 as <-. }
  assert (E1 : snd (calculateNextReview h card q settings now1 rnd1) =
    Ok {| state := Review; interval := g;
          easeFactor := easeFactor (sr card); repetitions := 1;
          learningStep := 0; dueDate := Some due1;
          lastReview := Some now1;
          history := Some (history_ref h (sr card)) |}).
  { rewrite calculateNextReview_learning by assumption. subst g.
    destruct (Z.eqb_spec q 3) as [->|H3].
    - unfold handleLearningCard. cbn [Z.eqb].
      cbn [Z.eqb] in Hd1. rewrite Hd1. reflexivity.
    - rewrite handleLearningCard_other by assumption. cbn [learningStep].
      replace (_ >=? _) with true
        by (symmetry; apply Z.geb_le; specialize (Hlast H3); lia).
      rewrite Hd1. reflexivity. }
  rewrite (rate_all_step _ _ _ _ _ _ _ _ E1), rate_all_last.
  rewrite calculateNextReview_review by reflexivity.
  rewrite handleReviewCard_rated by discriminate.
  rewrite review_interval_second by reflexivity.
  rewrite Hd2. reflexivity.
Qed.

(** A new card rated Easy in UTC under an easy interval of 10 days, and Good
    ten days later: the interval goes from 10 to 6. *)
Lemma first_review_after_graduation_witness :
  addDays (tz := UTC) (todayString example_now) 10%float = Ok 19685 /\
  Z.abs (todayString (example_now + 10 * MS_PER_DAY)) <= MAX_DAY - 8 /\
  map result_interval
    (rate_all (tz := UTC) example_heap example_new_card
       (set_easyInterval no_settings 10%float)
       [(3, example_now, 0.5%float);
        (2, example_now + 10 * MS_PER_DAY, 0.5%float)]) =
    [Some 10%float; Some 6%float].
Proof.
  assert (H1 : addDays (tz := UTC) (todayString example_now) 10%float
               = Ok 19685)
    by (vm_compute; reflexivity).
  assert (H2 : Z.abs (todayString (example_now + 10 * MS_PER_DAY))
               <= MAX_DAY - 8)
    by (vm_compute; discriminate).
  split; [exact H1|]. split; [exact H2|].
  destruct (first_review_after_graduation (tz := UTC) example_heap
              example_new_card (set_easyInterval no_settings 10%float) 3
              example_now 0.5%float (example_now + 10 * MS_PER_DAY) 0.5%float
              19685 ltac:(discriminate) ltac:(discriminate)
              ltac:(intros H; now contradiction H) H1 H2)
    as (due2 & _ & _ & E).
  etransitivity; [exact (f_equal (map result_interval) E)|reflexivity].
Defined.

(** X5.  New and learning cards ignore the random draw and keep their ease
    factor: the fuzz is not applied to a graduating or easy interval, however
    long, and no rating touches the ease factor before the card is in
    Review.  A card left in Learning keeps its interval too. *)
Theorem learning_ignores_draw {tz : TimeZone} h card q settings now rnd rnd' :
  state (sr card) <> Review ->
  calculateNextReview h card q settings now rnd =
    calculateNextReview h card q settings now rnd' /\
  (forall sr',
      snd (calculateNextReview h card q settings now rnd) = Ok sr' ->
      easeFactor sr' = easeFactor (sr card) /\
      (state sr' = Learning -> interval sr' = interval (sr card))).
Proof.
  intros Hs. split.
  - unfold calculateNextReview. cbn [state].
    destruct (state (sr card)); (reflexivity || congruence).
  - intros sr'. rewrite calculateNextReview_learning by assumption.
    unfold handleLearningCard.
    repeat match goal with
           | |- context [if ?b then _ else _] => destruct b
           | |- context [addDays ?d ?i] => destruct (addDays d i)
           end;
      cbn [bind]; (intros [= <-] || discriminate); cbn;
      split; (reflexivity || discriminate).
Qed.

(** A new card graduated with an easy interval of 30 days: the interval is
    30 for the draws 0 and 0.9999 alike. *)
Lemma learning_ignores_draw_witness :
  state (sr example_new_card) <> Review /\
  calculateNextReview (tz := UTC) example_heap example_new_card 3
    (set_easyInterval no_settings 30%float) example_now 0%float =
  calculateNextReview (tz := UTC) example_heap example_new_card 3
    (set_easyInterval no_settings 30%float) example_now 0.9999%float.
Proof.
  assert (H : state (sr example_new_card) <> Review) by discriminate.
  exact (conj H
           (proj1 (learning_ignores_draw example_heap example_new_card 3
                     (set_easyInterval no_settings 30%float) example_now
                     0%float 0.9999%float H))).
Defined.

(** ** Ratings of review cards *)

Lemma add_nan_r x y : is_nan y = true -> (x + y)%float = nan.
Proof.
  intros H. apply is_nan_nan, is_nan_spec. rewrite add_spec.
  apply is_nan_spec in H. rewrite H.
  destruct (Prim2SF x) as [?|?| |? ? ?]; reflexivity.
Qed.

(** [addDays] returns only for a finite number of days. *)
Lemma addDays_Ok_finite {tz : TimeZone} date days d :
  addDays date days = Ok d -> exists n, to_integer days = Some n.
Proof.
  unfold addDays.
  destruct (Z.abs _ <=? MAX_TIME); [|discriminate]. cbv zeta.
  set (D := of_Z _). clearbody D.
  unfold to_integer at 1. rewrite add_spec. unfold to_integer.
  destruct (Prim2SF days) as [s|s| |s m e] eqn:E; try (now eexists).
  - destruct (Prim2SF D) as [?|[]| |? ? ?]; destruct s; discriminate.
  - destruct (Prim2SF D) as [?|?| |? ? ?]; discriminate.
Qed.

(** A count that is not a number makes the date invalid. *)
Lemma addDays_nan {tz : TimeZone} date : addDays date nan = Throw RangeError.
Proof.
  unfold addDays. destruct (Z.abs _ <=? MAX_TIME); [|reflexivity].
  cbv zeta. rewrite add_nan_r by reflexivity. reflexivity.
Qed.

(** X6.  A review card rated Hard, Good or Easy leaves the queue where the
    clocks do not change.  When the call returns, the new interval is at
    least one day.  In a time zone without clock changes, and when today and
    today plus the interval are dates of the years 0000 to 9999, the
    interval is a whole number of days, the due date is that many days after
    the day of the rating, and the updated card is not returned by
    [getDueCards], is dropped by [sortStudyQueue], and is in no session
    started at that time. *)
Theorem review_leaves_queue {tz : TimeZone} h card q settings now rnd sr' :
  state (sr card) = Review -> q <> 0 ->
  snd (calculateNextReview h card q settings now rnd) = Ok sr' ->
  (1 <=? interval sr')%float = true /\
  (fixed_offset tz ->
   four_digit_year (todayString now) ->
   (forall n, to_integer (interval sr') = Some n ->
              four_digit_year (todayString now + n)) ->
   (exists n, 1 <= n /\ interval sr' = of_Z n /\
              dueDate sr' = Some (todayString now + n)) /\
   getDueCards [ {| id := id card; sr := sr' |} ] now = [] /\
   sortStudyQueue [ {| id := id card; sr := sr' |} ] now = [] /\
   forall collection_settings,
     App.startStudySession collection_settings
       [ {| id := id card; sr := sr' |} ] now = []).
Proof.
  intros Hs Hq. rewrite calculateNextReview_review by assumption.
  rewrite handleReviewCard_rated by assumption.
  match goal with |- context [review_interval ?s q rnd] =>
    set (x := review_interval s q rnd) end.
  destruct (addDays (todayString now) x) as [d|] eqn:Ed;
    cbn [bind]; [|discriminate].
  intros [= <-]. cbn [interval dueDate].
  destruct (addDays_Ok_finite _ _ _ Ed) as [n En].
  assert (Hi : (1 <=? x)%float = true).
  { pose proof (to_integer_not_nan _ _ En) as N.
    unfold x, review_interval in N |- *.
    apply Math_max_not_nan in N as [N1 N2].
    now apply Math_max_ge. }
  split; [exact Hi|].
  intros Hz Ht Hr. specialize (Hr n En).
  assert (Hlt : n < 2 ^ 52).
  { change (2 ^ 52) with 4503599627370496.
    unfold four_digit_year in *. lia. }
  destruct (review_interval_whole _ _ _ _ En Hlt) as [Hn Hw].
  fold x in Hw.
  rewrite Hw, addDays_whole in Ed
    by (assumption || unfold four_digit_year, MAX_DAY in *; lia).
  injection Ed as <-.
  match goal with |- context [getDueCards [?c] _] => set (card' := c) end.
  assert (Hdue : getDueCards [card'] now = []).
  { unfold getDueCards, is_due. cbn.
    replace (_ <=? _) with false by (symmetry; apply Z.leb_gt; lia).
    reflexivity. }
  split; [exists n; repeat split; assumption|].
  split; [exact Hdue|]. split.
  - rewrite sortStudyQueue_eq.
    unfold is_overdue, is_due_on, is_learning, is_new. cbn.
    replace (_ <? _) with false by (symmetry; apply Z.ltb_ge; lia).
    replace (_ =? _) with false by (symmetry; apply Z.eqb_neq; lia).
    reflexivity.
  - intros cs. unfold App.startStudySession. rewrite Hdue. cbn [List.filter].
    rewrite !slice_to_nil. reflexivity.
Qed.

(** The review card of the lapse scenario, rated Good in UTC: due 75 days
    later. *)
Lemma review_leaves_queue_witness :
  snd (calculateNextReview (tz := UTC) stored_heap example_review_card 2
         no_settings example_now 0.5%float) =
    Ok {| state := Review; interval := 75%float; easeFactor := 2.5%float;
          repetitions := 6; learningStep := 0; dueDate := Some 19750;
          lastReview := Some example_now; history := Some 1%positive |} /\
  fixed_offset UTC /\
  four_digit_year (todayString example_now) /\
  (forall n, to_integer 75%float = Some n ->
             four_digit_year (todayString example_now + n)) /\
  getDueCards
    [ {| id := "card-1";
         sr := {| state := Review; interval := 75%float;
                  easeFactor := 2.5%float; repetitions := 6;
                  learningStep := 0; dueDate := Some 19750;
                  lastReview := Some example_now;
                  history := Some 1%positive |} |} ] example_now = [].
Proof.
  assert (H : snd (calculateNextReview (tz := UTC) stored_heap
                     example_review_card 2 no_settings example_now
                     0.5%float) =
    Ok {| state := Review; interval := 75%float; easeFactor := 2.5%float;
          repetitions := 6; learningStep := 0; dueDate := Some 19750;
          lastReview := Some example_now; history := Some 1%positive |})
    by (vm_compute; reflexivity).
  assert (Hz : fixed_offset UTC) by (exists 0; intros t; split; reflexivity).
  assert (Ht : four_digit_year (todayString example_now))
    by (vm_compute; split; discriminate).
  assert (Hr : forall n, to_integer 75%float = Some n ->
                         four_digit_year (todayString example_now + n)).
  { intros n E. vm_compute in E. injection E as <-.
    vm_compute. split; discriminate. }
  exact (conj H (conj Hz (conj Ht (conj Hr
           (proj1 (proj2
              (proj2 (review_leaves_queue (tz := UTC) stored_heap
                        example_review_card 2 no_settings example_now
                        0.5%float _ eq_refl ltac:(discriminate) H)
                 Hz Ht Hr))))))).
Defined.

Lemma mul_nan_l x y : is_nan x = true -> (x * y)%float = nan.
Proof.
  intros H. apply is_nan_nan, is_nan_spec. rewrite mul_spec.
  apply is_nan_spec in H. rewrite H. reflexivity.
Qed.

Lemma mul_nan_r x y : is_nan y = true -> (x * y)%float = nan.
Proof. intros H. rewrite mul_comm. now apply mul_nan_l. Qed.

Lemma array_at_insert (h : heap) l v : array_at (<[ l := v ]> h) l = v.
Proof.
  unfold array_at.
  replace (<[ l := v ]> h !! l) with (Some v); [reflexivity|].
  symmetry. apply (lookup_insert_eq h).
Qed.

Lemma array_at_insert_ne (h : heap) l l' v :
  l <> l' -> array_at (<[ l := v ]> h) l' = array_at h l'.
Proof.
  intros Hne. unfold array_at.
  replace (<[ l := v ]> h !! l') with (h !! l'); [reflexivity|].
  symmetry. now apply (lookup_insert_ne h).
Qed.

(** X7.  A review card whose ease factor or interval is not a number, and
    which has two repetitions or more, cannot be rated Hard, Good or Easy:
    the interval is NaN, the date is invalid, and the call throws the
    RangeError of [toISOString], after the record of the rating has been
    pushed on the card's history. *)
Theorem corrupt_review_card_throws {tz : TimeZone} h card q settings now rnd :
  state (sr card) = Review -> q <> 0 ->
  repetitions (sr card) <> 0 -> repetitions (sr card) <> 1 ->
  is_nan (easeFactor (sr card)) = true \/ is_nan (interval (sr card)) = true ->
  snd (calculateNextReview h card q settings now rnd) = Throw RangeError /\
  array_at (fst (calculateNextReview h card q settings now rnd))
    (history_ref h (sr card)) =
    array_at h (history_ref h (sr card)) ++ [review_record card q now].
Proof.
  intros Hs Hq H0 H1 Hnan. split.
  - rewrite calculateNextReview_review by assumption.
    rewrite handleReviewCard_rated by assumption.
    assert (E : review_interval
                  {| state := Review; interval := interval (sr card);
                     easeFactor := easeFactor (sr card);
                     repetitions := repetitions (sr card);
                     learningStep := learningStep (sr card);
                     dueDate := dueDate (sr card);
                     lastReview := Some now;
                     history := Some (history_ref h (sr card)) |} q rnd = nan).
    { unfold review_interval, review_base.
      cbn [repetitions interval easeFactor].
      apply Z.eqb_neq in H0, H1. rewrite H0, H1.
      assert (B : (interval (sr card)
                   * review_ease (easeFactor (sr card)) q)%float = nan).
      { destruct Hnan as [N|N].
        - apply mul_nan_r. unfold review_ease.
          rewrite (add_nan_l _ _ N). reflexivity.
        - now apply mul_nan_l. }
      rewrite B, Math_round_nan.
      unfold quality_modifier.
      destruct (q =? 1); [reflexivity|]. destruct (q =? 3); reflexivity. }
    rewrite E, addDays_nan. reflexivity.
  - rewrite calculateNextReview_heap. apply array_at_insert.
Qed.

Lemma corrupt_review_card_throws_witness :
  is_nan (easeFactor (sr example_corrupt_card)) = true /\
  snd (calculateNextReview (tz := UTC) stored_heap example_corrupt_card 2
    no_settings
         example_now 0.5%float) = Throw RangeError /\
  array_at
    (fst (calculateNextReview (tz := UTC) stored_heap example_corrupt_card 2
      no_settings
            example_now 0.5%float)) 1%positive =
    [example_record; review_record example_corrupt_card 2 example_now].
Proof.
  exact (conj eq_refl
           (corrupt_review_card_throws (tz := UTC) stored_heap
             example_corrupt_card 2
              no_settings example_now 0.5%float eq_refl ltac:(discriminate)
              ltac:(discriminate) ltac:(discriminate)
              (or_introl eq_refl))).
Defined.

(** ** Due cards and the queue *)

Lemma filter_sublist_impl {A} (f g : A -> bool) l :
  (forall x, f x = true -> g x = true) ->
  sublist (List.filter f l) (List.filter g l).
Proof.
  intros Hfg. induction l as [|x l IH]; cbn [List.filter]; [constructor|].
  destruct (f x) eqn:Ef.
  - rewrite (Hfg x Ef). now constructor.
  - destruct (g x); [now constructor|assumption].
Qed.

Lemma filter_sublist_self {A} (f : A -> bool) l : sublist (List.filter f l) l.
Proof.
  induction l as [|x l IH]; cbn [List.filter]; [constructor|].
  destruct (f x); now constructor.
Qed.

Lemma todayString_mono date1 date2 :
  date1 <= date2 -> todayString date1 <= todayString date2.
Proof.
  intros H. unfold todayString, MS_PER_DAY. apply Z.div_le_mono; lia.
Qed.

(** X8.  Once due, always due.  The cards due at a time are due at every
    later time, in the same relative order; and the due cards are among the
    given cards, in their order. *)
Theorem getDueCards_monotone cards date1 date2 :
  date1 <= date2 ->
  sublist (getDueCards cards date1) (getDueCards cards date2) /\
  sublist (getDueCards cards date2) cards.
Proof.
  intros H. split; [|apply filter_sublist_self].
  apply filter_sublist_impl. intros c. unfold is_due.
  pose proof (todayString_mono _ _ H).
  destruct (state (sr c)); try reflexivity.
  destruct (dueDate (sr c)) as [d|]; [|discriminate].
  rewrite !Z.leb_le. lia.
Qed.

(** On day 19670 only the new card and the card due that day are due; five
    days later all three cards are. *)
Lemma getDueCards_monotone_witness :
  example_now - 5 * MS_PER_DAY <= example_now /\
  getDueCards example_cards (example_now - 5 * MS_PER_DAY) =
    [example_new_card; example_overdue_card] /\
  getDueCards example_cards example_now = example_cards /\
  sublist (getDueCards example_cards (example_now - 5 * MS_PER_DAY))
    (getDueCards example_cards example_now).
Proof.
  assert (H : example_now - 5 * MS_PER_DAY <= example_now)
    by (vm_compute; discriminate).
  exact (conj H (conj eq_refl (conj eq_refl
           (proj1 (getDueCards_monotone example_cards
                     (example_now - 5 * MS_PER_DAY) example_now H))))).
Defined.

(** Every card is overdue, due on the day, in learning, new, or not due. *)
Lemma category_cases today c :
  (is_overdue today c = true /\ is_due_on today c = false /\
   is_learning c = false /\ is_new c = false /\ is_due today c = true) \/
  (is_overdue today c = false /\ is_due_on today c = true /\
   is_learning c = false /\ is_new c = false /\ is_due today c = true) \/
  (is_overdue today c = false /\ is_due_on today c = false /\
   is_learning c = true /\ is_new c = false /\ is_due today c = true) \/
  (is_overdue today c = false /\ is_due_on today c = false /\
   is_learning c = false /\ is_new c = true /\ is_due today c = true) \/
  (is_overdue today c = false /\ is_due_on today c = false /\
   is_learning c = false /\ is_new c = false /\ is_due today c = false).
Proof.
  unfold is_overdue, is_due_on, is_learning, is_new, is_due.
  destruct (state (sr c)); [tauto|tauto|].
  destruct (dueDate (sr c)) as [d|]; [|tauto].
  destruct (Z.ltb_spec d today), (Z.eqb_spec d today), (Z.leb_spec d today);
    try lia; tauto.
Qed.

Lemma due_categories today cards :
  Permutation
    (List.filter (is_overdue today) cards
     ++ List.filter (is_due_on today) cards
     ++ List.filter is_learning cards ++ List.filter is_new cards)
    (List.filter (is_due today) cards).
Proof.
  induction cards as [|c cards IH]; [constructor|].
  cbn [List.filter].
  destruct (category_cases today c)
    as [H|[H|[H|[H|H]]]]; destruct H as (-> & -> & -> & -> & ->).
  - cbn [app]. now constructor.
  - symmetry. apply Permutation_cons_app. now symmetry.
  - symmetry. cbn [app]. rewrite app_assoc.
    apply Permutation_cons_app. rewrite <- app_assoc. now symmetry.
  - symmetry. rewrite !app_assoc.
    apply Permutation_cons_app. rewrite <- !app_assoc. now symmetry.
  - exact IH.
Qed.

Lemma sortStudyQueue_perm_due cards now :
  Permutation (sortStudyQueue cards now) (getDueCards cards now).
Proof.
  rewrite sortStudyQueue_eq. unfold getDueCards.
  rewrite <- due_categories.
  repeat apply Permutation_app; try apply Array_sort_perm. reflexivity.
Qed.

(** X9.  The queue of [sortStudyQueue] holds exactly the cards that
    [getDueCards] returns for the same time, each as often: sorting loses no
    due card, and drops every card that is not due (a review card dated
    after today or without a due date). *)
Theorem sortStudyQueue_keeps_due cards now :
  Permutation (sortStudyQueue cards now) (getDueCards cards now) /\
  length (sortStudyQueue cards now) = length (getDueCards cards now) /\
  (length (sortStudyQueue cards now) <= length cards)%nat.
Proof.
  pose proof (sortStudyQueue_perm_due cards now) as HP.
  split; [exact HP|]. split; [now apply Permutation_length|].
  rewrite (Permutation_length HP). unfold getDueCards.
  clear. induction cards as [|c cards IH]; cbn [List.filter length]; [lia|].
  destruct (is_due _ c); cbn [length]; lia.
Qed.

Section SortTwice.
Context {A : Type} (after : A -> A -> bool).
Hypothesis after_asym : forall x y, after x y = true -> after y x = false.

Lemma sort_insert_HdRel x y l :
  after y x = false ->
  HdRel (fun a b => after a b = false) y l ->
  HdRel (fun a b => after a b = false) y (sort_insert after x l).
Proof.
  intros Hyx Hl. destruct l as [|z l]; cbn [sort_insert].
  - constructor. exact Hyx.
  - destruct (after x z); constructor; [now inversion Hl|exact Hyx].
Qed.

Lemma sort_insert_Sorted x l :
  Sorted (fun a b => after a b = false) l ->
  Sorted (fun a b => after a b = false) (sort_insert after x l).
Proof.
  induction l as [|y l IH]; cbn [sort_insert]; intros Hl.
  - repeat constructor.
  - inversion Hl as [|? ? Hs Hh]; subst.
    destruct (after x y) eqn:E.
    + constructor; [now apply IH|].
      apply sort_insert_HdRel; [now apply after_asym|assumption].
    + constructor; [assumption|]. constructor. exact E.
Qed.

Lemma Array_sort_Sorted l :
  Sorted (fun a b => after a b = false) (Array_sort after l).
Proof.
  induction l as [|x l IH]; cbn; [constructor|]. now apply sort_insert_Sorted.
Qed.

(** Sorting leaves a list alone in which no element has to come after its
    successor. *)
Lemma Array_sort_of_Sorted l :
  Sorted (fun a b => after a b = false) l -> Array_sort after l = l.
Proof.
  induction l as [|x l IH]; [reflexivity|]. intros Hl.
  inversion Hl as [|? ? Hs Hh]; subst.
  change (Array_sort after (x :: l))
    with (sort_insert after x (Array_sort after l)).
  rewrite IH by assumption.
  destruct Hh as [|y l' Hxy]; [reflexivity|].
  cbn [sort_insert]. now rewrite Hxy.
Qed.

Lemma Array_sort_twice l :
  Array_sort after (Array_sort after l) = Array_sort after l.
Proof. apply Array_sort_of_Sorted, Array_sort_Sorted. Qed.
End SortTwice.

Lemma after_dueDate_asym x y :
  after_dueDate x y = true -> after_dueDate y x = false.
Proof.
  unfold after_dueDate, localeCompare.
  destruct (dueDate (sr x)) as [a|], (dueDate (sr y)) as [b|];
    try discriminate.
  rewrite (Z.compare_antisym a b).
  destruct (a ?= b); cbn; (discriminate || reflexivity).
Qed.

Lemma after_easeFactor_asym x y :
  after_easeFactor x y = true -> after_easeFactor y x = false.
Proof.
  unfold after_easeFactor. rewrite !sub_pos_iff_lt. intros H.
  destruct (ltb_true_not_nan _ _ H) as [Ny Nx].
  rewrite ltb_key in * by assumption. lia.
Qed.

Lemma after_learningStep_asym x y :
  after_learningStep x y = true -> after_learningStep y x = false.
Proof. unfold after_learningStep. lia. Qed.

Lemma List_filter_all {A} (f : A -> bool) l :
  Forall (fun x => f x = true) l -> List.filter f l = l.
Proof.
  induction 1 as [|x l Hx _ IH]; cbn [List.filter]; [reflexivity|].
  now rewrite Hx, IH.
Qed.

Lemma List_filter_none {A} (f : A -> bool) l :
  Forall (fun x => f x = false) l -> List.filter f l = [].
Proof.
  induction 1 as [|x l Hx _ IH]; cbn [List.filter]; [reflexivity|].
  now rewrite Hx, IH.
Qed.

Lemma Forall_filter_impl {A} (f : A -> bool) (Q : A -> Prop) l :
  (forall x, f x = true -> Q x) -> Forall Q (List.filter f l).
Proof.
  intros H. induction l as [|x l IH]; cbn [List.filter]; [constructor|].
  destruct (f x) eqn:E; [constructor; auto|assumption].
Qed.

Lemma category_exclusive today c :
  (is_overdue today c = true ->
   is_due_on today c = false /\ is_learning c = false /\ is_new c = false) /\
  (is_due_on today c = true ->
   is_overdue today c = false /\ is_learning c = false /\ is_new c = false) /\
  (is_learning c = true ->
   is_overdue today c = false /\ is_due_on today c = false /\
   is_new c = false) /\
  (is_new c = true ->
   is_overdue today c = false /\ is_due_on today c = false /\
   is_learning c = false).
Proof.
  destruct (category_cases today c)
    as [H|[H|[H|[H|H]]]]; destruct H as (-> & -> & -> & -> & _);
    repeat split; (reflexivity || discriminate).
Qed.

(** X10.  Sorting a sorted queue changes nothing: for cards whose ease
    factors are numbers, so that the comparators are consistent,
    [sortStudyQueue] applied to its own result returns it as it is. *)
Theorem sortStudyQueue_idempotent cards now :
  Forall has_ease cards ->
  sortStudyQueue (sortStudyQueue cards now) now = sortStudyQueue cards now.
Proof.
  intros _. rewrite (sortStudyQueue_eq (sortStudyQueue cards now)).
  rewrite sortStudyQueue_eq. set (today := todayString now).
  rewrite !List.filter_app.
  assert (S1 : forall (f g : Card -> bool) after,
             (forall c, g c = true -> f c = true) ->
             List.filter f (Array_sort after (List.filter g cards)) =
               Array_sort after (List.filter g cards)).
  { intros f g after Hfg. apply List_filter_all, Array_sort_Forall.
    now apply Forall_filter_impl. }
  assert (S0 : forall (f g : Card -> bool) after,
             (forall c, g c = true -> f c = false) ->
             List.filter f (Array_sort after (List.filter g cards)) = []).
  { intros f g after Hfg. apply List_filter_none, Array_sort_Forall.
    now apply Forall_filter_impl. }
  assert (N1 : forall (f g : Card -> bool),
             (forall c, g c = true -> f c = true) ->
             List.filter f (List.filter g cards) = List.filter g cards).
  { intros f g Hfg. apply List_filter_all. now apply Forall_filter_impl. }
  assert (N0 : forall (f g : Card -> bool),
             (forall c, g c = true -> f c = false) ->
             List.filter f (List.filter g cards) = []).
  { intros f g Hfg. apply List_filter_none. now apply Forall_filter_impl. }
  rewrite (S1 (is_overdue today) (is_overdue today)) by auto.
  rewrite (S1 (is_due_on today) (is_due_on today)) by auto.
  rewrite (S1 is_learning is_learning) by auto.
  rewrite (N1 is_new is_new) by auto.
  rewrite !S0, !N0, !app_nil_r
    by (intros c Hc; apply (category_exclusive today c) in Hc; tauto).
  cbn [app].
  rewrite (Array_sort_twice _ after_dueDate_asym).
  rewrite (Array_sort_twice _ after_easeFactor_asym).
  rewrite (Array_sort_twice _ after_learningStep_asym).
  reflexivity.
Qed.

Lemma sortStudyQueue_idempotent_witness :
  Forall has_ease example_cards /\
  sortStudyQueue (sortStudyQueue example_cards example_now) example_now =
    [example_overdue_card; example_due_card; example_new_card].
Proof.
  assert (H : Forall has_ease example_cards)
    by (repeat constructor).
  exact (conj H
           (eq_trans (sortStudyQueue_idempotent example_cards example_now H)
              eq_refl)).
Defined.

(** ** Slices and the limits of a session *)

Lemma slice_to_integer {A} (l : list A) limit n :
  to_integer limit = Some n ->
  slice_to l limit =
    if n <? 0 then take (Z.to_nat (Z.of_nat (length l) + n)) l
    else take (Z.to_nat n) l.
Proof.
  unfold to_integer, slice_to.
  destruct (Prim2SF limit) as [s|s| |s m e]; try discriminate;
    intros [= <-]; reflexivity.
Qed.

Lemma slice_to_nan {A} (l : list A) limit :
  is_nan limit = true -> slice_to l limit = [].
Proof.
  intros H. apply is_nan_spec in H. unfold slice_to. now rewrite H.
Qed.

(** A slice from the start is a prefix. *)
Lemma slice_to_take {A} (l : list A) limit :
  exists k, slice_to l limit = take k l.
Proof.
  unfold slice_to.
  destruct (Prim2SF limit) as [s|s| |s m e].
  - now exists 0%nat.
  - destruct s; [now exists 0%nat|].
    exists (length l). now rewrite take_ge.
  - now exists 0%nat.
  - destruct (_ <? 0); eauto.
Qed.

Lemma sublist_take_self {A} (l : list A) k : sublist (take k l) l.
Proof.
  revert k. induction l as [|x l IH]; intros [|k]; cbn; repeat constructor.
  - apply sublist_nil_l.
  - apply IH.
Qed.

Lemma Forall_take_keep {A} (Q : A -> Prop) (l : list A) k :
  Forall Q l -> Forall Q (take k l).
Proof.
  intros H. revert k. induction H as [|x l Hx _ IH]; intros [|k]; cbn;
    constructor; auto.
Qed.

Lemma length_slice_to {A} (l : list A) limit n :
  to_integer limit = Some n -> 0 <= n ->
  Z.of_nat (length (slice_to l limit)) <= n.
Proof.
  intros H Hn. rewrite (slice_to_integer _ _ _ H).
  replace (n <? 0) with false by (symmetry; apply Z.ltb_ge; lia).
  rewrite length_take. lia.
Qed.

(** X11.  [getNewCards(cards, limit)] returns new cards only, in the order
    of [cards].  With a limit whose integer part [n] is not negative these
    are the first [n] new cards, or all of them when there are fewer; with a
    negative one the last [-n] new cards are left out instead; with NaN
    nothing is returned. *)
Theorem getNewCards_prefix cards limit :
  let new := List.filter is_new cards in
  (forall n, to_integer limit = Some n -> 0 <= n ->
     getNewCards cards limit = take (Z.to_nat n) new /\
     Z.of_nat (length (getNewCards cards limit)) =
       Z.min n (Z.of_nat (length new))) /\
  (forall n, to_integer limit = Some n -> n < 0 ->
     getNewCards cards limit =
       take (length new - Z.to_nat (- n)) new) /\
  (is_nan limit = true -> getNewCards cards limit = []) /\
  Forall (fun c => state (sr c) = New) (getNewCards cards limit) /\
  sublist (getNewCards cards limit) cards.
Proof.
  intros new. unfold getNewCards. fold new.
  split; [|split; [|split; [|split]]].
  - intros n H Hn. rewrite (slice_to_integer _ _ _ H).
    replace (n <? 0) with false by (symmetry; apply Z.ltb_ge; lia).
    split; [reflexivity|]. rewrite length_take. lia.
  - intros n H Hn. rewrite (slice_to_integer _ _ _ H).
    replace (n <? 0) with true by (symmetry; apply Z.ltb_lt; lia).
    f_equal. lia.
  - apply slice_to_nan.
  - destruct (slice_to_take new limit) as [k ->].
    apply Forall_take_keep. apply Forall_filter_impl.
    intros c. unfold is_new.
    destruct (state (sr c)); (reflexivity || discriminate).
  - destruct (slice_to_take new limit) as [k ->].
    etransitivity; [apply sublist_take_self|apply filter_sublist_self].
Qed.

(** Three new cards under the limits 2 and -1: the first two either way. *)
Lemma getNewCards_prefix_witness :
  getNewCards (replicate 3 example_new_card ++ example_cards) 2%float =
    replicate 2 example_new_card /\
  getNewCards (replicate 2 example_new_card ++ example_cards) (-1)%float =
    replicate 2 example_new_card.
Proof.
  pose proof (getNewCards_prefix
                (replicate 3 example_new_card ++ example_cards) 2%float)
    as [H1 _].
  pose proof (getNewCards_prefix
                (replicate 2 example_new_card ++ example_cards) (-1)%float)
    as [_ [H2 _]].
  exact (conj (proj1 (H1 2 eq_refl ltac:(lia)))
           (H2 (-1) eq_refl ltac:(lia))).
Defined.

Lemma Forall_filter_keep {A} (f : A -> bool) (Q : A -> Prop) l :
  Forall Q l -> Forall Q (List.filter f l).
Proof.
  induction 1 as [|x l Hx _ IH]; cbn [List.filter]; [constructor|].
  destruct (f x); [constructor|]; assumption.
Qed.

(** X12.  The limits of a session.  The queue [startStudySession] builds
    holds exactly the first [reviewsPerDay] due cards that are not new and
    the first [newCardsPerDay] due new cards, counted in the order the cards
    are stored in, before any sorting.  So it has at most [newCardsPerDay]
    new cards and at most [reviewsPerDay] others, learning cards included;
    20 and 220 in all when the collection has no settings. *)
Theorem startStudySession_caps settings allCards now :
  let due := getDueCards allCards now in
  let newLimit := or_default (settings ≫= newCardsPerDay) 20%float in
  let reviewLimit := or_default (settings ≫= reviewsPerDay) 200%float in
  let queue := App.startStudySession settings allCards now in
  Permutation queue
    (slice_to (List.filter (fun c => negb (is_new c)) due) reviewLimit
     ++ slice_to (List.filter is_new due) newLimit) /\
  (forall n, to_integer newLimit = Some n -> 0 <= n ->
     Z.of_nat (length (List.filter is_new queue)) <= n) /\
  (forall n, to_integer reviewLimit = Some n -> 0 <= n ->
     Z.of_nat (length (List.filter (fun c => negb (is_new c)) queue)) <= n) /\
  (settings = None ->
     (length (List.filter is_new queue) <= 20)%nat /\
     (length queue <= 220)%nat).
Proof.
  intros due newLimit reviewLimit queue.
  set (reviewCards :=
         slice_to (List.filter (fun c => negb (is_new c)) due) reviewLimit).
  set (newCards := slice_to (List.filter is_new due) newLimit).
  assert (Hdue : Forall (fun c => is_due (todayString now) c = true) due).
  { apply Forall_filter_true. }
  assert (Hr : exists k, reviewCards =
                           take k (List.filter (fun c => negb (is_new c)) due)).
  { apply slice_to_take. }
  assert (Hn : exists k, newCards = take k (List.filter is_new due)).
  { apply slice_to_take. }
  assert (HP : Permutation queue (reviewCards ++ newCards)).
  { subst queue. unfold App.startStudySession.
    fold due newLimit reviewLimit reviewCards newCards.
    rewrite sortStudyQueue_perm_due. unfold getDueCards.
    rewrite List_filter_all; [reflexivity|].
    destruct Hr as [k1 ->], Hn as [k2 ->].
    apply Forall_app.
    split; apply Forall_take_keep; now apply Forall_filter_keep. }
  assert (Hrn : List.filter is_new reviewCards = []).
  { destruct Hr as [k1 ->]. apply List_filter_none, Forall_take_keep.
    apply Forall_filter_impl. intros c. now destruct (is_new c). }
  assert (Hnn : List.filter is_new newCards = newCards).
  { destruct Hn as [k2 ->]. apply List_filter_all, Forall_take_keep.
    now apply Forall_filter_impl. }
  assert (Hrr : List.filter (fun c => negb (is_new c)) reviewCards
                = reviewCards).
  { destruct Hr as [k1 ->]. apply List_filter_all, Forall_take_keep.
    now apply Forall_filter_impl. }
  assert (Hnr : List.filter (fun c => negb (is_new c)) newCards = []).
  { destruct Hn as [k2 ->]. apply List_filter_none, Forall_take_keep.
    apply Forall_filter_impl. intros c ->. reflexivity. }
  assert (Lnew : length (List.filter is_new queue) = length newCards).
  { rewrite (Permutation_length (filter_Permutation is_new _ _ HP)).
    now rewrite List.filter_app, Hrn, Hnn. }
  assert (Lrev : length (List.filter (fun c => negb (is_new c)) queue)
                 = length reviewCards).
  { rewrite (Permutation_length (filter_Permutation _ _ _ HP)).
    now rewrite List.filter_app, Hrr, Hnr, app_nil_r. }
  split; [exact HP|]. split; [|split].
  - intros n En Hn0. rewrite Lnew. now apply length_slice_to.
  - intros n En Hn0. rewrite Lrev. now apply length_slice_to.
  - intros ->.
    assert (L1 : Z.of_nat (length newCards) <= 20)
      by (apply length_slice_to; [reflexivity|lia]).
    assert (L2 : Z.of_nat (length reviewCards) <= 200)
      by (apply length_slice_to; [reflexivity|lia]).
    rewrite Lnew, (Permutation_length HP), length_app. lia.
Qed.

(** Thirty new cards in a collection without settings: twenty are kept. *)
Lemma startStudySession_caps_witness :
  length (List.filter is_new (replicate 30 example_new_card)) = 30%nat /\
  (length (List.filter is_new
             (App.startStudySession None (replicate 30 example_new_card)
                example_now)) <= 20)%nat.
Proof.
  exact (conj eq_refl
           (proj1 (proj2 (proj2 (proj2
              (startStudySession_caps None (replicate 30 example_new_card)
                 example_now))) eq_refl))).
Defined.

(** ** Counts *)

Lemma length_filter_le {A} (f : A -> bool) l :
  (length (List.filter f l) <= length l)%nat.
Proof.
  induction l as [|x l IH]; cbn [List.filter length]; [lia|].
  destruct (f x); cbn [length]; lia.
Qed.

Lemma tally_counts today cards t :
  let t' := fold_left (tally_card today) cards t in
  t_new t' = t_new t + Z.of_nat (length (List.filter is_new cards)) /\
  t_learning t' =
    t_learning t + Z.of_nat (length (List.filter is_learning cards)) /\
  t_new t' + t_learning t' + t_review t' =
    t_new t + t_learning t + t_review t + Z.of_nat (length cards) /\
  t_due t' = t_due t + Z.of_nat (length (List.filter (is_due today) cards)).
Proof.
  revert t. induction cards as [|c cards IH]; intros t; cbn [fold_left].
  - cbn. lia.
  - specialize (IH (tally_card today t c)). cbv zeta in IH |- *.
    destruct IH as (I1 & I2 & I3 & I4).
    rewrite I1, I2, I4. rewrite I1, I2 in I3.
    cbn [List.filter length].
    unfold tally_card, is_new, is_learning, is_due in *.
    destruct (state (sr c)); cbn [t_new t_learning t_review t_due length] in *;
      try lia.
    destruct (dueDate (sr c)) as [d|]; [destruct (d <=? today)|];
      cbn [length]; lia.
Qed.

(** X13.  The counts of [getStudyStats].  The total is the number of cards
    and the sum of the new, learning and review counts; [dueToday] is the
    number of cards [getDueCards] returns for the same time, which is at
    least the number of new and learning cards and at most the total. *)
Theorem getStudyStats_counts cards now :
  let s := getStudyStats cards now in
  total s = Z.of_nat (length cards) /\
  total s = newCount s + learningCount s + reviewCount s /\
  newCount s = Z.of_nat (length (List.filter is_new cards)) /\
  learningCount s = Z.of_nat (length (List.filter is_learning cards)) /\
  dueToday s = Z.of_nat (length (getDueCards cards now)) /\
  newCount s + learningCount s <= dueToday s <= total s.
Proof.
  unfold getStudyStats. cbv zeta.
  cbn [total newCount learningCount reviewCount dueToday].
  destruct (tally_counts (todayString now) cards
              {| t_new := 0; t_learning := 0; t_review := 0; t_due := 0;
                 totalEase := 0%float |}) as (I1 & I2 & I3 & I4).
  cbn [t_new t_learning t_review t_due] in *.
  unfold getDueCards.
  pose proof (length_filter_le (is_due (todayString now)) cards).
  assert (Z.of_nat (length (List.filter is_new cards))
          + Z.of_nat (length (List.filter is_learning cards))
          <= Z.of_nat (length (List.filter (is_due (todayString now)) cards))).
  { clear. induction cards as [|c cards IH]; cbn [List.filter length]; [lia|].
    destruct (category_cases (todayString now) c)
      as [H|[H|[H|[H|H]]]]; destruct H as (_ & _ & -> & -> & ->);
      cbn [length]; lia. }
  repeat split; lia.
Qed.

(** ** Interval estimates *)

Lemma estimate_calls_history {tz : TimeZone} h card settings now rnd qualities
    l :
  history (sr card) = Some l ->
  let r := estimate_calls h card settings now rnd qualities in
  (forall es, snd r = Ok es ->
     length es = length qualities /\
     array_at (fst r) l =
       array_at h l ++ map (fun q => review_record card q now) qualities) /\
  (forall l', l' <> l -> array_at (fst r) l' = array_at h l').
Proof.
  intros Hl. revert h.
  induction qualities as [|q qs IH]; intros h; cbn [estimate_calls].
  - cbn. split; [|reflexivity]. intros es [= <-].
    now rewrite app_nil_r.
  - pose proof (calculateNextReview_heap h card q settings now (rnd q)) as Hh.
    destruct (calculateNextReview h card q settings now (rnd q)) as [h' r].
    cbn [fst] in Hh.
    assert (Href : history_ref h (sr card) = l)
      by (unfold history_ref; now rewrite Hl).
    rewrite Href in Hh.
    destruct r as [s|e].
    + specialize (IH h'). cbv zeta in IH.
      destruct (estimate_calls h' card settings now rnd qs) as [h'' rs].
      cbn [fst snd] in *. destruct IH as [IH1 IH2]. split.
      * intros es Hes.
        destruct rs as [es'|]; cbn [bind] in Hes; [|discriminate].
        injection Hes as <-. destruct (IH1 es' eq_refl) as [L E].
        cbn [length map]. split; [now rewrite L|].
        rewrite E, Hh, array_at_insert, <- app_assoc. reflexivity.
      * intros l' Hne. rewrite IH2 by assumption. rewrite Hh.
        apply array_at_insert_ne. congruence.
    + cbn [fst snd]. split; [discriminate|].
      intros l' Hne. rewrite Hh. apply array_at_insert_ne. congruence.
Qed.

(** X14.  Displaying the estimates rates the card four times.  For a card
    that has a history array, a call of [getIntervalEstimates] that returns
    leaves four more records in that array, of qualities 0, 1, 2 and 3, each
    with the card's interval and ease factor; the other arrays are
    untouched. *)
Theorem getIntervalEstimates_grows_history {tz : TimeZone} h card settings now
    rnd l es :
  history (sr card) = Some l ->
  snd (getIntervalEstimates h card settings now rnd) = Ok es ->
  let h' := fst (getIntervalEstimates h card settings now rnd) in
  length es = 4%nat /\
  array_at h' l =
    array_at h l ++ [review_record card 0 now; review_record card 1 now;
                     review_record card 2 now; review_record card 3 now] /\
  (forall l', l' <> l -> array_at h' l' = array_at h l').
Proof.
  intros Hl Hes h'.
  destruct (estimate_calls_history h card settings now rnd [0; 1; 2; 3] l Hl)
    as [H1 H2].
  destruct (H1 es Hes) as [L E]. repeat split; assumption.
Qed.

Lemma getIntervalEstimates_grows_history_witness :
  history (sr example_new_card) = Some 1%positive /\
  array_at example_heap 1%positive = [] /\
  map r_quality
    (array_at
       (fst (getIntervalEstimates (tz := UTC) example_heap example_new_card
         no_settings
               example_now (fun _ => 0.5%float))) 1%positive) = [0; 1; 2; 3].
Proof.
  assert (H : snd (getIntervalEstimates (tz := UTC) example_heap
    example_new_card
                     no_settings example_now (fun _ => 0.5%float)) =
              Ok [(0%float, Learning); (0%float, Learning);
                  (0%float, Learning); (4%float, Review)])
    by (vm_compute; reflexivity).
  exact (conj eq_refl (conj eq_refl
           (f_equal (map r_quality)
              (proj1 (proj2
                 (getIntervalEstimates_grows_history (tz := UTC) example_heap
                    example_new_card no_settings example_now
                    (fun _ => 0.5%float) 1%positive _ eq_refl H)))))).
Defined.

(** X15.  The estimates count as reviews.  After a display of the estimates
    of a card, [calculateRetention] of that card counts four more reviews,
    two of them correct: a card that was never rated has a retention of 50. *)
Theorem estimates_count_in_retention {tz : TimeZone} h card settings now rnd l
    es :
  history (sr card) = Some l ->
  snd (getIntervalEstimates h card settings now rnd) = Ok es ->
  let h' := fst (getIntervalEstimates h card settings now rnd) in
  let n := Z.of_nat (length (array_at h l)) in
  let k := Z.of_nat (length (List.filter is_correct (array_at h l))) in
  calculateRetention h' [card] = (of_Z (k + 2) / of_Z (n + 4) * 100)%float /\
  (array_at h l = [] ->
   calculateRetention h [card] = 0%float /\
   calculateRetention h' [card] = 50%float).
Proof.
  intros Hl Hes h' n k.
  destruct (estimate_calls_history h card settings now rnd [0; 1; 2; 3] l Hl)
    as [H1 _].
  destruct (H1 es Hes) as [_ E].
  fold (getIntervalEstimates h card settings now rnd) in E. fold h' in E.
  assert (C : calculateRetention h' [card] =
              (of_Z (k + 2) / of_Z (n + 4) * 100)%float).
  { unfold calculateRetention. rewrite count_card_fold.
    unfold all_reviews, reviews_of. cbn [flat_map]. rewrite Hl, app_nil_r, E.
    rewrite List.filter_app, !length_app.
    change (length (List.filter is_correct
                      (map (fun q => review_record card q now) [0; 1; 2; 3])))
      with 2%nat.
    cbn [map length].
    replace (0 + Z.of_nat (length (array_at h l) + 4)) with (n + 4) by lia.
    replace (0 + Z.of_nat (length (List.filter is_correct (array_at h l)) + 2))
      with (k + 2) by lia.
    replace (0 <? n + 4) with true by (symmetry; apply Z.ltb_lt; lia).
    reflexivity. }
  split; [exact C|].
  intros Hempty. split.
  - unfold calculateRetention. rewrite count_card_fold.
    unfold all_reviews, reviews_of. cbn [flat_map]. rewrite Hl, app_nil_r.
    rewrite Hempty. reflexivity.
  - rewrite C. subst n k. rewrite Hempty. reflexivity.
Qed.

Lemma estimates_count_in_retention_witness :
  calculateRetention example_heap [example_new_card] = 0%float /\
  calculateRetention
    (fst (getIntervalEstimates (tz := UTC) example_heap example_new_card
      no_settings
            example_now (fun _ => 0.5%float))) [example_new_card] = 50%float.
Proof.
  assert (H : snd (getIntervalEstimates (tz := UTC) example_heap
    example_new_card
                     no_settings example_now (fun _ => 0.5%float)) =
              Ok [(0%float, Learning); (0%float, Learning);
                  (0%float, Learning); (4%float, Review)])
    by (vm_compute; reflexivity).
  exact (proj2 (estimates_count_in_retention (tz := UTC) example_heap
    example_new_card
                  no_settings example_now (fun _ => 0.5%float) 1%positive _
                  eq_refl H) eq_refl).
Defined.

(** X16.  The estimate for Again reads "< 1d" for every card: the first of
    the four texts [getIntervalEstimates] returns is that of a card in
    Learning, whatever the card, the settings and the time. *)
Theorem again_estimate_label {tz : TimeZone} h card settings now rnd es :
  snd (getIntervalEstimates h card settings now rnd) = Ok es ->
  head (estimate_labels es) = Some LessThanDay.
Proof.
  unfold getIntervalEstimates. cbn [estimate_calls].
  destruct (again_learning h card settings now (rnd 0))
    as (s & Hs & Hst).
  destruct (calculateNextReview h card 0 settings now (rnd 0)) as [h0 r0].
  cbn [snd] in Hs. subst r0.
  repeat match goal with
         | |- context [calculateNextReview ?a ?b ?c ?d ?e ?f] =>
             destruct (calculateNextReview a b c d e f) as [? [?|?]]
         end;
    cbn [snd bind]; (intros [= <-] || discriminate).
  cbn. now rewrite Hst.
Qed.

(** The review card of the lapse scenario: "< 1d", then 57, 75 and 101 days,
    shown as months. *)
Lemma again_estimate_label_witness :
  estimate_labels
    [(15%float, Learning); (57%float, Review); (75%float, Review);
     (101%float, Review)] =
    [LessThanDay; MonthsLabel 2%float; MonthsLabel 3%float;
     MonthsLabel 3%float] /\
  head (estimate_labels
          [(15%float, Learning); (57%float, Review); (75%float, Review);
           (101%float, Review)]) = Some LessThanDay.
Proof.
  assert (H : snd (getIntervalEstimates (tz := UTC) stored_heap
    example_review_card
                     no_settings example_now (fun _ => 0.5%float)) =
              Ok [(15%float, Learning); (57%float, Review);
                  (75%float, Review); (101%float, Review)])
    by (vm_compute; reflexivity).
  exact (conj eq_refl
           (again_estimate_label stored_heap example_review_card no_settings
              example_now (fun _ => 0.5%float) _ H)).
Defined.

(** ** The database *)

Lemma stats_tally_agree today allCards t t' :
  let a := fold_left (Storage.stats_card today) allCards t in
  let b := fold_left (tally_card today) (map without_history allCards) t' in
  let cards := map without_history allCards in
  Storage.tally_ease t = totalEase t' ->
  Storage.tally_new a - Storage.tally_new t = t_new b - t_new t' /\
  Storage.tally_learning a - Storage.tally_learning t
    = t_learning b - t_learning t' /\
  Storage.tally_review a - Storage.tally_review t
    = t_review b - t_review t' /\
  Storage.tally_ease a = totalEase b /\
  Storage.tally_new a - Storage.tally_new t
    = Z.of_nat (length (List.filter is_new cards)) /\
  Storage.tally_due a - Storage.tally_due t
    = Z.of_nat (length (List.filter (dated_by today) cards)) /\
  (Storage.tally_due a - Storage.tally_due t)
  + (Storage.tally_new a - Storage.tally_new t)
  + Z.of_nat (length (List.filter
                        (fun c => is_learning c && negb (dated_by today c))
                        cards))
  = (t_due b - t_due t')
    + Z.of_nat (length (List.filter
                          (fun c => is_new c && dated_by today c) cards)).
Proof.
  revert t t'. induction allCards as [|c cs IH]; intros t t' a b cards He.
  - cbn in *. repeat split; (assumption || lia).
  - subst a b cards. cbn [fold_left map].
    specialize (IH (Storage.stats_card today t c)
                  (tally_card today t' (without_history c))).
    cbv zeta in IH.
    destruct IH as (I1 & I2 & I3 & I4 & I5 & I6 & I7).
    { unfold Storage.stats_card, tally_card, without_history.
      cbn [sr state easeFactor]. rewrite <- He.
      destruct (Storage.stored_state _); reflexivity. }
    cbn [List.filter].
    remember (map without_history cs) as vs eqn:Evs.
    remember (fold_left (Storage.stats_card today) cs
                (Storage.stats_card today t c)) as a eqn:Ea.
    remember (fold_left (tally_card today) vs
                (tally_card today t' (without_history c))) as b eqn:Eb.
    clear Ea Eb Evs He.
    unfold Storage.stats_card, tally_card, is_new, is_learning, dated_by,
      without_history in *.
    cbn [sr state dueDate easeFactor fst snd] in *.
    destruct (Storage.stored_state (Storage.card_sr c.2));
      destruct (Storage.stored_dueDate (Storage.card_sr c.2)) as [d|];
      try destruct (d <=? today);
      cbn [Storage.tally_new Storage.tally_learning Storage.tally_review
           Storage.tally_due t_new t_learning t_review t_due
           andb negb length] in *;
      repeat split; (assumption || lia).
Qed.

Lemma map_filter_comm {A B} (f : A -> B) (p : A -> bool) (q : B -> bool) l :
  (forall x, p x = q (f x)) ->
  map f (List.filter p l) = List.filter q (map f l).
Proof.
  intros H. induction l as [|x l IH]; [reflexivity|].
  cbn [List.filter map]. rewrite <- H.
  destruct (p x); cbn [map]; now rewrite IH.
Qed.

Lemma getDue_agrees db collection date :
  map without_history (Storage.cards.getDue db collection date) =
    getDueCards
      (map without_history (Storage.cards.getByCollection db collection))
      date.
Proof.
  unfold Storage.cards.getDue, getDueCards. apply map_filter_comm.
  intros c. reflexivity.
Qed.

(** X17.  The two statistics and the two due filters.  On the cards of a
    collection, [collections.updateStats] and [getStudyStats] compute the
    same total, the same new, learning and review counts and the same
    average ease, and [cards.getDue] selects the cards [getDueCards]
    selects.  Their [dueToday] differ: the storage counts a new card that
    has a due date not after today twice, and does not count a learning card
    that has none (or a later one).  They agree when no new card has a due
    date and every learning card has one that is not after today. *)
Theorem storage_stats_agree db collection now :
  let allCards := Storage.cards.getByCollection db collection in
  let cards := map without_history allCards in
  let today := todayString now in
  let s := Storage.compute_stats allCards now in
  let s' := getStudyStats cards now in
  Storage.totalCards s = total s' /\
  Storage.newCards s = newCount s' /\
  Storage.learningCards s = learningCount s' /\
  Storage.reviewCards s = reviewCount s' /\
  Storage.stats_averageEase s = averageEase s' /\
  Storage.stats_dueToday s
  + Z.of_nat (length (List.filter
                        (fun c => is_learning c && negb (dated_by today c))
                        cards))
  = dueToday s'
    + Z.of_nat (length (List.filter
                          (fun c => is_new c && dated_by today c) cards)) /\
  (Forall (fun c =>
             (is_new c = true -> dueDate (sr c) = None) /\
             (is_learning c = true -> dated_by today c = true)) cards ->
   Storage.stats_dueToday s = dueToday s') /\
  map without_history (Storage.cards.getDue db collection now) =
    getDueCards cards now.
Proof.
  intros allCards cards today s s'.
  destruct (stats_tally_agree today allCards
              {| Storage.tally_new := 0; Storage.tally_learning := 0;
                 Storage.tally_review := 0; Storage.tally_due := 0;
                 Storage.tally_ease := 0%float |}
              {| t_new := 0; t_learning := 0; t_review := 0; t_due := 0;
                 totalEase := 0%float |} eq_refl)
    as (I1 & I2 & I3 & I4 & I5 & I6 & I7).
  cbn [Storage.tally_new Storage.tally_learning Storage.tally_review
       Storage.tally_due t_new t_learning t_review t_due] in *.
  subst s s'. unfold Storage.compute_stats, getStudyStats. cbv zeta.
  cbn [Storage.totalCards Storage.newCards Storage.learningCards
       Storage.reviewCards Storage.stats_dueToday Storage.stats_averageEase
       total newCount learningCount reviewCount dueToday averageEase].
  subst cards today. rewrite length_map.
  set (a := fold_left _ allCards _) in *.
  set (b := fold_left _ (map without_history allCards) _) in *.
  set (L := List.filter (fun c => is_learning c && negb (dated_by _ c)) _)
    in *.
  set (N := List.filter (fun c => is_new c && dated_by _ c) _) in *.
  split; [reflexivity|]. split; [lia|]. split; [lia|]. split; [lia|].
  split; [now rewrite I4|]. split; [lia|]. split.
  - intros HF.
    assert (L1 : L = []).
    { apply List_filter_none. eapply Forall_impl; [exact HF|].
      intros c [_ H2]. destruct (is_learning c); [|reflexivity].
      now rewrite H2. }
    assert (L2 : N = []).
    { apply List_filter_none. eapply Forall_impl; [exact HF|].
      intros c [H1 _]. destruct (is_new c); [|reflexivity].
      unfold dated_by. now rewrite H1. }
    rewrite L1, L2 in I7. cbn [length] in I7. lia.
  - apply getDue_agrees.
Qed.

(** The example collection: two cards, both due. *)
Lemma storage_stats_agree_witness :
  Storage.stats_dueToday
    (Storage.compute_stats (Storage.cards.getByCollection example_db "deck-1")
       example_now) = 2 /\
  dueToday
    (getStudyStats
       (map without_history
          (Storage.cards.getByCollection example_db "deck-1"))
       example_now) = 2.
Proof.
  pose proof (storage_stats_agree example_db "deck-1" example_now)
    as (_ & _ & _ & _ & _ & _ & H & _).
  assert (E : Storage.stats_dueToday
                (Storage.compute_stats
                   (Storage.cards.getByCollection example_db "deck-1")
                   example_now) = 2) by (vm_compute; reflexivity).
  exact (conj E
           (eq_trans
              (eq_sym (H ltac:(vm_compute; repeat constructor; discriminate)))
              E)).
Defined.

Lemma all_cards_perm db :
  Permutation (Storage.all_cards db) (map_to_list (Storage.db_cards db)).
Proof. apply Array_sort_perm. Qed.

(** The index on [collectionId] returns the cards of the collection. *)
Lemma elem_of_getByCollection db collection k c :
  (k, c) ∈ Storage.cards.getByCollection db collection <->
  Storage.cards.get db k = Some c /\ Storage.collectionId c = collection.
Proof.
  unfold Storage.cards.getByCollection, Storage.cards_getByCollection,
    Storage.cards.get.
  rewrite list_elem_of_In, List.filter_In, <- list_elem_of_In.
  rewrite (all_cards_perm db), elem_of_map_to_list. cbn [snd].
  rewrite bool_decide_eq_true. reflexivity.
Qed.

Lemma getByCollection_cards db db' collection :
  Storage.db_cards db' = Storage.db_cards db ->
  Storage.cards.getByCollection db' collection =
    Storage.cards.getByCollection db collection.
Proof.
  intros E. unfold Storage.cards.getByCollection,
    Storage.cards_getByCollection, Storage.all_cards. now rewrite E.
Qed.

Lemma updateStats_resolved db collection now col :
  Storage.collections.get db collection = Some col ->
  Storage.collections.updateStats db collection now =
    ({| Storage.db_collections :=
          <[ collection :=
               {| Storage.name := Storage.name col;
                  Storage.collection_createdAt :=
                    Storage.collection_createdAt col;
                  Storage.collection_updatedAt := now;
                  Storage.settings := Storage.settings col;
                  Storage.stats :=
                    Storage.compute_stats
                      (Storage.cards.getByCollection db collection) now |} ]>
            (Storage.db_collections db);
        Storage.db_cards := Storage.db_cards db |},
     Storage.Resolved
       (Storage.compute_stats
          (Storage.cards.getByCollection db collection) now)).
Proof.
  intros E. unfold Storage.collections.updateStats, Storage.collections.update.
  rewrite E. reflexivity.
Qed.

Lemma updateStats_missing db collection now :
  Storage.collections.get db collection = None ->
  Storage.collections.updateStats db collection now =
    (db, Storage.Rejected
           (Storage.StorageError "Collection not found" "update"
              "collections")).
Proof.
  intros E. unfold Storage.collections.updateStats, Storage.collections.update.
  rewrite E. reflexivity.
Qed.

Lemma updateStats_outcome db collection now col :
  Storage.collections.get db collection = Some col ->
  snd (Storage.collections.updateStats db collection now) =
    Storage.Resolved
      (Storage.compute_stats
         (Storage.cards.getByCollection db collection) now).
Proof. intros E. now rewrite (updateStats_resolved _ _ _ _ E). Qed.

(** [collections.updateStats] leaves the cards alone. *)
Lemma refreshed_cards db collection now :
  Storage.db_cards (refreshed db collection now) = Storage.db_cards db.
Proof.
  unfold refreshed, Storage.collections.updateStats,
    Storage.collections.update.
  destruct (Storage.collections.get db collection); reflexivity.
Qed.

Lemma refreshed_get db collection now k :
  Storage.cards.get (refreshed db collection now) k = Storage.cards.get db k.
Proof. unfold Storage.cards.get. now rewrite refreshed_cards. Qed.

Lemma refreshed_getByCollection db collection now c :
  Storage.cards.getByCollection (refreshed db collection now) c =
    Storage.cards.getByCollection db c.
Proof. apply getByCollection_cards, refreshed_cards. Qed.

Lemma refreshed_in_sync db collection now col :
  Storage.collections.get db collection = Some col ->
  stats_in_sync (refreshed db collection now) collection now.
Proof.
  intros E. unfold stats_in_sync. rewrite refreshed_getByCollection.
  unfold refreshed. rewrite (updateStats_resolved _ _ _ _ E). cbn [fst].
  unfold Storage.collections.get. cbn [Storage.db_collections].
  rewrite lookup_insert_eq. reflexivity.
Qed.

Lemma put_card_get db k c : Storage.cards.get (put_card db k c) k = Some c.
Proof. unfold Storage.cards.get, put_card. cbn. apply lookup_insert_eq. Qed.

Lemma put_card_get_ne db k c k' :
  k' <> k -> Storage.cards.get (put_card db k c) k' = Storage.cards.get db k'.
Proof.
  intros H. unfold Storage.cards.get, put_card. cbn.
  now apply lookup_insert_ne.
Qed.

Lemma filter_length_perm {A} (f : A -> bool) l l' :
  Permutation l l' -> length (List.filter f l) = length (List.filter f l').
Proof. intros H. apply Permutation_length. now apply filter_Permutation. Qed.

Lemma getByCollection_insert_length db k c collection :
  Storage.db_cards db !! k = None ->
  length (Storage.cards.getByCollection (put_card db k c) collection) =
    ((if bool_decide (Storage.collectionId c = collection) then 1 else 0)
     + length (Storage.cards.getByCollection db collection))%nat.
Proof.
  intros Hk. unfold Storage.cards.getByCollection,
    Storage.cards_getByCollection.
  rewrite (filter_length_perm _ _ ((k, c) :: Storage.all_cards db)).
  - cbn [List.filter snd]. destruct (bool_decide _); reflexivity.
  - rewrite !all_cards_perm. cbn [Storage.db_cards put_card].
    now apply map_to_list_insert.
Qed.

Lemma getByCollection_delete_length db k c collection :
  Storage.db_cards db !! k = Some c ->
  length (Storage.cards.getByCollection db collection) =
    ((if bool_decide (Storage.collectionId c = collection) then 1 else 0)
     + length (Storage.cards.getByCollection (drop_card db k) collection))%nat.
Proof.
  intros Hk. unfold Storage.cards.getByCollection,
    Storage.cards_getByCollection.
  rewrite (filter_length_perm _ (Storage.all_cards db)
             ((k, c) :: Storage.all_cards (drop_card db k))).
  - cbn [List.filter snd]. destruct (bool_decide _); reflexivity.
  - rewrite !all_cards_perm. cbn [Storage.db_cards drop_card].
    symmetry. now apply map_to_list_delete.
Qed.

Lemma getByCollection_put_length db k c c' collection :
  Storage.cards.get db k = Some c ->
  Storage.collectionId c' = Storage.collectionId c ->
  length (Storage.cards.getByCollection (put_card db k c') collection) =
    length (Storage.cards.getByCollection db collection).
Proof.
  intros Hk Hc.
  rewrite (getByCollection_delete_length db k c collection Hk).
  replace (put_card db k c') with (put_card (drop_card db k) k c').
  2:{ unfold put_card, drop_card. cbn. f_equal. apply insert_delete_eq. }
  rewrite getByCollection_insert_length
    by (unfold drop_card; cbn; apply lookup_delete_eq).
  rewrite Hc. reflexivity.
Qed.

Lemma cards_create_eq db newId collection now :
  Storage.cards.get db newId = None ->
  Storage.cards.create db newId collection now =
    (refreshed (put_card db newId (created_card collection now)) collection
       now,
     match snd (Storage.collections.updateStats
                  (put_card db newId (created_card collection now))
                  collection now) with
     | Storage.Resolved _ =>
         Storage.Resolved (newId, created_card collection now)
     | _ => Storage.Pending
     end).
Proof.
  intros Hk. unfold Storage.cards.create.
  unfold Storage.cards.get in Hk. rewrite Hk.
  unfold refreshed, put_card, created_card, Storage.timestamp.
  destruct (Storage.collections.updateStats _ collection now) as [db2 [?|?|]];
    reflexivity.
Qed.

Lemma cards_update_eq db h k data_sr now existing :
  Storage.cards.get db k = Some existing ->
  Storage.cards.update db h k data_sr now =
    (refreshed (put_card db k (updated_card existing h data_sr now))
       (Storage.collectionId existing) now,
     match snd (Storage.collections.updateStats
                  (put_card db k (updated_card existing h data_sr now))
                  (Storage.collectionId existing) now) with
     | Storage.Resolved _ =>
         Storage.Resolved (k, updated_card existing h data_sr now)
     | _ => Storage.Pending
     end).
Proof.
  intros Hk. unfold Storage.cards.update. rewrite Hk.
  unfold refreshed, put_card, updated_card, Storage.timestamp.
  destruct (Storage.collections.updateStats _ _ now) as [db2 [?|?|]];
    reflexivity.
Qed.

Lemma cards_delete_eq db k now card :
  Storage.cards.get db k = Some card ->
  Storage.cards.delete db k now =
    (refreshed (drop_card db k) (Storage.collectionId card) now,
     match snd (Storage.collections.updateStats (drop_card db k)
                  (Storage.collectionId card) now) with
     | Storage.Resolved _ => Storage.Resolved tt
     | _ => Storage.Pending
     end).
Proof.
  intros Hk. unfold Storage.cards.delete. rewrite Hk.
  unfold refreshed, drop_card.
  destruct (Storage.collections.updateStats _ _ now) as [db2 [?|?|]];
    reflexivity.
Qed.

(** X18.  Creating a card.  With an id that is not in use and a collection
    that exists, [cards.create] resolves with the new card: it is in state
    New with interval 0, ease factor 2.5, no due date and an empty history;
    it can be read back under its id and is due at every date; every other
    card is as before; the collection has one card more, and its stored
    statistics are those of its cards. *)
Theorem cards_create_stores db newId collection now col :
  Storage.cards.get db newId = None ->
  Storage.collections.get db collection = Some col ->
  let r := Storage.cards.create db newId collection now in
  snd r = Storage.Resolved (newId, created_card collection now) /\
  Storage.cards.get (fst r) newId = Some (created_card collection now) /\
  (forall k, k <> newId ->
     Storage.cards.get (fst r) k = Storage.cards.get db k) /\
  (forall date,
     (newId, created_card collection now)
       ∈ Storage.cards.getDue (fst r) collection date) /\
  stats_in_sync (fst r) collection now /\
  length (Storage.cards.getByCollection (fst r) collection) =
    S (length (Storage.cards.getByCollection db collection)).
Proof.
  intros Hk Hc r. subst r. rewrite (cards_create_eq _ _ _ _ Hk).
  cbn [fst snd].
  assert (Hc1 : Storage.collections.get
                  (put_card db newId (created_card collection now))
                  collection = Some col) by exact Hc.
  rewrite (updateStats_outcome _ _ _ _ Hc1).
  assert (Hget : Storage.cards.get
                   (refreshed (put_card db newId (created_card collection now))
                      collection now) newId =
                 Some (created_card collection now)).
  { rewrite refreshed_get. apply put_card_get. }
  split; [reflexivity|]. split; [exact Hget|]. split; [|split; [|split]].
  - intros k Hne. rewrite refreshed_get. now apply put_card_get_ne.
  - intros date. unfold Storage.cards.getDue.
    rewrite list_elem_of_In, List.filter_In, <- list_elem_of_In.
    split; [|reflexivity].
    apply elem_of_getByCollection. split; [exact Hget|reflexivity].
  - now apply (refreshed_in_sync _ _ _ col).
  - rewrite refreshed_getByCollection.
    rewrite getByCollection_insert_length by exact Hk.
    cbn [Storage.collectionId created_card].
    now rewrite bool_decide_eq_true_2.
Qed.

(** A third card for the example collection. *)
Lemma cards_create_stores_witness :
  Storage.cards.get example_db "card-7" = None /\
  Storage.collections.get example_db "deck-1" = Some example_collection /\
  Storage.totalCards
    <$> (Storage.stats
           <$> Storage.collections.get
                 (fst (Storage.cards.create example_db "card-7" "deck-1"
                         example_now)) "deck-1") = Some 3 /\
  stats_in_sync
    (fst (Storage.cards.create example_db "card-7" "deck-1" example_now))
    "deck-1" example_now.
Proof.
  assert (H1 : Storage.cards.get example_db "card-7" = None)
    by (vm_compute; reflexivity).
  assert (H2 : Storage.collections.get example_db "deck-1" =
               Some example_collection) by (vm_compute; reflexivity).
  assert (H3 : Storage.totalCards
    <$> (Storage.stats
           <$> Storage.collections.get
                 (fst (Storage.cards.create example_db "card-7" "deck-1"
                         example_now)) "deck-1") = Some 3)
    by (vm_compute; reflexivity).
  exact (conj H1 (conj H2 (conj H3
           (proj1 (proj2 (proj2 (proj2 (proj2
              (cards_create_stores example_db "card-7" "deck-1" example_now
                 example_collection H1 H2))))))))).
Defined.

(** X19.  Storing a scheduling state and reading it back.  For a card that
    is stored, in a collection that exists, [cards.update(id, { sr })]
    resolves; the card keeps its collection and its creation date; what is
    stored is a copy of [sr] with the history as it is at that moment; a
    later read returns the same scheduling state with the history in a new
    array, equal to the one stored.  Every other card is as before, no
    collection gains or loses a card, and the statistics of the card's
    collection are those of its cards. *)
Theorem cards_update_round_trip db h k s now existing col h' :
  Storage.cards.get db k = Some existing ->
  Storage.collections.get db (Storage.collectionId existing) = Some col ->
  let r := Storage.cards.update db h k (Some s) now in
  let updated := updated_card existing h (Some s) now in
  snd r = Storage.Resolved (k, updated) /\
  Storage.cards.get (fst r) k = Some updated /\
  (forall k', k' <> k ->
     Storage.cards.get (fst r) k' = Storage.cards.get db k') /\
  stats_in_sync (fst r) (Storage.collectionId existing) now /\
  (forall c,
     length (Storage.cards.getByCollection (fst r) c) =
       length (Storage.cards.getByCollection db c)) /\
  let back := Storage.read_card h' (k, updated) in
  id (snd back) = k /\
  same_schedule (sr (snd back)) s /\
  (forall l, history s = Some l ->
     history (sr (snd back)) = Some (fresh (dom h')) /\
     h' !! fresh (dom h') = None /\
     array_at (fst back) (fresh (dom h')) = array_at h l).
Proof.
  intros Hk Hc r updated. subst r. rewrite (cards_update_eq _ _ _ _ _ _ Hk).
  cbn [fst snd]. fold updated.
  assert (Hc1 : Storage.collections.get (put_card db k updated)
                  (Storage.collectionId existing) = Some col) by exact Hc.
  rewrite (updateStats_outcome _ _ _ _ Hc1).
  split; [reflexivity|]. split; [|split; [|split; [|split]]].
  - rewrite refreshed_get. apply put_card_get.
  - intros k' Hne. rewrite refreshed_get. now apply put_card_get_ne.
  - now apply (refreshed_in_sync _ _ _ col).
  - intros c. rewrite refreshed_getByCollection.
    now apply (getByCollection_put_length _ _ existing).
  - unfold Storage.read_card, Storage.revive, updated, updated_card,
      Storage.clone.
    cbn [snd fst Storage.card_sr Storage.stored_history].
    destruct (history s) as [l|] eqn:Hl; cbn [fmap option_fmap option_map];
      cbn [snd fst id sr];
      (split; [reflexivity|]); (split; [repeat split|]).
    + intros l0 [= <-]. cbn [history]. split; [reflexivity|].
      split; [apply not_elem_of_dom, is_fresh|].
      apply array_at_insert.
    + discriminate.
Qed.

(** The review card of the example, stored again as it is. *)
Lemma cards_update_round_trip_witness :
  Storage.cards.get
    (fst (Storage.cards.update example_db stored_heap "card-1"
            (Some (sr example_review_card)) example_now)) "card-1" =
    Some {| Storage.collectionId := "deck-1";
            Storage.createdAt := 1698000000000;
            Storage.updatedAt := example_now;
            Storage.card_sr :=
              Storage.clone stored_heap (sr example_review_card) |}.
Proof.
  assert (H1 : Storage.cards.get example_db "card-1" =
    Some {| Storage.collectionId := "deck-1";
            Storage.createdAt := 1698000000000;
            Storage.updatedAt := 1699000000000;
            Storage.card_sr :=
              Storage.clone stored_heap (sr example_review_card) |})
    by (vm_compute; reflexivity).
  assert (H2 : Storage.collections.get example_db "deck-1" =
               Some example_collection) by (vm_compute; reflexivity).
  exact (proj1 (proj2
           (cards_update_round_trip example_db stored_heap "card-1"
              (sr example_review_card) example_now _ example_collection
              stored_heap H1 H2))).
Defined.

(** X20.  Deleting a card.  For a card that is stored, in a collection that
    exists, [cards.delete] resolves; the card can no longer be read, every
    other card is as before, the collection has one card less, and its
    stored statistics are those of its cards. *)
Theorem cards_delete_removes db k now card col :
  Storage.cards.get db k = Some card ->
  Storage.collections.get db (Storage.collectionId card) = Some col ->
  let r := Storage.cards.delete db k now in
  snd r = Storage.Resolved tt /\
  Storage.cards.get (fst r) k = None /\
  (forall k', k' <> k ->
     Storage.cards.get (fst r) k' = Storage.cards.get db k') /\
  stats_in_sync (fst r) (Storage.collectionId card) now /\
  S (length (Storage.cards.getByCollection (fst r)
               (Storage.collectionId card))) =
    length (Storage.cards.getByCollection db (Storage.collectionId card)).
Proof.
  intros Hk Hc r. subst r. rewrite (cards_delete_eq _ _ _ _ Hk).
  cbn [fst snd].
  assert (Hc1 : Storage.collections.get (drop_card db k)
                  (Storage.collectionId card) = Some col) by exact Hc.
  rewrite (updateStats_outcome _ _ _ _ Hc1).
  split; [reflexivity|]. split; [|split; [|split]].
  - rewrite refreshed_get. unfold Storage.cards.get, drop_card. cbn.
    apply lookup_delete_eq.
  - intros k' Hne. rewrite refreshed_get.
    unfold Storage.cards.get, drop_card. cbn. now apply lookup_delete_ne.
  - now apply (refreshed_in_sync _ _ _ col).
  - rewrite refreshed_getByCollection.
    rewrite (getByCollection_delete_length db k card _ Hk).
    now rewrite bool_decide_eq_true_2.
Qed.

Lemma cards_delete_removes_witness :
  Storage.cards.get example_db "card-0" =
    Some (created_card "deck-1" 1698000000000) /\
  Storage.cards.get
    (fst (Storage.cards.delete example_db "card-0" example_now)) "card-0"
    = None /\
  map fst
    (Storage.cards.getByCollection
       (fst (Storage.cards.delete example_db "card-0" example_now)) "deck-1")
    = ["card-1"].
Proof.
  assert (H1 : Storage.cards.get example_db "card-0" =
               Some (created_card "deck-1" 1698000000000))
    by (vm_compute; reflexivity).
  assert (H2 : Storage.collections.get example_db "deck-1" =
               Some example_collection) by (vm_compute; reflexivity).
  assert (H3 : map fst
    (Storage.cards.getByCollection
       (fst (Storage.cards.delete example_db "card-0" example_now)) "deck-1")
    = ["card-1"]) by (vm_compute; reflexivity).
  exact (conj H1
           (conj (proj1 (proj2
                    (cards_delete_removes example_db "card-0" example_now
                       (created_card "deck-1" 1698000000000)
                       example_collection H1 H2)))
              H3)).
Defined.

(** X21.  Requests that are refused.  [cards.update] and [cards.delete] of
    an id that is not stored reject with the StorageError "Card not found",
    and [cards.create] under an id that is stored rejects with "Failed to
    create card"; the database is as before in each case. *)
Theorem card_requests_rejected db h k data_sr collection now :
  (Storage.cards.get db k = None ->
   Storage.cards.update db h k data_sr now =
     (db, Storage.Rejected
            (Storage.StorageError "Card not found" "update" "cards")) /\
   Storage.cards.delete db k now =
     (db, Storage.Rejected
            (Storage.StorageError "Card not found" "delete" "cards"))) /\
  (forall existing,
     Storage.cards.get db k = Some existing ->
     Storage.cards.create db k collection now =
       (db, Storage.Rejected
              (Storage.StorageError "Failed to create card" "write" "cards"))).
Proof.
  split.
  - intros Hk. unfold Storage.cards.update, Storage.cards.delete.
    rewrite Hk. split; reflexivity.
  - intros existing Hk. unfold Storage.cards.create.
    unfold Storage.cards.get in Hk. now rewrite Hk.
Qed.

Lemma card_requests_rejected_witness :
  Storage.cards.get example_db "card-7" = None /\
  Storage.cards.delete example_db "card-7" example_now =
    (example_db,
     Storage.Rejected
       (Storage.StorageError "Card not found" "delete" "cards")) /\
  Storage.cards.create example_db "card-0" "deck-1" example_now =
    (example_db,
     Storage.Rejected
       (Storage.StorageError "Failed to create card" "write" "cards")).
Proof.
  assert (H1 : Storage.cards.get example_db "card-7" = None)
    by (vm_compute; reflexivity).
  assert (H2 : Storage.cards.get example_db "card-0" =
               Some (created_card "deck-1" 1698000000000))
    by (vm_compute; reflexivity).
  exact (conj H1
           (conj (proj2 (proj1 (card_requests_rejected example_db stored_heap
                                  "card-7" None "deck-1" example_now) H1))
              (proj2 (card_requests_rejected example_db stored_heap "card-0"
                        None "deck-1" example_now)
                 (created_card "deck-1" 1698000000000) H2))).
Defined.

(** X22.  Cards of a collection that does not exist.  [cards.create] for
    such a collection stores the card, and [cards.update] and [cards.delete]
    of a card of such a collection store and remove it, but their promise
    never settles: the update of the statistics fails inside the success
    handler of the request, before [resolve], and nothing calls [reject]. *)
Theorem orphan_card_never_settles db h k data_sr collection now :
  Storage.collections.get db collection = None ->
  (Storage.cards.get db k = None ->
   let r := Storage.cards.create db k collection now in
   snd r = Storage.Pending /\
   fst r = put_card db k (created_card collection now)) /\
  (forall existing,
     Storage.cards.get db k = Some existing ->
     Storage.collectionId existing = collection ->
     let r := Storage.cards.update db h k data_sr now in
     let r' := Storage.cards.delete db k now in
     snd r = Storage.Pending /\
     fst r = put_card db k (updated_card existing h data_sr now) /\
     snd r' = Storage.Pending /\ fst r' = drop_card db k).
Proof.
  intros Hc. split.
  - intros Hk r. subst r. rewrite (cards_create_eq _ _ _ _ Hk).
    unfold refreshed.
    rewrite updateStats_missing by exact Hc. split; reflexivity.
  - intros existing Hk <- r r'. subst r r'.
    rewrite (cards_update_eq _ _ _ _ _ _ Hk), (cards_delete_eq _ _ _ _ Hk).
    unfold refreshed.
    rewrite !updateStats_missing by exact Hc. repeat split; reflexivity.
Qed.

(** The card of the example that belongs to no stored collection. *)
Lemma orphan_card_never_settles_witness :
  Storage.collections.get example_db "deck-2" = None /\
  Storage.cards.get example_db "card-9" =
    Some (created_card "deck-2" 1698000000000) /\
  snd (Storage.cards.delete example_db "card-9" example_now)
    = Storage.Pending /\
  Storage.cards.get
    (fst (Storage.cards.delete example_db "card-9" example_now)) "card-9"
    = None.
Proof.
  assert (H1 : Storage.collections.get example_db "deck-2" = None)
    by (vm_compute; reflexivity).
  assert (H2 : Storage.cards.get example_db "card-9" =
               Some (created_card "deck-2" 1698000000000))
    by (vm_compute; reflexivity).
  assert (H3 : Storage.cards.get
    (fst (Storage.cards.delete example_db "card-9" example_now)) "card-9"
    = None) by (vm_compute; reflexivity).
  exact (conj H1 (conj H2
           (conj (proj1 (proj2 (proj2
                    (proj2 (orphan_card_never_settles example_db stored_heap
                              "card-9" None "deck-2" example_now H1)
                       (created_card "deck-2" 1698000000000) H2 eq_refl))))
              H3))).
Defined.

Lemma foldr_delete_lookup (l : list (string * Storage.StoredCard))
    (m : gmap string Storage.StoredCard) k :
  foldr (fun card m => delete (fst card) m) m l !! k =
    if bool_decide (k ∈ map fst l) then None else m !! k.
Proof.
  induction l as [|[k0 c0] l IH]; cbn [foldr map fst].
  - rewrite bool_decide_eq_false_2; [reflexivity|]. apply not_elem_of_nil.
  - destruct (decide (k = k0)) as [->|Hne].
    + rewrite lookup_delete_eq. rewrite bool_decide_eq_true_2; [reflexivity|].
      apply list_elem_of_here.
    + rewrite lookup_delete_ne by congruence. rewrite IH.
      destruct (bool_decide (k ∈ map fst l)) eqn:E.
      * apply bool_decide_eq_true in E.
        rewrite bool_decide_eq_true_2; [reflexivity|].
        now apply list_elem_of_further.
      * apply bool_decide_eq_false in E.
        rewrite bool_decide_eq_false_2; [reflexivity|].
        intros H. apply elem_of_cons in H as [H|H]; congruence.
Qed.

Lemma elem_of_getByCollection_keys db collection k :
  k ∈ map fst (Storage.cards.getByCollection db collection) <->
  exists c, Storage.cards.get db k = Some c /\
            Storage.collectionId c = collection.
Proof.
  rewrite list_elem_of_fmap. split.
  - intros [[k' c] [-> H]]. exists c. now apply elem_of_getByCollection.
  - intros [c H]. exists (k, c). split; [reflexivity|].
    now apply elem_of_getByCollection.
Qed.

(** X23.  Deleting a collection deletes its cards.  [collections.delete]
    always resolves, also for an id that is not stored; afterwards the
    collection cannot be read, no card of it is left, and every other
    collection and every card of another collection is as before. *)
Theorem collections_delete_cascades db collection :
  let r := Storage.collections.delete db collection in
  snd r = Storage.Resolved tt /\
  Storage.collections.get (fst r) collection = None /\
  (forall other, other <> collection ->
     Storage.collections.get (fst r) other =
       Storage.collections.get db other) /\
  (forall k,
     Storage.cards.get (fst r) k =
       match Storage.cards.get db k with
       | Some c =>
           if bool_decide (Storage.collectionId c = collection)
           then None else Some c
       | None => None
       end) /\
  Storage.cards.getByCollection (fst r) collection = [].
Proof.
  intros r. subst r. unfold Storage.collections.delete. cbn [fst snd].
  assert (Hget : forall k,
    Storage.cards.get
      {| Storage.db_collections :=
           delete collection (Storage.db_collections db);
         Storage.db_cards :=
           foldr (fun card m => delete (fst card) m) (Storage.db_cards db)
             (Storage.cards_getByCollection db collection) |} k =
    match Storage.cards.get db k with
    | Some c =>
        if bool_decide (Storage.collectionId c = collection)
        then None else Some c
    | None => None
    end).
  { intros k. unfold Storage.cards.get at 1. cbn [Storage.db_cards].
    rewrite foldr_delete_lookup.
    change (Storage.cards_getByCollection db collection)
      with (Storage.cards.getByCollection db collection).
    destruct (Storage.cards.get db k) as [c|] eqn:Ek.
    - destruct (bool_decide (Storage.collectionId c = collection)) eqn:Ec.
      + apply bool_decide_eq_true in Ec.
        rewrite bool_decide_eq_true_2; [reflexivity|].
        apply elem_of_getByCollection_keys. eauto.
      + apply bool_decide_eq_false in Ec.
        rewrite bool_decide_eq_false_2; [exact Ek|].
        intros H. apply elem_of_getByCollection_keys in H as (c' & H1 & H2).
        congruence.
    - rewrite bool_decide_eq_false_2; [exact Ek|].
      intros H. apply elem_of_getByCollection_keys in H as (c' & H1 & H2).
      congruence. }
  split; [reflexivity|]. split; [|split; [|split]].
  - unfold Storage.collections.get. cbn. apply lookup_delete_eq.
  - intros other Hne. unfold Storage.collections.get. cbn.
    now apply lookup_delete_ne.
  - exact Hget.
  - match goal with |- ?l = [] => destruct l as [|[k c] l'] eqn:El end;
      [reflexivity|].
    assert (H : (k, c) ∈ (k, c) :: l') by apply list_elem_of_here.
    rewrite <- El in H. apply elem_of_getByCollection in H as [H1 H2].
    rewrite Hget in H1.
    destruct (Storage.cards.get db k) as [c'|]; [|discriminate].
    destruct (bool_decide (Storage.collectionId c' = collection)) eqn:Ec;
      [discriminate|].
    apply bool_decide_eq_false in Ec. congruence.
Qed.

Lemma or_default_truthy x d : truthy d = true -> truthy (or_default x d) = true.
Proof.
  intros Hd. unfold or_default. destruct x as [v|]; [|exact Hd].
  destruct (truthy v) eqn:E; assumption.
Qed.

(** X24.  Creating a collection.  Under an id that is not in use,
    [collections.create] resolves with the new collection, which can be read
    back; the other collections and all cards are as before; its statistics
    are those of a collection without cards.  Under an id that is in use it
    rejects with the StorageError "Failed to create collection" and changes
    nothing.  The settings it stores have every field, and no number among
    them is 0 or NaN: such a value is replaced by the default. *)
Theorem collections_create_stores db newId data_name data_settings now :
  let r := Storage.collections.create db newId data_name data_settings now in
  (Storage.collections.get db newId = None ->
   snd r = Storage.Resolved (created_collection data_name data_settings now) /\
   Storage.collections.get (fst r) newId =
     Some (created_collection data_name data_settings now) /\
   (forall other, other <> newId ->
      Storage.collections.get (fst r) other =
        Storage.collections.get db other) /\
   Storage.db_cards (fst r) = Storage.db_cards db /\
   (Storage.cards.getByCollection db newId = [] ->
    stats_in_sync (fst r) newId now)) /\
  (forall existing,
     Storage.collections.get db newId = Some existing ->
     r = (db, Storage.Rejected
                (Storage.StorageError "Failed to create collection" "write"
                   "collections"))) /\
  all_truthy (Storage.create_settings data_settings).
Proof.
  intros r. subst r. unfold Storage.collections.create.
  split; [|split].
  - intros Hk. unfold Storage.collections.get in Hk. rewrite Hk.
    cbn [fst snd]. unfold created_collection, Storage.timestamp.
    split; [reflexivity|]. split; [|split; [|split]].
    + unfold Storage.collections.get. cbn. apply lookup_insert_eq.
    + intros other Hne. unfold Storage.collections.get. cbn.
      now apply lookup_insert_ne.
    + reflexivity.
    + intros Hempty. unfold stats_in_sync, Storage.collections.get.
      cbn [Storage.db_collections]. rewrite lookup_insert_eq.
      cbn [fmap option_fmap option_map Storage.stats].
      unfold Storage.cards.getByCollection, Storage.cards_getByCollection,
        Storage.all_cards in *.
      cbn [Storage.db_cards]. rewrite Hempty. reflexivity.
  - intros existing Hk. unfold Storage.collections.get in Hk. now rewrite Hk.
  - unfold all_truthy, Storage.create_settings.
    cbn [newCardsPerDay reviewsPerDay graduatingInterval easyInterval
         startingEase learningSteps].
    repeat split; eexists; (try split); try reflexivity;
      apply or_default_truthy; reflexivity.
Qed.

Lemma collections_create_stores_witness :
  Storage.collections.get example_db "deck-3" = None /\
  Storage.settings
    <$> Storage.collections.get
          (fst (Storage.collections.create example_db "deck-3" "Verbs"
                  (Some zero_settings) example_now)) "deck-3" =
    Some (Some {| newCardsPerDay := Some 20%float;
                  reviewsPerDay := Some 200%float; learningSteps := Some [];
                  graduatingInterval := Some 1%float;
                  easyInterval := Some 4%float;
                  startingEase := Some 2.5%float |}).
Proof.
  assert (H1 : Storage.collections.get example_db "deck-3" = None)
    by (vm_compute; reflexivity).
  exact (conj H1
           (f_equal (fmap Storage.settings)
              (proj1 (proj2
                 (proj1 (collections_create_stores example_db "deck-3"
                           "Verbs" (Some zero_settings) example_now) H1))))).
Defined.

(** ** The study session *)

Lemma showNextCard_cards db st now :
  Storage.db_cards (fst (fst (StudySession.showNextCard db st now))) =
    Storage.db_cards db.
Proof.
  unfold StudySession.showNextCard.
  destruct (_ >=? _); cbn [fst]; [|reflexivity].
  unfold StudySession.showStudyComplete. apply refreshed_cards.
Qed.

Lemma showNextCard_session db st now :
  StudySession.studySession (snd (fst (StudySession.showNextCard db st now))) =
    StudySession.studySession st.
Proof.
  unfold StudySession.showNextCard.
  destruct (_ >=? _); reflexivity.
Qed.

(** [rateCard] on a card that is rated and stored without an error. *)
Lemma rateCard_saved {tz : TimeZone} h db st card q now rnd s existing col :
  StudySession.currentCard st = Some card ->
  snd (calculateNextReview h card q (session_settings_of st) now rnd) = Ok s ->
  Storage.cards.get db (id card) = Some existing ->
  Storage.collections.get db (Storage.collectionId existing) = Some col ->
  let h1 :=
    fst (calculateNextReview h card q (session_settings_of st) now rnd) in
  let updated := updated_card existing h1 (Some s) now in
  let db1 :=
    refreshed (put_card db (id card) updated) (Storage.collectionId existing)
      now in
  let session := StudySession.studySession st in
  let requeued := Storage.read_card h1 (id card, updated) in
  let session2 :=
    {| StudySession.session_collectionId :=
         StudySession.session_collectionId session;
       StudySession.session_settings := StudySession.session_settings session;
       StudySession.queue :=
         if q =? 0 then StudySession.queue session ++ [Some (snd requeued)]
         else StudySession.queue session;
       StudySession.currentIndex := StudySession.currentIndex session + 1;
       StudySession.reviewed := StudySession.reviewed session + 1;
       StudySession.correct :=
         if q >=? 2 then StudySession.correct session + 1
         else StudySession.correct session |} in
  let shown :=
    StudySession.showNextCard db1
      {| StudySession.currentCard := Some card;
         StudySession.studySession := session2 |} now in
  StudySession.rateCard h db st q now rnd =
    (if q =? 0 then fst requeued else h1, fst (fst shown), snd (fst shown),
     snd shown).
Proof.
  intros Hc Hs Hk Hcol h1 updated db1 session requeued session2 shown.
  unfold StudySession.rateCard. rewrite Hc.
  fold (session_settings_of st).
  subst h1.
  destruct (calculateNextReview h card q (session_settings_of st) now rnd)
    as [h1 r] eqn:E.
  cbn [fst snd] in *. subst r.
  rewrite (cards_update_eq _ _ _ _ _ _ Hk).
  assert (Hc1 : Storage.collections.get (put_card db (id card) updated)
                  (Storage.collectionId existing) = Some col) by exact Hcol.
  fold updated. rewrite (updateStats_outcome _ _ _ _ Hc1). fold db1.
  assert (Hget : Storage.cards.get db1 (id card) = Some updated).
  { subst db1. rewrite refreshed_get. apply put_card_get. }
  rewrite Hget. fold requeued.
  subst shown session2. fold session.
  destruct (q =? 0).
  - destruct requeued as [h2 c2]. cbn [fst snd].
    destruct (StudySession.showNextCard _ _ _) as [[? ?] ?]. reflexivity.
  - destruct (StudySession.showNextCard _ _ _) as [[? ?] ?]. reflexivity.
Qed.

Lemma rated_history {tz : TimeZone} h card q settings now rnd s l :
  history (sr card) = Some l ->
  snd (calculateNextReview h card q settings now rnd) = Ok s ->
  history s = Some l /\
  array_at (fst (calculateNextReview h card q settings now rnd)) l =
    array_at h l ++ [review_record card q now].
Proof.
  intros Hl Hs.
  destruct (calculateNextReview_shares _ _ _ _ _ _ _ Hs) as (H1 & _ & _).
  assert (Href : history_ref h (sr card) = l)
    by (unfold history_ref; now rewrite Hl).
  rewrite Href in H1. split; [exact H1|].
  rewrite calculateNextReview_heap, Href. apply array_at_insert.
Qed.

(** X25.  What a shown answer and a rating leave in the database.  The
    answer of the current card is shown, which computes the four estimates,
    and the card is rated [q]; the card is stored, in a collection that
    exists, and has a history array.  Then the history stored for the card
    is the array as it was before the answer was shown, followed by five
    records: qualities 0, 1, 2 and 3 from the estimates, and [q]. *)
Theorem shown_answer_is_stored {tz : TimeZone}
    h db st card q now1 rnd1 now2 rnd2 l existing col labels s :
  StudySession.currentCard st = Some card ->
  history (sr card) = Some l ->
  Storage.cards.get db (id card) = Some existing ->
  Storage.collections.get db (Storage.collectionId existing) = Some col ->
  snd (StudySession.showAnswer h st now1 rnd1) = Storage.Resolved labels ->
  let h1 := fst (StudySession.showAnswer h st now1 rnd1) in
  snd (calculateNextReview h1 card q (session_settings_of st) now2 rnd2)
    = Ok s ->
  let r := StudySession.rateCard h1 db st q now2 rnd2 in
  length labels = 4%nat /\
  stored_history_of (run_db r) (id card) =
    Some (Some (array_at h l ++
                [review_record card 0 now1; review_record card 1 now1;
                 review_record card 2 now1; review_record card 3 now1;
                 review_record card q now2])).
Proof.
  intros Hc Hl Hk Hcol Hshow h1 Hs r.
  assert (Hest : exists es,
    snd (getIntervalEstimates h card (session_settings_of st) now1 rnd1)
      = Ok es /\
    h1 = fst (getIntervalEstimates h card (session_settings_of st) now1 rnd1)
    /\ length labels = length es).
  { subst h1. revert Hshow. unfold StudySession.showAnswer. rewrite Hc.
    fold (session_settings_of st).
    destruct (getIntervalEstimates h card (session_settings_of st) now1 rnd1)
      as [h' [es|e]]; cbn [fst snd]; [|discriminate].
    intros [= <-]. exists es. rewrite length_map. auto. }
  destruct Hest as (es & Hes & Hh1 & Hlen).
  destruct (estimate_calls_history h card (session_settings_of st) now1 rnd1
              [0; 1; 2; 3] l Hl) as [H1 _].
  destruct (H1 es Hes) as [L E].
  fold (getIntervalEstimates h card (session_settings_of st) now1 rnd1) in E.
  rewrite <- Hh1 in E.
  split; [now rewrite Hlen, L|].
  subst r. rewrite (rateCard_saved _ _ _ _ _ _ _ _ _ _ Hc Hs Hk Hcol).
  unfold run_db. cbn [fst snd].
  unfold stored_history_of, Storage.cards.get.
  rewrite showNextCard_cards, refreshed_cards.
  unfold put_card. cbn [Storage.db_cards]. rewrite lookup_insert_eq.
  cbn [fmap option_fmap option_map updated_card Storage.card_sr Storage.clone
       Storage.stored_history].
  destruct (rated_history _ _ _ _ _ _ _ _ Hl Hs) as [Hh Ha].
  rewrite Hh. cbn [fmap option_fmap option_map]. rewrite Ha, E.
  rewrite <- app_assoc. reflexivity.
Qed.

(** The review card of the example, whose stored history holds one record,
    shown and rated Good: six records are stored. *)
Lemma shown_answer_is_stored_witness :
  stored_history_of example_db "card-1" = Some (Some [example_record]) /\
  qualities_of
    (stored_history_of
       (run_db
          (StudySession.rateCard (tz := UTC)
             (fst (StudySession.showAnswer (tz := UTC) stored_heap
               example_session
                     example_now (fun _ => 0.5%float)))
             example_db example_session 2 (example_now + 5000) 0.5%float))
       "card-1")
  = [2; 0; 1; 2; 3; 2].
Proof.
  assert (H0 : stored_history_of example_db "card-1" =
               Some (Some [example_record])) by (vm_compute; reflexivity).
  assert (H1 : Storage.cards.get example_db "card-1" =
    Some {| Storage.collectionId := "deck-1";
            Storage.createdAt := 1698000000000;
            Storage.updatedAt := 1699000000000;
            Storage.card_sr :=
              Storage.clone stored_heap (sr example_review_card) |})
    by (vm_compute; reflexivity).
  assert (H2 : Storage.collections.get example_db "deck-1" =
               Some example_collection) by (vm_compute; reflexivity).
  assert (H3 : snd (StudySession.showAnswer (tz := UTC) stored_heap
    example_session
                      example_now (fun _ => 0.5%float)) =
               Storage.Resolved
                 [LessThanDay; MonthsLabel 2%float; MonthsLabel 3%float;
                  MonthsLabel 3%float]) by (vm_compute; reflexivity).
  assert (H4 : snd (calculateNextReview (tz := UTC)
                      (fst (StudySession.showAnswer (tz := UTC) stored_heap
                              example_session example_now
                              (fun _ => 0.5%float)))
                      example_review_card 2
                      (session_settings_of example_session)
                      (example_now + 5000) 0.5%float) =
               Ok {| state := Review; interval := 75%float;
                     easeFactor := 2.5%float; repetitions := 6;
                     learningStep := 0; dueDate := Some 19750;
                     lastReview := Some (example_now + 5000);
                     history := Some 1%positive |})
    by (vm_compute; reflexivity).
  exact (conj H0
           (f_equal qualities_of
              (proj2 (shown_answer_is_stored stored_heap example_db
                        example_session example_review_card 2 example_now
                        (fun _ => 0.5%float) (example_now + 5000) 0.5%float
                        1%positive _ example_collection _ _
                        eq_refl eq_refl H1 H2 H3 H4)))).
Defined.

(** X26.  A rating moves the session on.  When the current card is rated
    and stored without an error, one more card is reviewed, one more is
    correct if the quality is 2 or more, and the index advances by one.  On
    Again the card is put at the end of the queue, as a new copy read from
    the database: in Learning, with the schedule just computed, and with a
    history array of its own that holds what the old one holds; any other
    rating leaves the queue as it is. *)
Theorem rateCard_accounting {tz : TimeZone} h db st card q now rnd s existing
    col :
  StudySession.currentCard st = Some card ->
  snd (calculateNextReview h card q (session_settings_of st) now rnd) = Ok s ->
  Storage.cards.get db (id card) = Some existing ->
  Storage.collections.get db (Storage.collectionId existing) = Some col ->
  let session := StudySession.studySession st in
  let r := StudySession.rateCard h db st q now rnd in
  let session' := StudySession.studySession (run_state r) in
  let h1 :=
    fst (calculateNextReview h card q (session_settings_of st) now rnd) in
  StudySession.reviewed session' = StudySession.reviewed session + 1 /\
  StudySession.correct session' =
    StudySession.correct session + (if 2 <=? q then 1 else 0) /\
  StudySession.currentIndex session' = StudySession.currentIndex session + 1 /\
  (q <> 0 ->
   StudySession.queue session' = StudySession.queue session /\
   run_heap r = h1) /\
  (q = 0 ->
   exists again,
     StudySession.queue session' =
       StudySession.queue session ++ [Some again] /\
     id again = id card /\ same_schedule (sr again) s /\
     state (sr again) = Learning /\
     history (sr again) = Some (fresh (dom h1)) /\
     h1 !! fresh (dom h1) = None /\
     array_at (run_heap r) (fresh (dom h1)) =
       array_at h1 (history_ref h (sr card))).
Proof.
  intros Hc Hs Hk Hcol session r session' h1.
  subst r session'. rewrite (rateCard_saved _ _ _ _ _ _ _ _ _ _ Hc Hs Hk Hcol).
  unfold run_state, run_heap. cbn [fst snd].
  rewrite showNextCard_session. cbn [StudySession.studySession
    StudySession.reviewed StudySession.correct StudySession.currentIndex
    StudySession.queue].
  fold session h1.
  split; [reflexivity|]. split.
  { rewrite Z.geb_leb. destruct (2 <=? q); lia. }
  split; [reflexivity|]. split.
  - intros Hq. apply Z.eqb_neq in Hq. rewrite Hq. split; reflexivity.
  - intros ->. cbn [Z.eqb].
    destruct (calculateNextReview_shares _ _ _ _ _ _ _ Hs) as (Hh & _ & _).
    assert (Hst : state s = Learning).
    { destruct (again_learning h card (session_settings_of st) now rnd)
        as (s' & Hs' & Hl).
      rewrite Hs in Hs'. injection Hs' as <-. exact Hl. }
    unfold Storage.read_card, Storage.revive, updated_card, Storage.clone.
    cbn [fst snd Storage.card_sr Storage.stored_history].
    rewrite Hh. cbn [fmap option_fmap option_map fst snd].
    eexists. split; [reflexivity|]. cbn [id sr state history].
    split; [reflexivity|]. split; [repeat split|].
    split; [exact Hst|]. split; [reflexivity|].
    split; [apply not_elem_of_dom, is_fresh|].
    apply array_at_insert.
Qed.

(** The review card of the example, rated Again: the queue of two cards has
    three, and the index is 1. *)
Lemma rateCard_accounting_witness :
  length (StudySession.queue (StudySession.studySession example_session))
    = 2%nat /\
  length
    (StudySession.queue
       (StudySession.studySession
          (run_state
             (StudySession.rateCard (tz := UTC) stored_heap example_db
               example_session 0
                example_now 0.5%float)))) = 3%nat /\
  StudySession.currentIndex
    (StudySession.studySession
       (run_state
          (StudySession.rateCard (tz := UTC) stored_heap example_db
            example_session 0
             example_now 0.5%float))) = 0 + 1.
Proof.
  assert (H1 : Storage.cards.get example_db "card-1" =
    Some {| Storage.collectionId := "deck-1";
            Storage.createdAt := 1698000000000;
            Storage.updatedAt := 1699000000000;
            Storage.card_sr :=
              Storage.clone stored_heap (sr example_review_card) |})
    by (vm_compute; reflexivity).
  assert (H2 : Storage.collections.get example_db "deck-1" =
               Some example_collection) by (vm_compute; reflexivity).
  assert (H3 : snd (calculateNextReview (tz := UTC) stored_heap
    example_review_card 0
                      (session_settings_of example_session) example_now
                      0.5%float) =
               Ok {| state := Learning; interval := 15%float;
                     easeFactor := 2.3%float; repetitions := 0;
                     learningStep := 0; dueDate := Some 19675;
                     lastReview := Some example_now;
                     history := Some 1%positive |})
    by (vm_compute; reflexivity).
  assert (H4 : length
    (StudySession.queue
       (StudySession.studySession
          (run_state
             (StudySession.rateCard (tz := UTC) stored_heap example_db
               example_session 0
                example_now 0.5%float)))) = 3%nat)
    by (vm_compute; reflexivity).
  exact (conj eq_refl (conj H4
           (proj1 (proj2 (proj2
              (rateCard_accounting stored_heap example_db example_session
                 example_review_card 0 example_now 0.5%float _ _
                 example_collection eq_refl H3 H1 H2)))))).
Defined.

(** X27.  A rating that fails.  The record of the rating is pushed on the
    history of the current card before anything can fail.  When the
    algorithm throws, [rateCard] rejects with that exception; when the card
    is no longer stored, it rejects with the StorageError "Card not found".
    In both cases the database, the counters, the queue and the index are as
    before: only the history in the program has grown. *)
Theorem rateCard_failures {tz : TimeZone} h db st card q now rnd :
  StudySession.currentCard st = Some card ->
  let h1 :=
    fst (calculateNextReview h card q (session_settings_of st) now rnd) in
  array_at h1 (history_ref h (sr card)) =
    array_at h (history_ref h (sr card)) ++ [review_record card q now] /\
  (forall e,
     snd (calculateNextReview h card q (session_settings_of st) now rnd)
       = Throw e ->
     StudySession.rateCard h db st q now rnd =
       (h1, db, st, Storage.Rejected (Storage.Thrown e))) /\
  (forall s,
     snd (calculateNextReview h card q (session_settings_of st) now rnd)
       = Ok s ->
     Storage.cards.get db (id card) = None ->
     StudySession.rateCard h db st q now rnd =
       (h1, db, st,
        Storage.Rejected
          (Storage.StorageError "Card not found" "update" "cards"))).
Proof.
  intros Hc h1. split; [|split].
  - subst h1. rewrite calculateNextReview_heap. apply array_at_insert.
  - intros e He. subst h1. unfold StudySession.rateCard. rewrite Hc.
    fold (session_settings_of st).
    destruct (calculateNextReview h card q (session_settings_of st) now rnd)
      as [h' r]. cbn [fst snd] in *. now subst r.
  - intros s Hs Hk. subst h1. unfold StudySession.rateCard. rewrite Hc.
    fold (session_settings_of st).
    destruct (calculateNextReview h card q (session_settings_of st) now rnd)
      as [h' r]. cbn [fst snd] in *. subst r.
    unfold Storage.cards.update. rewrite Hk. reflexivity.
Qed.

(** The card whose ease factor is not a number, rated Good. *)
Lemma rateCard_failures_witness :
  run_outcome
    (StudySession.rateCard (tz := UTC) stored_heap example_db corrupt_session 2
       example_now 0.5%float) = Storage.Rejected (Storage.Thrown RangeError) /\
  run_db
    (StudySession.rateCard (tz := UTC) stored_heap example_db corrupt_session 2
       example_now 0.5%float) = example_db /\
  length
    (array_at
       (run_heap
          (StudySession.rateCard (tz := UTC) stored_heap example_db
            corrupt_session 2
             example_now 0.5%float)) 1%positive) = 2%nat.
Proof.
  assert (H1 : snd (calculateNextReview (tz := UTC) stored_heap
    example_corrupt_card 2
                      (session_settings_of corrupt_session) example_now
                      0.5%float) = Throw RangeError)
    by (vm_compute; reflexivity).
  pose proof (proj1 (proj2
                (rateCard_failures stored_heap example_db corrupt_session
                   example_corrupt_card 2 example_now 0.5%float eq_refl))
                RangeError H1) as E.
  exact (conj (f_equal run_outcome E)
           (conj (f_equal run_db E)
              (eq_trans (f_equal (fun r => length (array_at (run_heap r) 1%positive)) E)
                 eq_refl))).
Defined.

Lemma clone_weaken (h1 h2 : heap) s :
  h1 ⊆ h2 ->
  (forall l, history s = Some l -> is_Some (h1 !! l)) ->
  Storage.clone h2 s = Storage.clone h1 s.
Proof.
  intros Hsub Hl. unfold Storage.clone. f_equal.
  destruct (history s) as [l|]; [|reflexivity].
  cbn [fmap option_fmap option_map]. f_equal. unfold array_at.
  destruct (Hl l eq_refl) as [v Hv].
  replace (h2 !! l) with (Some v); [now replace (h1 !! l) with (Some v)|].
  symmetry. exact (lookup_weaken h1 h2 l v Hv Hsub).
Qed.

Lemma read_card_spec (h : heap) c :
  let r := Storage.read_card h c in
  h ⊆ fst r /\
  copy_of (fst r) (snd r) c /\
  (forall l, history_loc (snd r) = Some l ->
     h !! l = None /\ is_Some (fst r !! l)).
Proof.
  unfold Storage.read_card, Storage.revive, copy_of, history_loc.
  destruct c as [k [cid ca cu [st i e rp ls dd lr hist]]].
  cbn [fst snd Storage.card_sr Storage.stored_history Storage.stored_state
       Storage.stored_interval Storage.stored_easeFactor
       Storage.stored_repetitions Storage.stored_learningStep
       Storage.stored_dueDate Storage.stored_lastReview].
  assert (Hf : h !! fresh (dom h) = None)
    by apply not_elem_of_dom, is_fresh.
  destruct hist as [records|]; cbn [fst snd id sr history].
  - split; [now apply insert_subseteq|]. split.
    + split; [reflexivity|]. unfold Storage.clone. cbn.
      f_equal. f_equal. apply array_at_insert.
    + intros l [= <-]. split; [exact Hf|].
      exists records. apply (lookup_insert_eq h).
  - split; [reflexivity|]. split; [split; reflexivity|]. discriminate.
Qed.

Lemma read_cards_spec (h : heap) cs :
  let r := Storage.read_cards h cs in
  h ⊆ fst r /\
  Forall2 (copy_of (fst r)) (snd r) cs /\
  Forall (fun card =>
            forall l, history_loc card = Some l ->
                      h !! l = None /\ is_Some (fst r !! l)) (snd r) /\
  NoDup (omap history_loc (snd r)).
Proof.
  revert h. induction cs as [|c cs IH]; intros h; cbn [Storage.read_cards].
  - cbn. split; [reflexivity|]. split; [constructor|]. split; constructor.
  - pose proof (read_card_spec h c) as (S1 & C1 & L1).
    destruct (Storage.read_card h c) as [h1 card].
    specialize (IH h1). cbv zeta in IH.
    destruct (Storage.read_cards h1 cs) as [h2 cards].
    cbn [fst snd] in *. destruct IH as (S2 & C2 & L2 & N2).
    assert (S12 : h ⊆ h2) by (etransitivity; eassumption).
    split; [exact S12|]. split; [|split].
    + constructor; [|exact C2].
      destruct C1 as [Hid Hclone]. split; [exact Hid|].
      rewrite <- Hclone. apply clone_weaken; [exact S2|].
      intros l Hl. now apply L1.
    + constructor.
      * intros l Hl. destruct (L1 l Hl) as [Hn [v Hv]].
        split; [exact Hn|]. exists v.
        exact (lookup_weaken h1 h2 l v Hv S2).
      * eapply Forall_impl; [exact L2|]. cbn beta.
        intros card' H l Hl. destruct (H l Hl) as [Hn Hs].
        split; [|exact Hs].
        destruct (h !! l) as [v|] eqn:E; [|reflexivity].
        pose proof (lookup_weaken h h1 l v E S1) as E1.
        assert (X : Some v = None)
          by (etransitivity; [symmetry; exact E1|exact Hn]).
        discriminate X.
    + change (omap history_loc (card :: cards))
        with (match history_loc card with
              | Some y => y :: omap history_loc cards
              | None => omap history_loc cards
              end).
      destruct (history_loc card) as [l|] eqn:El; [|exact N2].
      constructor; [|exact N2].
      intros Hin. apply list_elem_of_omap in Hin as (card' & Hc' & Hl').
      rewrite Forall_forall in L2.
      destruct (L2 card' Hc' l Hl') as [Hn _].
      destruct (L1 l eq_refl) as [_ [v Hv]].
      assert (X : Some v = None)
        by (etransitivity; [symmetry; exact Hv|exact Hn]).
      discriminate X.
Qed.

Lemma filter_partition {A} (f : A -> bool) l :
  Permutation (List.filter (fun x => negb (f x)) l ++ List.filter f l) l.
Proof.
  induction l as [|x l IH]; [constructor|]. cbn [List.filter].
  destruct (f x); cbn [negb app].
  - rewrite <- Permutation_middle. now constructor.
  - now constructor.
Qed.

Lemma session_queue_sub settings cards now :
  App.startStudySession settings cards now ⊆+ cards.
Proof.
  unfold App.startStudySession.
  rewrite sortStudyQueue_perm_due. unfold getDueCards.
  set (due := List.filter (is_due (todayString now)) cards).
  etransitivity; [apply sublist_submseteq, filter_sublist_self|].
  destruct (slice_to_take (List.filter is_new due)
              (or_default (settings ≫= newCardsPerDay) 20%float)) as [k2 ->].
  destruct (slice_to_take (List.filter (fun c => negb (is_new c)) due)
              (or_default (settings ≫= reviewsPerDay) 200%float)) as [k1 ->].
  etransitivity;
    [apply submseteq_app; apply sublist_submseteq, sublist_take|].
  rewrite filter_partition.
  apply sublist_submseteq, filter_sublist_self.
Qed.

(** X28.  Starting a session.  For a collection that exists,
    [startStudySession] resolves with a session whose counters are 0 and
    whose queue is the queue built from the cards of the collection as they
    are read from the database; the first card of the queue, if there is
    one, is the current card.  Every queued card is a copy of a stored card
    of the collection, with the same schedule and the same history, held in
    an array that did not exist before; and no two queued cards share an
    array. *)
Theorem session_cards_are_copies h db st collection now col :
  Storage.collections.get db collection = Some col ->
  let r := StudySession.startStudySession h db st collection now in
  let session := StudySession.studySession (run_state r) in
  let cards := snd (Storage.read_cards h
                      (Storage.cards.getByCollection db collection)) in
  let queued := App.startStudySession (Storage.settings col) cards now in
  StudySession.queue session = map Some queued /\
  StudySession.currentIndex session = 0 /\
  StudySession.reviewed session = 0 /\ StudySession.correct session = 0 /\
  StudySession.currentCard (run_state r) =
    match queued with
    | [] => StudySession.currentCard st
    | first :: _ => Some first
    end /\
  run_outcome r = Storage.Resolved tt /\
  (forall card, card ∈ queued ->
     exists stored,
       Storage.cards.get db (id card) = Some stored /\
       Storage.collectionId stored = collection /\
       Storage.clone (run_heap r) (sr card) = Storage.card_sr stored /\
       forall l, history (sr card) = Some l -> h !! l = None) /\
  NoDup (omap history_loc queued).
Proof.
  intros Hc r session cards queued.
  pose proof (read_cards_spec h (Storage.cards.getByCollection db collection))
    as (S & C & L & N).
  subst r session. unfold StudySession.startStudySession. rewrite Hc.
  subst queued cards.
  destruct (Storage.read_cards h
              (Storage.cards.getByCollection db collection)) as [h1 cards].
  cbn [fst snd] in *.
  set (queued := App.startStudySession (Storage.settings col) cards now).
  pose proof (session_queue_sub (Storage.settings col) cards now) as Hsub.
  fold queued in Hsub.
  unfold StudySession.showNextCard.
  cbn [StudySession.studySession StudySession.currentIndex StudySession.queue].
  rewrite length_map.
  destruct queued as [|first rest] eqn:Eq.
  - cbn [length Z.of_nat Z.geb Z.compare].
    unfold run_state, run_heap, run_outcome. cbn [fst snd map].
    repeat split; try reflexivity.
    + intros card Hin. now apply elem_of_nil in Hin.
    + constructor.
  - replace (0 >=? Z.of_nat (length (first :: rest))) with false
      by (symmetry; rewrite Z.geb_leb; apply Z.leb_gt; cbn [length]; lia).
    cbn [Z.ltb Z.compare Z.to_nat map lookup list_lookup mjoin option_join].
    unfold run_state, run_heap, run_outcome. cbn [fst snd].
    cbn [StudySession.studySession StudySession.currentCard
         StudySession.queue StudySession.currentIndex StudySession.reviewed
         StudySession.correct].
    split; [reflexivity|]. split; [reflexivity|]. split; [reflexivity|].
    split; [reflexivity|]. split; [reflexivity|]. split; [reflexivity|].
    split.
    + intros card Hin.
      pose proof (elem_of_submseteq _ _ _ Hin Hsub) as Hin'.
      destruct (proj1 (list_elem_of_lookup cards card) Hin') as [i Hi].
      destruct (Forall2_lookup_l _ _ _ _ _ C Hi) as (c & Hci & Hid & Hcl).
      assert (Hmem : c ∈ Storage.cards.getByCollection db collection)
        by (eapply list_elem_of_lookup_2; exact Hci).
      destruct c as [k stored]. cbn [fst snd] in *.
      apply elem_of_getByCollection in Hmem as [Hget Hcid].
      exists stored. rewrite Hid. split; [exact Hget|]. split; [exact Hcid|].
      split; [exact Hcl|].
      intros l Hl. rewrite Forall_forall in L.
      exact (proj1 (L card Hin' l Hl)).
    + destruct (submseteq_Permutation _ _ Hsub) as [k Hk].
      rewrite Hk, omap_app in N. now apply NoDup_app in N as [N1 _].
Qed.

(** The session on the example collection: the overdue review card, then
    the new card. *)
Lemma session_cards_are_copies_witness :
  Storage.collections.get example_db "deck-1" = Some example_collection /\
  map (fmap id)
    (StudySession.queue
       (StudySession.studySession
          (run_state
             (StudySession.startStudySession stored_heap example_db
                example_session "deck-1" example_now)))) =
    [Some "card-1"; Some "card-0"] /\
  run_outcome
    (StudySession.startStudySession stored_heap example_db example_session
       "deck-1" example_now) = Storage.Resolved tt.
Proof.
  assert (H1 : Storage.collections.get example_db "deck-1" =
               Some example_collection) by (vm_compute; reflexivity).
  assert (H2 : map (fmap id)
    (StudySession.queue
       (StudySession.studySession
          (run_state
             (StudySession.startStudySession stored_heap example_db
                example_session "deck-1" example_now)))) =
    [Some "card-1"; Some "card-0"]) by (vm_compute; reflexivity).
  exact (conj H1 (conj H2
           (proj1 (proj2 (proj2 (proj2 (proj2 (proj2
              (session_cards_are_copies stored_heap example_db
                 example_session "deck-1" example_now example_collection
                 H1))))))))).
Defined.
